(** * almdrlib.client: the OpenAPI v3 dynamic client builder

    A shallow embedding of [almdrlib/client.py] and the properties of its
    request compiler: parameter serialization, request-body serialization and
    content-type negotiation, call-signature derivation, error wrapping and
    the registration of operations at load time.

    Python objects become records, dictionaries become association lists that
    keep Python's insertion order, and a raised exception becomes the [Raise]
    branch of the [result] type. *)

From Stdlib Require Import String Ascii List Bool ZArith Lia DecimalString.
Import ListNotations.
Local Open Scope string_scope.
Local Open Scope list_scope.
Set Warnings "-register-all".

(** ** Keywords *)

(** Modelled from the spec: the constants of [alsdkdefs.OpenAPIKeyWord], a
    package that is not part of the sources.  The locations, the styles, the
    datatypes and the two content-type names are written as the specification
    and the OpenAPI documents spell them; [SIMPLE_DATA_TYPES] lists the
    scalar datatypes.  The properties below use that the four locations, the
    styles and the datatypes are pairwise distinct, not how they are
    spelled. *)
Module OpenAPIKeyWord.
Definition PATH := "path".
Definition QUERY := "query".
Definition HEADER := "header".
Definition COOKIE := "cookie".
Definition NAME := "name".
Definition TYPE := "type".
Definition STRING := "string".
Definition OBJECT := "object".
Definition BOOLEAN := "boolean".
Definition INTEGER := "integer".
Definition NUMBER := "number".
Definition ARRAY := "array".
Definition FORMAT := "format".
Definition PROPERTIES := "properties".
Definition REQUIRED := "required".
Definition SCHEMA := "schema".
Definition ENCODING := "encoding".
Definition EXPLODE := "explode".
Definition DATA := "data".
Definition OPERATION_ID := "operationId".
Definition PARAMETER_STYLE_FORM := "form".
Definition PARAMETER_STYLE_SIMPLE := "simple".
Definition PARAMETER_STYLE_SPACE_DELIMITED := "spaceDelimited".
Definition PARAMETER_STYLE_PIPE_DELIMITED := "pipeDelimited".
Definition CONTENT_TYPE_PARAM := "Content-Type".
Definition CONTENT_TYPE_PYTHON_PARAM := "content_type".
Definition SIMPLE_DATA_TYPES := [STRING; BOOLEAN; INTEGER; NUMBER].
End OpenAPIKeyWord.
Import OpenAPIKeyWord.

(** ** Python values *)

(** The values a caller can pass as keyword arguments and the JSON documents
    (schemas) found in a specification.  A dictionary keeps its insertion
    order; its keys are strings, as the keys of [**kwargs] and of JSON objects
    are. *)
Inductive value : Type :=
| VNone
| VBool (b : bool)
| VInt (n : Z)
| VStr (s : string)
| VBytes (s : string)
| VList (l : list value)
| VDict (d : list (string * value)).

Definition dict := list (string * value).

(** Truth value of an object, as [if x:], [not x] and [x or y] test it. *)
Definition truthy (v : value) : bool :=
  match v with
  | VNone => false
  | VBool b => b
  | VInt n => negb (n =? 0)%Z
  | VStr s => negb (s =? "")
  | VBytes s => negb (s =? "")
  | VList l => match l with [] => false | _ => true end
  | VDict d => match d with [] => false | _ => true end
  end.

(** [x is None]. *)
Definition is_none (v : value) : bool :=
  match v with VNone => true | _ => false end.

(** Lists and dictionaries are not hashable: used as a key they make a
    lookup raise [TypeError] instead of [KeyError]. *)
Definition hashable (v : value) : bool :=
  match v with VList _ | VDict _ => false | _ => true end.

(** ** Exceptions *)

(** The text of an exception, kept as the pieces its f-string is built from:
    literal text and interpolated strings are [Text]; an interpolated object
    that is not a string stays symbolic. *)
Inductive fragment : Type :=
| Text (s : string)
| Repr (v : value)              (* [{v}] for a value that is not a string *)
| Keys (ks : list string)       (* [{d.keys()}] *)
| Upper (s : string).           (* [{s.upper()}] *)

Definition message := list fragment.

(** [AlmdrlibValueError] and [ValueError] are raised by the client with a
    text of its own; the others come from Python itself ([KeyError] carries
    the key that was looked up) and from [jsonschema]. *)
Inductive exn : Type :=
| AlmdrlibValueError (m : message)
| ValueError (m : message)
| KeyError (key : value)
| TypeError
| AttributeError
| IndexError
| SchemaError.

(** [isinstance(e, AlmdrlibValueError)]: what [except AlmdrlibValueError]
    catches.  The built-in exceptions are not subclasses of it. *)
Definition is_AlmdrlibValueError (e : exn) : bool :=
  match e with AlmdrlibValueError _ => true | _ => false end.

Inductive result (A : Type) : Type :=
| Ok (a : A)
| Raise (e : exn).
Arguments Ok {A} a.
Arguments Raise {A} e.

Definition bind {A B : Type} (r : result A) (k : A -> result B) : result B :=
  match r with
  | Ok a => k a
  | Raise e => Raise e
  end.

Notation "x <- c ;; k" := (bind c (fun x => k))
  (at level 61, c at next level, right associativity).
Notation "' p <- c ;; k" := (bind c (fun p => k))
  (at level 61, p pattern, c at next level, right associativity).

Definition is_ok {A : Type} (r : result A) : bool :=
  match r with Ok _ => true | Raise _ => false end.

(** A [for] loop whose body may raise: the state is threaded through the
    items in order and the first exception ends the loop. *)
Fixpoint foldM {A S : Type} (body : S -> A -> result S) (l : list A) (s : S)
  : result S :=
  match l with
  | [] => Ok s
  | a :: l' => s' <- body s a ;; foldM body l' s'
  end.

(** ** Dictionaries *)

Section Dict.
Context {V : Type}.

(** [d.get(k)] *)
Fixpoint dict_get (k : string) (d : list (string * V)) : option V :=
  match d with
  | [] => None
  | (k', v) :: d' => if k =? k' then Some v else dict_get k d'
  end.

(** [k in d] *)
Definition dict_mem (k : string) (d : list (string * V)) : bool :=
  match dict_get k d with Some _ => true | None => false end.

(** [d[k] = v]: an existing key keeps its place, a new key goes last. *)
Fixpoint dict_set (k : string) (v : V) (d : list (string * V))
  : list (string * V) :=
  match d with
  | [] => [(k, v)]
  | (k', v') :: d' =>
      if k =? k' then (k, v) :: d' else (k', v') :: dict_set k v d'
  end.

(** [del d[k]], the dictionary left by [d.pop(k, default)]. *)
Fixpoint dict_del (k : string) (d : list (string * V)) : list (string * V) :=
  match d with
  | [] => []
  | (k', v') :: d' => if k =? k' then d' else (k', v') :: dict_del k d'
  end.

(** [d.update(src)] for a mapping [src]. *)
Definition dict_update (d src : list (string * V)) : list (string * V) :=
  fold_left (fun acc kv => dict_set (fst kv) (snd kv) acc) src d.

(** [d.keys()] *)
Definition dict_keys (d : list (string * V)) : list string := map fst d.

End Dict.

(** [d.get(k, default)] *)
Definition dict_get_default {V : Type} (k : string) (default : V)
  (d : list (string * V)) : V :=
  match dict_get k d with Some v => v | None => default end.

(** [s.replace(a, b)] for single characters. *)
Fixpoint replace_char (a b : ascii) (s : string) : string :=
  match s with
  | EmptyString => EmptyString
  | String c s' =>
      String (if Ascii.eqb c a then b else c) (replace_char a b s')
  end.

(** The characters of a string, one string each: what iterating a [str]
    yields. *)
Fixpoint chars (s : string) : list string :=
  match s with
  | EmptyString => []
  | String c s' => String c EmptyString :: chars s'
  end.

(** [x in l] for a list of strings. *)
Definition str_in (x : string) (l : list string) : bool :=
  existsb (String.eqb x) l.

(** ** Collaborators *)

(** The session collaborator ([almdrlib.session], consumed and not implemented
    by the client): [get_default] returns the default the session holds for a
    parameter name, or [None].  The client is taken to be built with a
    session, as the library builds it. *)
Class Session : Type := {
  get_default : string -> value
}.

(** Python built-ins and the libraries the client calls, left abstract: every
    property below holds whatever they compute.
    - [py_str] is [str(v)], [py_lower] is [str.lower];
    - [py_sorted lt l] is [sorted(l)] driven by [__lt__], which may raise;
    - [py_update_from d v] is [d.update(v)] for a [v] that is not a mapping;
    - [json_dumps] is [json.dumps];
    - [jsonschema_check_schema] is
      [validator_for(schema).check_schema(schema)] and
      [jsonschema_validate schema data] is
      [validator_cls(schema).validate(data)], where
      [Some msg] stands for a [jsonschema] [ValidationError] of message
      [msg]. *)
Class Runtime : Type := {
  py_str : value -> string;
  py_lower : string -> string;
  py_sorted : forall A : Type, (A -> A -> result bool) -> list A -> result (list A);
  py_update_from : dict -> value -> result dict;
  json_dumps : value -> result string;
  jsonschema_check_schema : value -> result unit;
  jsonschema_validate : value -> value -> option string
}.

(** ** [serialize_value] and the string join *)

(** [serialize_value(datatype, value)] *)
Definition serialize_value `{Runtime} (datatype : string) (v : value) : value :=
  if STRING =? datatype then v
  else if BOOLEAN =? datatype then
    (if truthy v then VStr "true" else VStr "false")
  else VStr (py_str v).

(** The strings of a list whose items are all [str]. *)
Fixpoint str_items (l : list value) : option (list string) :=
  match l with
  | [] => Some []
  | VStr s :: l' =>
      match str_items l' with
      | Some ss => Some (s :: ss)
      | None => None
      end
  | _ :: _ => None
  end.

(** [delimiter.join(value)]: the items of a list must all be [str]; a string
    is joined character by character and a dictionary by its keys; anything
    else is a [TypeError]. *)
Definition str_join (delimiter : string) (v : value) : result string :=
  match v with
  | VList l =>
      match str_items l with
      | Some ss => Ok (String.concat delimiter ss)
      | None => Raise TypeError
      end
  | VStr s => Ok (String.concat delimiter (chars s))
  | VDict d => Ok (String.concat delimiter (dict_keys d))
  | VBytes EmptyString => Ok ""
  | _ => Raise TypeError
  end.

(** ** [inspect.Parameter] *)

Inductive pytype : Type := Tstr | Tbool | Tint | Tdict | Tlist.

Inductive kind : Type := KEYWORD_ONLY.

(** An [inspect.Parameter]; [None] is [inspect.Parameter.empty]. *)
Record inspect_Parameter : Type := {
  ip_name : string;
  ip_kind : kind;
  ip_default : option value;
  ip_annotation : option pytype
}.

(** [openapi_type_to_python_data_type(data_type)] *)
Definition openapi_type_to_python_data_type (data_type : string)
  : option pytype :=
  dict_get data_type
    [(STRING, Tstr); (BOOLEAN, Tbool); (INTEGER, Tint);
     (OBJECT, Tdict); (ARRAY, Tlist)].

(** [v or inspect.Parameter.empty] *)
Definition or_empty (v : value) : option value :=
  if truthy v then Some v else None.

(** ** The request parts of one call *)

(** The four dictionaries the call closure fills and the keyword arguments
    it consumes. *)
Record CallState : Type := {
  path_params : dict;
  params : dict;
  headers : dict;
  cookies : dict;
  kwargs : dict
}.

Definition set_path_params (st : CallState) (d : dict) : CallState :=
  {| path_params := d; params := params st; headers := headers st;
     cookies := cookies st; kwargs := kwargs st |}.
Definition set_params (st : CallState) (d : dict) : CallState :=
  {| path_params := path_params st; params := d; headers := headers st;
     cookies := cookies st; kwargs := kwargs st |}.
Definition set_headers (st : CallState) (d : dict) : CallState :=
  {| path_params := path_params st; params := params st; headers := d;
     cookies := cookies st; kwargs := kwargs st |}.
Definition set_cookies (st : CallState) (d : dict) : CallState :=
  {| path_params := path_params st; params := params st; headers := headers st;
     cookies := d; kwargs := kwargs st |}.
Definition set_kwargs (st : CallState) (d : dict) : CallState :=
  {| path_params := path_params st; params := params st; headers := headers st;
     cookies := cookies st; kwargs := d |}.

(** The state [f] starts from: four empty dictionaries and the caller's
    keyword arguments. *)
Definition initial_state (kw : dict) : CallState :=
  {| path_params := []; params := []; headers := []; cookies := [];
     kwargs := kw |}.

(** ** [PathParameter] *)

Module PathParameter.

(** The parameter object of a specification as [__init__] reads it. *)
Record spec : Type := {
  s_in : string;
  s_name : string;
  s_required : option bool;
  s_description : option string;
  s_type : option string;            (* [spec["schema"]["type"]] *)
  s_style : option string;
  s_explode : option bool
}.

Record t : Type := {
  _in : string;
  _name : string;
  _schema_name : string;
  _required : bool;
  _description : string;
  _datatype : string;
  _style : string;
  _explode : bool
}.

Definition default_style (parameter_in : string) : string :=
  if parameter_in =? QUERY then PARAMETER_STYLE_FORM
  else if parameter_in =? PATH then PARAMETER_STYLE_SIMPLE
  else if parameter_in =? HEADER then PARAMETER_STYLE_SIMPLE
  else if parameter_in =? COOKIE then PARAMETER_STYLE_FORM
  else PARAMETER_STYLE_SIMPLE.

Definition default_explode (style : string) : bool :=
  if style =? PARAMETER_STYLE_FORM then true else false.

Definition or_default {A : Type} (o : option A) (d : A) : A :=
  match o with Some a => a | None => d end.

(** [PathParameter.__init__]; [_init_name] turns the dashes of the declared
    name into underscores and keeps the declared name as [_schema_name]. *)
Definition __init__ (s : spec) : t :=
  let style := or_default (s_style s) (default_style (s_in s)) in
  {| _in := s_in s;
     _name := replace_char "-" "_" (s_name s);
     _schema_name := s_name s;
     _required := or_default (s_required s) false;
     _description := or_default (s_description s) "";
     _datatype := or_default (s_type s) STRING;
     _style := style;
     _explode := or_default (s_explode s) (default_explode style) |}.

(** The [required] property. *)
Definition required (p : t) : bool :=
  _required p || (_in p =? PATH).

(** The [default] property.  The source caches the session's answer in
    [_default] once it is not [None]; the session's answer for a name does
    not change during a call, so the cache is not part of the state. *)
Definition default `{Session} (p : t) : value :=
  get_default (_name p).

Definition valid_styles : list string :=
  [PARAMETER_STYLE_FORM; PARAMETER_STYLE_SPACE_DELIMITED;
   PARAMETER_STYLE_PIPE_DELIMITED].

(** [serialize_query_parameter(style, explode, name, datatype, value)].  The
    result is the object handed to [query_params.update]: a dictionary,
    except for an object in exploded form style, where it is the raw
    value. *)
Definition serialize_query_parameter `{Runtime}
  (style : string) (explode : bool) (name datatype : string) (v : value)
  : result value :=
  if negb (str_in style valid_styles) then
    Raise (ValueError [Text name; Text " query parameter has invalid style: ";
                       Text style])
  else if (datatype =? OBJECT) && (style =? PARAMETER_STYLE_FORM) then
    if explode then Ok v
    else
      match v with
      | VDict d =>
          let serialized_pairs :=
            map (fun ab => (fst ab ++ "," ++ py_str (snd ab))%string) d in
          Ok (VDict [(name, VStr (String.concat "," serialized_pairs))])
      | _ => Raise AttributeError
      end
  else if datatype =? ARRAY then
    if explode then Ok (VDict [(name, v)])
    else
      let delimiter :=
        if style =? PARAMETER_STYLE_SPACE_DELIMITED then " "
        else if style =? PARAMETER_STYLE_PIPE_DELIMITED then "|"
        else "," in
      joined <- str_join delimiter v ;;
      Ok (VDict [(name, VStr joined)])
  else if datatype =? BOOLEAN then
    Ok (VDict [(name, VStr (py_lower (py_str v)))])
  else Ok (VDict [(name, v)]).

(** [query_params.update(new_query_params)] *)
Definition update_with `{Runtime} (d : dict) (v : value) : result dict :=
  match v with
  | VDict src => Ok (dict_update d src)
  | _ => py_update_from d v
  end.

(** [serialize(path_params, query_params, headers, cookies, kwargs)].  The
    first component of the result is the returned object: [None] when the
    parameter was skipped, [True] when it was placed. *)
Definition serialize `{Runtime} `{Session} (p : t) (st : CallState)
  : result (value * CallState) :=
  if negb (dict_mem (_name p) (kwargs st)) && negb (truthy (default p)) then
    if _required p then
      Raise (ValueError [Text "'"; Text (_name p); Text "' is required"])
    else Ok (VNone, st)
  else
    let raw_value := dict_get_default (_name p) (default p) (kwargs st) in
    let st := set_kwargs st (dict_del (_name p) (kwargs st)) in
    let v := serialize_value (_datatype p) raw_value in
    if _in p =? PATH then
      Ok (VBool true,
          set_path_params st (dict_set (_schema_name p) v (path_params st)))
    else if _in p =? QUERY then
      new_query_params <-
        serialize_query_parameter (_style p) (_explode p) (_name p)
          (_datatype p) raw_value ;;
      query_params <- update_with (params st) new_query_params ;;
      Ok (VBool true, set_params st query_params)
    else if _in p =? HEADER then
      Ok (VBool true,
          set_headers st (dict_set (_schema_name p) v (headers st)))
    else if _in p =? COOKIE then
      Ok (VBool true,
          set_cookies st (dict_set (_schema_name p) v (cookies st)))
    else Ok (VBool true, st).

(** [to_inspect_parameter()] *)
Definition to_inspect_parameter `{Session} (p : t) : inspect_Parameter :=
  {| ip_name := _name p;
     ip_kind := KEYWORD_ONLY;
     ip_default := or_empty (default p);
     ip_annotation := openapi_type_to_python_data_type (_datatype p) |}.

Definition location_ranks : list (string * Z) :=
  [(PATH, 0%Z); (QUERY, 1%Z); (HEADER, 2%Z); (COOKIE, 3%Z)].

(** [__lt__(self, other)], for two [PathParameter] objects (the branch on
    differing types does not arise among the parameters of an operation).
    Comparing the ranks of a location outside the table compares [None] and
    raises [TypeError]. *)
Definition __lt__ `{Session} (self other : t) : result bool :=
  if required self && negb (required other) then Ok true
  else if is_none (default self) && negb (is_none (default other)) then Ok true
  else
    match dict_get (_in self) location_ranks,
          dict_get (_in other) location_ranks with
    | Some a, Some b =>
        if (a <? b)%Z then Ok true
        else Ok (String.ltb (_name self) (_name other))
    | _, _ => Raise TypeError
    end.

End PathParameter.

(** ** [RequestBodyParameter] and its three variants *)

Module RequestBodyParameter.

(** What the subclasses add to the base class. *)
Inductive variant : Type :=
| RequestBodySchemaParameter
| RequestBodySimpleParameter (_format : option value)
| RequestBodyObjectParameter (_explode : bool) (_properties : dict)
    (_required_properties : list string).

(** [_schema] is the schema the validator was built from. *)
Record t : Type := {
  _name : string;
  _content_type : string;
  _schema : value;
  _required : bool;
  _variant : variant
}.

(** The vendor schema ([x-alertlogic-schema]) of a content type, as
    [add_content] and the object variant read it. *)
Record al_schema : Type := {
  al_name : option string;
  al_encoding : option value
}.

(** [_normalize_schema(name, schema, required)] *)
Definition _normalize_schema (name : string) (schema : dict) (required : bool)
  : dict :=
  let wrapped :=
    [(TYPE, VStr OBJECT); (PROPERTIES, VDict [(name, VDict schema)])]
    ++ (if required then [(REQUIRED, VList [VStr name])] else []) in
  match dict_get PROPERTIES schema with
  | Some properties => if truthy properties then schema else wrapped
  | None => wrapped
  end.

(** The schema's [properties] as a dictionary and its [required] as a list of
    names; a schema where they are anything else is not a JSON Schema
    ([check_schema] refuses it), which the embedding reports as
    [SchemaError]. *)
Definition schema_properties (schema : dict) : result dict :=
  match dict_get PROPERTIES schema with
  | Some (VDict properties) => Ok properties
  | _ => Raise SchemaError
  end.

Definition schema_required (schema : dict) : result (list string) :=
  match dict_get REQUIRED schema with
  | None => Ok []
  | Some (VList l) =>
      match str_items l with
      | Some names => Ok names
      | None => Raise SchemaError
      end
  | Some _ => Raise SchemaError
  end.

(** [for name in self._required_properties:
       self._properties[name].update({'x-alertlogic-required': True})] *)
Fixpoint mark_required (names : list string) (properties : dict)
  : result dict :=
  match names with
  | [] => Ok properties
  | name :: names' =>
      match dict_get name properties with
      | None => Raise (KeyError (VStr name))
      | Some (VDict sub) =>
          mark_required names'
            (dict_set name
               (VDict (dict_set "x-alertlogic-required" (VBool true) sub))
               properties)
      | Some _ => Raise AttributeError
      end
  end.

(** [encoding and encoding.get("explode", False)], as a truth value. *)
Definition encoding_explode (encoding : option value) : result bool :=
  match encoding with
  | None => Ok false
  | Some e =>
      if truthy e then
        match e with
        | VDict ed => Ok (truthy (dict_get_default EXPLODE (VBool false) ed))
        | _ => Raise AttributeError
        end
      else Ok false
  end.

(** [RequestBodyObjectParameter.__init__] *)
Definition init_object `{Runtime} (name content_type : string) (schema : dict)
  (al : al_schema) (required : bool) : result t :=
  let normalized := _normalize_schema name schema required in
  _ <- jsonschema_check_schema (VDict normalized) ;;
  explode <- encoding_explode (al_encoding al) ;;
  properties <- schema_properties normalized ;;
  required_properties <- schema_required normalized ;;
  properties <-
    (if truthy (VDict properties)
     then mark_required required_properties properties
     else Ok properties) ;;
  Ok {| _name := name;
        _content_type := content_type;
        _schema := VDict (dict_set PROPERTIES (VDict properties) normalized);
        _required := required;
        _variant :=
          RequestBodyObjectParameter explode properties required_properties |}.

(** [RequestBodySimpleParameter.__init__] *)
Definition init_simple `{Runtime} (name content_type : string) (schema : dict)
  (required : bool) : result t :=
  _ <- jsonschema_check_schema (VDict schema) ;;
  Ok {| _name := name;
        _content_type := content_type;
        _schema := VDict schema;
        _required := required;
        _variant := RequestBodySimpleParameter (dict_get FORMAT schema) |}.

(** [RequestBodySchemaParameter.__init__] *)
Definition init_schema `{Runtime} (name content_type : string) (schema : dict)
  (required : bool) : result t :=
  _ <- jsonschema_check_schema (VDict schema) ;;
  Ok {| _name := name;
        _content_type := content_type;
        _schema := VDict schema;
        _required := required;
        _variant := RequestBodySchemaParameter |}.

(** The [schema] property: [{name: schema}], and the properties for the
    object variant. *)
Definition schema (p : t) : value :=
  match _variant p with
  | RequestBodyObjectParameter _ properties _ => VDict properties
  | _ => VDict [(_name p, _schema p)]
  end.

(** [validate(data)] *)
Definition validate `{Runtime} (p : t) (data : value) : result unit :=
  match jsonschema_validate (_schema p) data with
  | Some msg => Raise (AlmdrlibValueError [Text "Validation Error: "; Text msg])
  | None => Ok tt
  end.

Definition json_content_types : list string :=
  ["application/json"; "alertlogic/json"].

(** [{k: kwargs.pop(k) for k in self._properties.keys() if k in kwargs}]:
    the collected object and the keyword arguments that are left. *)
Fixpoint collect (keys : list string) (kwargs : dict) : dict * dict :=
  match keys with
  | [] => ([], kwargs)
  | k :: keys' =>
      match dict_get k kwargs with
      | Some v =>
          let (result, kwargs') := collect keys' (dict_del k kwargs) in
          ((k, v) :: result, kwargs')
      | None => collect keys' kwargs
      end
  end.

(** [isinstance(data, bytes)] *)
Definition is_bytes (v : value) : bool :=
  match v with VBytes _ => true | _ => false end.

(** [self._format == 'binary'] *)
Definition is_binary (format : option value) : bool :=
  match format with
  | Some (VStr f) => f =? "binary"
  | _ => false
  end.

(** [serialize(kwargs, headers)] of the three variants: the keyword arguments
    after the call, with the payload under ["data"]. *)
Definition serialize `{Runtime} (p : t) (kwargs : dict) : result dict :=
  match _variant p with
  | RequestBodySchemaParameter =>
      let data := dict_get_default (_name p) (VDict []) kwargs in
      let kwargs := dict_del (_name p) kwargs in
      if str_in (_content_type p) json_content_types then
        _ <- validate p data ;;
        payload <- json_dumps data ;;
        Ok (dict_set "data" (VStr payload) kwargs)
      else Ok (dict_set "data" data kwargs)
  | RequestBodySimpleParameter format =>
      let data := dict_get_default (_name p) (VStr "") kwargs in
      let kwargs := dict_del (_name p) kwargs in
      if is_binary format && negb (is_bytes data) then
        match data with
        | VStr s => Ok (dict_set "data" (VBytes s) kwargs)
        | _ => Raise AttributeError
        end
      else Ok (dict_set "data" data kwargs)
  | RequestBodyObjectParameter explode properties required_properties =>
      if negb (forallb (fun name => dict_mem name kwargs) required_properties)
      then
        Raise (AlmdrlibValueError
                 [Text "'"; Repr (VList (map VStr required_properties));
                  Text "' parameters are required. '"; Repr (VDict kwargs);
                  Text "' were provided."])
      else
        let (result, kwargs) := collect (dict_keys properties) kwargs in
        if _required p && negb (truthy (VDict result)) then
          Raise (AlmdrlibValueError
                   [Text "At least one the "; Keys (dict_keys properties);
                    Text " parameters must be specified."])
        else
          _ <- validate p (VDict result) ;;
          if explode then
            match dict_get (_name p) result with
            | Some sub =>
                payload <- json_dumps sub ;;
                Ok (dict_set "data" (VStr payload) kwargs)
            | None => Raise (KeyError (VStr (_name p)))
            end
          else
            payload <- json_dumps (VDict result) ;;
            Ok (dict_set "data" (VStr payload) kwargs)
  end.

End RequestBodyParameter.

(** ** [RequestBody] *)

Module RequestBody.

Record t : Type := {
  _parameters : list (string * dict);
  _required : bool;
  _description : option string;
  _content : list (string * RequestBodyParameter.t)
}.

(** [RequestBody.__init__] *)
Definition __init__ (required : bool) (description : option string) : t :=
  {| _parameters := []; _required := required; _description := description;
     _content := [] |}.

(** The [default_content_type] property: the declared content type when
    there is exactly one, [None] otherwise.  The source computes it at the
    first access and keeps it; every [add_content] of a body happens at load
    time, before any access. *)
Definition default_content_type (b : t) : value :=
  match _content b with
  | [(content_type, _)] => VStr content_type
  | _ => VNone
  end.

(** [schema["type"] == s] *)
Definition type_is (datatype : option value) (s : string) : bool :=
  match datatype with
  | Some (VStr d) => d =? s
  | _ => false
  end.

(** [add_content(content_type, schema, al_schema)] *)
Definition add_content `{Runtime} (b : t) (content_type : string)
  (schema : value) (al : RequestBodyParameter.al_schema) : result t :=
  if negb (truthy schema) then Ok b
  else
    match schema with
    | VDict sd =>
        let datatype := dict_get TYPE sd in
        let name := PathParameter.or_default
                      (RequestBodyParameter.al_name al) DATA in
        parameter <-
          (if type_is datatype OBJECT then
             RequestBodyParameter.init_object name content_type sd al
               (_required b)
           else if existsb (type_is datatype) SIMPLE_DATA_TYPES then
             RequestBodyParameter.init_simple name content_type sd
               (_required b)
           else
             RequestBodyParameter.init_schema name content_type sd
               (_required b)) ;;
        let entry := (content_type, RequestBodyParameter.schema parameter) in
        Ok {| _parameters :=
                match dict_get name (_parameters b) with
                | Some known =>
                    dict_set name
                      (dict_set (fst entry) (snd entry) known) (_parameters b)
                | None => dict_set name [entry] (_parameters b)
                end;
              _required := _required b;
              _description := _description b;
              _content := dict_set content_type parameter (_content b) |}
    | _ => Raise AttributeError
    end.

(** [self._content[content_type]] *)
Definition getitem_content (b : t) (content_type : value)
  : result RequestBodyParameter.t :=
  match content_type with
  | VStr ct =>
      match dict_get ct (_content b) with
      | Some parameter => Ok parameter
      | None => Raise (KeyError content_type)
      end
  | _ => if hashable content_type then Raise (KeyError content_type)
         else Raise TypeError
  end.

(** [serialize(headers, kwargs)]: the headers and the keyword arguments after
    the call. *)
Definition serialize `{Runtime} (b : t) (headers kwargs : dict)
  : result (dict * dict) :=
  match dict_get "content_type" kwargs with
  | Some content_type =>
      let kwargs := dict_del "content_type" kwargs in
      payload_body_param <- getitem_content b content_type ;;
      let headers := dict_set CONTENT_TYPE_PARAM content_type headers in
      kwargs <- RequestBodyParameter.serialize payload_body_param kwargs ;;
      Ok (headers, kwargs)
  | None =>
      match dict_get CONTENT_TYPE_PARAM headers with
      | Some content_type =>
          payload_body_param <- getitem_content b content_type ;;
          kwargs <- RequestBodyParameter.serialize payload_body_param kwargs ;;
          Ok (headers, kwargs)
      | None =>
          if truthy (default_content_type b) then
            let ct := default_content_type b in
            payload_body_param <- getitem_content b ct ;;
            let headers := dict_set CONTENT_TYPE_PARAM ct headers in
            kwargs <-
              RequestBodyParameter.serialize payload_body_param kwargs ;;
            Ok (headers, kwargs)
          else
            Raise (AlmdrlibValueError
                     [Text "'"; Text CONTENT_TYPE_PYTHON_PARAM; Text "'";
                      Text "parameter is required."])
      end
  end.

End RequestBody.

(** ** [OperationResponse] *)

Module OperationResponse.

(** A response object of the specification: its [content], a mapping from
    content type to media-type object. *)
Record response_spec : Type := {
  r_content : option (list (string * value))
}.

Record t : Type := {
  _response_schema : value
}.

(** [_add_response(content)]: only the first content type is read (the
    warning about a content type outside the JSON family is only logged). *)
Definition _add_response (resp : t) (content : option (list (string * value)))
  : result t :=
  match content with
  | None | Some [] => Ok resp
  | Some ((_, content_type_schema) :: _) =>
      if negb (truthy content_type_schema) then Ok resp
      else
        match content_type_schema with
        | VDict d => Ok {| _response_schema := dict_get_default SCHEMA VNone d |}
        | _ => Raise AttributeError
        end
  end.

(** [OperationResponse.__init__(schema)]; [schema] is
    [op_spec.pop("responses", None)]. *)
Definition __init__ (schema : option (list (string * response_spec)))
  : result t :=
  match schema with
  | None => Raise AttributeError
  | Some responses =>
      foldM
        (fun resp code_schema =>
           match fst code_schema with
           | EmptyString => Raise IndexError
           | String c _ =>
               if Ascii.eqb c "2"
               then _add_response resp (r_content (snd code_schema))
               else Ok resp
           end)
        responses {| _response_schema := VDict [] |}
  end.

End OperationResponse.

(** ** [Operation] *)

Module Operation.

(** [_client_name] is [self._client.name], the only use the operation makes
    of its client. *)
Record t : Type := {
  _path : string;
  _params : list PathParameter.t;
  _summary : string;
  _description : string;
  _method : string;
  _body : option RequestBody.t;
  _response : OperationResponse.t;
  _operation_id : string;
  _client_name : string
}.

(** [__repr__]: [<client.operation_id: METHOD path>] *)
Definition __repr__ (op : t) : message :=
  [Text "<"; Text (_client_name op); Text "."; Text (_operation_id op);
   Text ": "; Upper (_method op); Text " "; Text (_path op); Text ">"].

(** [for param in self._params: param.serialize(...)] *)
Definition serialize_params `{Runtime} `{Session}
  (ps : list PathParameter.t) (st : CallState) : result CallState :=
  foldM (fun st param =>
           r <- PathParameter.serialize param st ;; Ok (snd r))
        ps st.

(** The closure [f] built by [_gen_call], as far as the serialization of
    the parameters and of the body goes: [Ok st] means that both went
    through and that [f] goes on with the request parts [st]; [Raise e]
    means that [f] ends with [e].  The statements of [f] around them
    (re-resolving the server URL for an [account_id], renaming the internal
    [_]-prefixed arguments, formatting the URL and dispatching through the
    session collaborator) are not part of the embedding. *)
Definition _gen_call `{Runtime} `{Session} (op : t) (kw : dict)
  : result CallState :=
  st <- serialize_params (_params op) (initial_state kw) ;;
  match _body op with
  | Some body =>
      r <- RequestBody.serialize body (headers st) (kwargs st) ;;
      Ok (set_kwargs (set_headers st (fst r)) (snd r))
  | None => Ok st
  end.

(** [__call__]: the closure is called inside [try]; an [AlmdrlibValueError]
    [e] is caught and [AlmdrlibValueError(f'{self} failed {e}')] is raised in
    its place; any other exception passes through.  As for [_gen_call],
    [Ok st] stands for a call whose serialization went through. *)
Definition __call__ `{Runtime} `{Session} (op : t) (kw : dict)
  : result CallState :=
  match _gen_call op kw with
  | Raise (AlmdrlibValueError e) =>
      Raise (AlmdrlibValueError (__repr__ op ++ [Text " failed "] ++ e))
  | r => r
  end.

(** The [content_type] parameter [_make_signature] defines for an operation
    with a body, unless a declared parameter already has that name. *)
Definition content_type_parameter `{Session} (op : t) (body : RequestBody.t)
  : list inspect_Parameter :=
  let ct_present :=
    str_in CONTENT_TYPE_PYTHON_PARAM
      (map PathParameter._name (_params op)) in
  if negb ct_present then
    [{| ip_name := CONTENT_TYPE_PYTHON_PARAM;
        ip_kind := KEYWORD_ONLY;
        ip_default := or_empty (RequestBody.default_content_type body);
        ip_annotation := Some Tstr |}]
  else [].

(** The [body_params] list of [_make_signature]. *)
Definition body_params `{Session} (op : t) : list inspect_Parameter :=
  match _body op with
  | Some body =>
      content_type_parameter op body
      ++ map (fun body_param =>
                {| ip_name := body_param; ip_kind := KEYWORD_ONLY;
                   ip_default := None; ip_annotation := None |})
             (dict_keys (RequestBody._parameters body))
  | None => []
  end.

(** [_make_signature()]: the parameter list handed to [inspect.Signature]. *)
Definition _make_signature `{Runtime} `{Session} (op : t)
  : result (list inspect_Parameter) :=
  sorted_params <- py_sorted _ PathParameter.__lt__ (_params op) ;;
  let required_params :=
    map PathParameter.to_inspect_parameter
        (filter PathParameter.required sorted_params) in
  let non_required_params :=
    map PathParameter.to_inspect_parameter
        (filter (fun p => negb (PathParameter.required p)) sorted_params) in
  Ok (required_params ++ body_params op ++ non_required_params).

(** The names [__doc__] lists under "Required parameters:". *)
Definition required_param_names `{Runtime} `{Session} (op : t)
  : result (list string) :=
  sorted_params <- py_sorted _ PathParameter.__lt__ (_params op) ;;
  Ok (map PathParameter._name
        (filter (fun p => PathParameter.required p
                          && is_none (PathParameter.default p))
                sorted_params)).

End Operation.

(** ** [Client] *)

Module Client.

(** A media-type object of a request body: its [schema] and its vendor
    schema [x-alertlogic-schema]. *)
Record media_type_spec : Type := {
  mt_schema : option value;
  mt_al_schema : option RequestBodyParameter.al_schema
}.

(** A [requestBody] object that is not empty. *)
Record request_body_spec : Type := {
  rb_required : option bool;
  rb_description : option string;
  rb_content : option (list (string * media_type_spec))
}.

(** The sub-document of one operation.  [requestBody] is [None] when the key
    is missing or its value is empty, the two cases [if not body_spec]
    treats alike. *)
Record operation_spec : Type := {
  operationId : option string;
  summary : option string;
  description : option string;
  parameters : option (list PathParameter.spec);
  requestBody : option request_body_spec;
  responses : option (list (string * OperationResponse.response_spec))
}.

(** [paths]: path, then method, then operation. *)
Definition paths_spec := list (string * list (string * operation_spec)).

Inductive warning : Type :=
| operationId_not_found (method path : string).

Record t : Type := {
  _name : string;
  _operations : list (string * Operation.t)
}.

Definition no_al_schema : RequestBodyParameter.al_schema :=
  {| RequestBodyParameter.al_name := None;
     RequestBodyParameter.al_encoding := None |}.

(** [_initalize_request_body(body_spec)] *)
Definition _initalize_request_body `{Runtime}
  (body_spec : option request_body_spec) : result (option RequestBody.t) :=
  match body_spec with
  | None => Ok None
  | Some spec =>
      let request_body :=
        RequestBody.__init__ (PathParameter.or_default (rb_required spec) false)
                         (rb_description spec) in
      let content := PathParameter.or_default (rb_content spec) [] in
      body <-
        foldM
          (fun body entry =>
             match mt_schema (snd entry) with
             | None => Raise (KeyError (VStr SCHEMA))
             | Some schema =>
                 RequestBody.add_content body (fst entry) schema
                   (PathParameter.or_default (mt_al_schema (snd entry))
                      no_al_schema)
             end)
          content request_body ;;
      Ok (Some body)
  end.

(** [if not operation_id]: missing, or the empty string. *)
Definition no_operation_id (operation_id : option string) : bool :=
  match operation_id with
  | None => true
  | Some id => id =? ""
  end.

Definition blanks (n : nat) : string :=
  String.concat "" (repeat " " n).

(** The body of the two nested loops of [_initialize_operations], for one
    (path, method) pair: the operations registered so far and the warnings
    logged so far, before and after. *)
Definition initialize_operation `{Runtime} (client_name path method : string)
  (op_spec : operation_spec)
  (st : list (string * Operation.t) * list warning)
  : result (list (string * Operation.t) * list warning) :=
  let (operations, log) := st in
  if no_operation_id (operationId op_spec) then
    Ok (operations, log ++ [operationId_not_found method path])
  else
    let operation_id := PathParameter.or_default (operationId op_spec) "" in
    if dict_mem operation_id operations then
      Raise (AlmdrlibValueError
               [Text "Duplication "; Text operation_id;
                Text (" " ++ blanks 39 ++ "specified for ")%string;
                Text client_name; Text " API"])
    else
      let params :=
        map PathParameter.__init__
            (PathParameter.or_default (parameters op_spec) []) in
      body <- _initalize_request_body (requestBody op_spec) ;;
      response <- OperationResponse.__init__ (responses op_spec) ;;
      Ok (dict_set operation_id
            {| Operation._path := path;
               Operation._params := params;
               Operation._summary :=
                 PathParameter.or_default (summary op_spec) "";
               Operation._description :=
                 PathParameter.or_default (description op_spec) "";
               Operation._method := method;
               Operation._body := body;
               Operation._response := response;
               Operation._operation_id := operation_id;
               Operation._client_name := client_name |}
            operations,
          log).

(** [_initialize_operations()]: the operations by [operationId], and the
    warnings logged on the way. *)
Definition _initialize_operations `{Runtime} (client_name : string)
  (paths : paths_spec)
  : result (list (string * Operation.t) * list warning) :=
  foldM
    (fun st path_entry =>
       foldM
         (fun st method_entry =>
            initialize_operation client_name (fst path_entry)
              (fst method_entry) (snd method_entry) st)
         (snd path_entry) st)
    paths ([], []).

(** [load_spec] as far as the operations go: once the document has been
    checked and a server chosen, the operations are initialized, and the
    constructor returns a client only if that returns. *)
Definition load_spec `{Runtime} (name : string) (paths : paths_spec)
  : result (t * list warning) :=
  r <- _initialize_operations name paths ;;
  Ok ({| _name := name; _operations := fst r |}, snd r).

(** [__getattr__(op_name)] for the name of an operation. *)
Definition __getattr__ (c : t) (op_name : string) : option Operation.t :=
  dict_get op_name (_operations c).

End Client.

(** ** Collaborators and documents for the worked examples *)

(** A session that holds no default for any parameter. *)
Definition no_defaults : Session :=
  {| get_default := fun _ => VNone |}.

(** A session that holds a default for the parameter [Q] only. *)
Definition default_for_Q : Session :=
  {| get_default := fun name => if name =? "Q" then VInt 10 else VNone |}.

(** Insertion of [x] before the first item it is less than. *)
Fixpoint insert_sorted {A : Type} (lt : A -> A -> result bool) (x : A)
  (l : list A) : result (list A) :=
  match l with
  | [] => Ok [x]
  | y :: l' =>
      b <- lt x y ;;
      if b then Ok (x :: y :: l')
      else (r <- insert_sorted lt x l' ;; Ok (y :: r))
  end.

Definition insertion_sort {A : Type} (lt : A -> A -> result bool)
  (l : list A) : result (list A) :=
  foldM (fun acc x => insert_sorted lt x acc) l [].

(** The double quote. *)
Definition dquote : string := String (ascii_of_nat 34) EmptyString.

(** A JSON text, as [json.dumps] writes one with its default separators
    (strings are quoted without escapes, which the examples do not need). *)
Fixpoint json_text (v : value) : string :=
  (match v with
   | VNone => "null"
   | VBool true => "true"
   | VBool false => "false"
   | VInt n => NilZero.string_of_int (Z.to_int n)
   | VStr s => dquote ++ s ++ dquote
   | VBytes s => s
   | VList l => "[" ++ String.concat ", " (map json_text l) ++ "]"
   | VDict d =>
       "{" ++ String.concat ", "
                (map (fun kv => dquote ++ fst kv ++ dquote ++ ": "
                                ++ json_text (snd kv)) d)
           ++ "}"
   end)%string.

(** [s.lower()] on the Latin letters. *)
Definition ascii_lower (c : ascii) : ascii :=
  let n := nat_of_ascii c in
  if (65 <=? n)%nat && (n <=? 90)%nat then ascii_of_nat (n + 32) else c.

Fixpoint plain_lower (s : string) : string :=
  match s with
  | EmptyString => EmptyString
  | String c s' => String (ascii_lower c) (plain_lower s')
  end.

(** [str(v)] for the scalars; a container is shown by its JSON text. *)
Definition plain_str (v : value) : string :=
  match v with
  | VNone => "None"
  | VBool true => "True"
  | VBool false => "False"
  | VStr s => s
  | _ => json_text v
  end.

(** The runtime of the worked examples: every schema is well formed, the
    validator accepts every instance, [bytes] cannot be encoded as JSON and
    [update] takes mappings only. *)
Definition plain_runtime : Runtime :=
  {| py_str := plain_str;
     py_lower := plain_lower;
     py_sorted := @insertion_sort;
     py_update_from := fun _ _ => Raise TypeError;
     json_dumps := fun v =>
       match v with VBytes _ => Raise TypeError | _ => Ok (json_text v) end;
     jsonschema_check_schema := fun _ => Ok tt;
     jsonschema_validate := fun _ _ => None |}.

(** ** Notions used by the statements *)

(** The value names one of the content types the body declares. *)
Definition declared (b : RequestBody.t) (content_type : value) : bool :=
  match content_type with
  | VStr ct => dict_mem ct (RequestBody._content b)
  | _ => false
  end.

(** The exception of [self._content[v]] for a [v] that is not a key. *)
Definition lookup_error (v : value) : exn :=
  if hashable v then KeyError v else TypeError.

(** The error of the last tier of the content-type negotiation. *)
Definition content_type_required : exn :=
  AlmdrlibValueError
    [Text "'"; Text CONTENT_TYPE_PYTHON_PARAM; Text "'";
     Text "parameter is required."].

(** The delimiter of each style, as the specification lists them. *)
Definition style_delimiter (style : string) : string :=
  if style =? PARAMETER_STYLE_FORM then ","
  else if style =? PARAMETER_STYLE_SPACE_DELIMITED then " "
  else "|".

(** The order the docstring of [__lt__] and the specification describe,
    written as a sort key: required before optional, then without a default
    before with one, then the rank of the location, then the name; keys are
    compared component by component. *)
Definition sort_key `{Session} (p : PathParameter.t)
  : option (Z * Z * Z * string) :=
  match dict_get (PathParameter._in p) PathParameter.location_ranks with
  | Some rank =>
      Some ((if PathParameter.required p then 0 else 1)%Z,
            (if is_none (PathParameter.default p) then 0 else 1)%Z,
            rank, PathParameter._name p)
  | None => None
  end.

Definition lexicographic (c1 c2 : comparison) : comparison :=
  match c1 with Eq => c2 | _ => c1 end.

Definition key_compare (a b : Z * Z * Z * string) : comparison :=
  let '(a1, a2, a3, a4) := a in
  let '(b1, b2, b3, b4) := b in
  lexicographic (a1 ?= b1)%Z
    (lexicographic (a2 ?= b2)%Z
       (lexicographic (a3 ?= b3)%Z (String.compare a4 b4))).

Definition documented_lt `{Session} (a b : PathParameter.t) : bool :=
  match sort_key a, sort_key b with
  | Some ka, Some kb =>
      match key_compare ka kb with Lt => true | _ => false end
  | _, _ => false
  end.

(** The [content_type] parameter of a signature: keyword-only, annotated
    [str], with the body's default content type as its default. *)
Definition injected_content_type (body : RequestBody.t) : inspect_Parameter :=
  {| ip_name := CONTENT_TYPE_PYTHON_PARAM;
     ip_kind := KEYWORD_ONLY;
     ip_default := or_empty (RequestBody.default_content_type body);
     ip_annotation := Some Tstr |}.

(** The parameter of a signature for a name the body declares. *)
Definition body_parameter (name : string) : inspect_Parameter :=
  {| ip_name := name; ip_kind := KEYWORD_ONLY;
     ip_default := None; ip_annotation := None |}.

(** The (path, method, operation) triples of a document, in the order the
    two loops of [_initialize_operations] visit them. *)
Definition entries (paths : Client.paths_spec)
  : list (string * string * Client.operation_spec) :=
  flat_map
    (fun path_entry =>
       map (fun method_entry =>
              (fst path_entry, fst method_entry, snd method_entry))
           (snd path_entry))
    paths.

(** The operations registered and the warnings logged so far. *)
Definition load_state : Type :=
  (list (string * Operation.t) * list Client.warning)%type.

(** The loop body on a triple. *)
Definition register `{Runtime} (client_name : string) (st : load_state)
  (e : string * string * Client.operation_spec) : result load_state :=
  Client.initialize_operation client_name (fst (fst e)) (snd (fst e)) (snd e)
    st.

(** The error raised for an [operationId] that is already registered. *)
Definition duplication (operation_id client_name : string) : exn :=
  AlmdrlibValueError
    [Text "Duplication "; Text operation_id;
     Text (" " ++ Client.blanks 39 ++ "specified for ")%string;
     Text client_name; Text " API"].

(** ** Example documents *)

Definition parameter_spec (location name : string) (required : option bool)
  (datatype : option string) : PathParameter.spec :=
  {| PathParameter.s_in := location;
     PathParameter.s_name := name;
     PathParameter.s_required := required;
     PathParameter.s_description := None;
     PathParameter.s_type := datatype;
     PathParameter.s_style := None;
     PathParameter.s_explode := None |}.

(** The three parameters of the ordering example: a required path
    parameter, an optional query parameter and a required header. *)
Definition param_P : PathParameter.t :=
  PathParameter.__init__ (parameter_spec PATH "P" (Some true) None).
Definition param_Q : PathParameter.t :=
  PathParameter.__init__ (parameter_spec QUERY "Q" None None).
Definition param_H : PathParameter.t :=
  PathParameter.__init__ (parameter_spec HEADER "H" (Some true) None).

(** A path parameter declared without a [required] flag, and a required
    query parameter. *)
Definition account_id : PathParameter.t :=
  PathParameter.__init__ (parameter_spec PATH "account_id" None None).
Definition user_id : PathParameter.t :=
  PathParameter.__init__ (parameter_spec QUERY "id" (Some true) None).

Definition user_schema : value :=
  VDict [(TYPE, VStr OBJECT);
         (PROPERTIES, VDict [("name", VDict [(TYPE, VStr STRING)])])].

Definition text_schema : value := VDict [(TYPE, VStr STRING)].

Definition media (schema : value) : Client.media_type_spec :=
  {| Client.mt_schema := Some schema; Client.mt_al_schema := None |}.

(** A body with the single content type [application/json]. *)
Definition json_body_spec (required : option bool) : Client.request_body_spec :=
  {| Client.rb_required := required;
     Client.rb_description := None;
     Client.rb_content := Some [("application/json", media user_schema)] |}.

(** A body that declares two content types. *)
Definition two_types_body_spec : Client.request_body_spec :=
  {| Client.rb_required := None;
     Client.rb_description := None;
     Client.rb_content :=
       Some [("application/json", media user_schema);
             ("text/plain", media text_schema)] |}.

Definition ok_responses
  : option (list (string * OperationResponse.response_spec)) :=
  Some [("200", {| OperationResponse.r_content := None |})].

Definition operation (id : option string)
  (params : list PathParameter.spec)
  (body : option Client.request_body_spec) : Client.operation_spec :=
  {| Client.operationId := id;
     Client.summary := None;
     Client.description := None;
     Client.parameters := Some params;
     Client.requestBody := body;
     Client.responses := ok_responses |}.

(** A service with five operations, and one sub-document without an
    [operationId]. *)
Definition users_paths : Client.paths_spec :=
  [("/accounts/{account_id}",
    [("get", operation (Some "get_account")
               [parameter_spec PATH "account_id" None None] None)]);
   ("/users",
    [("get", operation (Some "list_users")
               [parameter_spec QUERY "id" (Some true) None] None);
     ("post", operation (Some "create_user") []
                (Some (json_body_spec None)));
     ("put", operation (Some "replace_user") []
               (Some (json_body_spec (Some true))));
     ("head", operation None [] None)]);
   ("/files",
    [("post", operation (Some "upload") [] (Some two_types_body_spec))])].

(** The same service with a second operation named [list_users]. *)
Definition duplicated_paths : Client.paths_spec :=
  users_paths
  ++ [("/people", [("get", operation (Some "list_users") [] None)])].

Definition empty_client : Client.t :=
  {| Client._name := "users"; Client._operations := [] |}.

(** The client loaded from [users_paths]. *)
Definition users_client : Client.t :=
  Eval vm_compute in
    match @Client.load_spec plain_runtime "users" users_paths with
    | Ok (c, _) => c
    | Raise _ => empty_client
    end.

Definition no_response : OperationResponse.t :=
  {| OperationResponse._response_schema := VDict [] |}.

Definition no_operation : Operation.t :=
  {| Operation._path := ""; Operation._params := [];
     Operation._summary := ""; Operation._description := "";
     Operation._method := ""; Operation._body := None;
     Operation._response := no_response;
     Operation._operation_id := ""; Operation._client_name := "" |}.

(** The operations of [users_client], by name. *)
Definition get_account : Operation.t :=
  Eval vm_compute in
    match Client.__getattr__ users_client "get_account" with
    | Some op => op | None => no_operation end.
Definition list_users : Operation.t :=
  Eval vm_compute in
    match Client.__getattr__ users_client "list_users" with
    | Some op => op | None => no_operation end.
Definition create_user : Operation.t :=
  Eval vm_compute in
    match Client.__getattr__ users_client "create_user" with
    | Some op => op | None => no_operation end.
Definition replace_user : Operation.t :=
  Eval vm_compute in
    match Client.__getattr__ users_client "replace_user" with
    | Some op => op | None => no_operation end.
Definition upload : Operation.t :=
  Eval vm_compute in
    match Client.__getattr__ users_client "upload" with
    | Some op => op | None => no_operation end.

Definition no_body : RequestBody.t := RequestBody.__init__ false None.

Definition body_of (op : Operation.t) : RequestBody.t :=
  match Operation._body op with Some b => b | None => no_body end.

(** The bodies of [create_user] (optional, one content type),
    [replace_user] (required, one content type) and [upload] (two content
    types). *)
Definition create_user_body : RequestBody.t :=
  Eval vm_compute in body_of create_user.
Definition replace_user_body : RequestBody.t :=
  Eval vm_compute in body_of replace_user.
Definition upload_body : RequestBody.t :=
  Eval vm_compute in body_of upload.

Definition no_parameter : RequestBodyParameter.t :=
  {| RequestBodyParameter._name := "";
     RequestBodyParameter._content_type := "";
     RequestBodyParameter._schema := VNone;
     RequestBodyParameter._required := false;
     RequestBodyParameter._variant :=
       RequestBodyParameter.RequestBodySchemaParameter |}.

Definition json_parameter_of (b : RequestBody.t) : RequestBodyParameter.t :=
  match dict_get "application/json" (RequestBody._content b) with
  | Some p => p
  | None => no_parameter
  end.

(** The object parameters of the two JSON bodies. *)
Definition optional_user : RequestBodyParameter.t :=
  Eval vm_compute in json_parameter_of create_user_body.
Definition required_user : RequestBodyParameter.t :=
  Eval vm_compute in json_parameter_of replace_user_body.

(** ** The helpers at the end of the module *)

(** [dict[key]] inside [get_dict_value], for a string key: [None] stands for
    the [KeyError] of a mapping without the key and for the [TypeError] of an
    object that is not a mapping, which the function catches alike. *)
Definition getitem_or_caught (d : value) (key : string) : option value :=
  match d with
  | VDict m => dict_get key m
  | _ => None
  end.

(** The loop of [get_dict_value]: [depth] counts the keys already passed and
    [length] is [len(list)]. *)
Fixpoint get_dict_value_loop (length depth : nat) (d : value)
  (keys : list string) (default : value) : value :=
  match keys with
  | [] => default
  | key :: keys' =>
      if (depth =? length - 1)%nat then
        match getitem_or_caught d key with
        | Some output => output
        | None => default
        end
      else
        match getitem_or_caught d key with
        | Some d' => get_dict_value_loop length (S depth) d' keys' default
        | None => default
        end
  end.

(** [get_dict_value(dict, list, default)] *)
Definition get_dict_value (d : value) (keys : list string) (default : value)
  : value :=
  get_dict_value_loop (List.length keys) 0 d keys default.

(** [update_dict_no_replace(target, source)]: the target after the call. *)
Definition update_dict_no_replace (target source : dict) : dict :=
  fold_left
    (fun target key =>
       if dict_mem key target then target
       else
         match dict_get key source with
         | Some v => dict_set key v target
         | None => target
         end)
    (dict_keys source) target.

(** The value reached from [d] through the keys, each step in a mapping
    that has the key. *)
Fixpoint descend (d : value) (keys : list string) : option value :=
  match keys with
  | [] => Some d
  | key :: keys' =>
      match getitem_or_caught d key with
      | Some d' => descend d' keys'
      | None => None
      end
  end.

(** ** Notions used by the further statements *)

(** The [operationId]s of the triples that have one, in order. *)
Fixpoint operation_ids (l : list (string * string * Client.operation_spec))
  : list string :=
  match l with
  | [] => []
  | e :: l' =>
      if Client.no_operation_id (Client.operationId (snd e))
      then operation_ids l'
      else PathParameter.or_default (Client.operationId (snd e)) ""
           :: operation_ids l'
  end.

(** The warnings for the triples without an [operationId], in order. *)
Fixpoint missing_operation_ids
  (l : list (string * string * Client.operation_spec))
  : list Client.warning :=
  match l with
  | [] => []
  | e :: l' =>
      if Client.no_operation_id (Client.operationId (snd e))
      then Client.operationId_not_found (snd (fst e)) (fst (fst e))
           :: missing_operation_ids l'
      else missing_operation_ids l'
  end.

(** The mark [mark_required] leaves on a property. *)
Definition marked_required (properties : dict) (name : string) : Prop :=
  exists sub,
    dict_get name properties = Some (VDict sub)
    /\ dict_get "x-alertlogic-required" sub = Some (VBool true).

(** A response code that is not empty and does not start with "2". *)
Definition not_success_code (code : string) : bool :=
  match code with
  | EmptyString => false
  | String c _ => negb (Ascii.eqb c "2")
  end.


(** ** Further documents for the worked examples *)

(** A header parameter whose declared name has dashes, a boolean header, a
    query parameter with a style outside the three valid ones, an object in
    form style and an array declared without style and explode. *)
Definition request_id_spec : PathParameter.spec :=
  parameter_spec HEADER "x-request-id" None (Some STRING).
Definition dry_run_spec : PathParameter.spec :=
  parameter_spec HEADER "dry-run" None (Some BOOLEAN).
Definition matrix_param : PathParameter.t :=
  PathParameter.__init__
    {| PathParameter.s_in := QUERY;
       PathParameter.s_name := "ids";
       PathParameter.s_required := None;
       PathParameter.s_description := None;
       PathParameter.s_type := Some ARRAY;
       PathParameter.s_style := Some "matrix";
       PathParameter.s_explode := None |}.
Definition filter_param : PathParameter.t :=
  PathParameter.__init__ (parameter_spec QUERY "filter" None (Some OBJECT)).
Definition packed_filter_param : PathParameter.t :=
  PathParameter.__init__
    {| PathParameter.s_in := QUERY;
       PathParameter.s_name := "filter";
       PathParameter.s_required := None;
       PathParameter.s_description := None;
       PathParameter.s_type := Some OBJECT;
       PathParameter.s_style := None;
       PathParameter.s_explode := Some false |}.

(** An array in form style declared without explode. *)
Definition packed_ids : PathParameter.t :=
  PathParameter.__init__
    {| PathParameter.s_in := QUERY;
       PathParameter.s_name := "ids";
       PathParameter.s_required := None;
       PathParameter.s_description := None;
       PathParameter.s_type := Some ARRAY;
       PathParameter.s_style := None;
       PathParameter.s_explode := Some false |}.

(** A path parameter and a required query parameter that share the Python
    name [user_id]. *)
Definition user_id_in_path : PathParameter.t :=
  PathParameter.__init__ (parameter_spec PATH "user-id" (Some true) None).
Definition user_id_in_query : PathParameter.t :=
  PathParameter.__init__ (parameter_spec QUERY "user_id" (Some true) None).

Definition text_parameter_of (b : RequestBody.t) : RequestBodyParameter.t :=
  match dict_get "text/plain" (RequestBody._content b) with
  | Some p => p
  | None => no_parameter
  end.

(** The scalar parameter of the [text/plain] content type of [upload]. *)
Definition upload_text : RequestBodyParameter.t :=
  Eval vm_compute in text_parameter_of upload_body.

(** A schema with a required property. *)
Definition strict_user_schema : value :=
  VDict [(TYPE, VStr OBJECT);
         (PROPERTIES, VDict [("name", VDict [(TYPE, VStr STRING)]);
                             ("email", VDict [(TYPE, VStr STRING)])]);
         (REQUIRED, VList [VStr "email"])].

(** A body whose second media-type object has no [schema]. *)
Definition broken_body_spec : Client.request_body_spec :=
  {| Client.rb_required := None;
     Client.rb_description := None;
     Client.rb_content :=
       Some [("application/json", media user_schema);
             ("text/plain",
              {| Client.mt_schema := None; Client.mt_al_schema := None |})] |}.

(** An upload whose content type is chosen by a declared Content-Type
    header. *)
Definition typed_upload_paths : Client.paths_spec :=
  [("/files",
    [("post", operation (Some "typed_upload")
                [parameter_spec HEADER CONTENT_TYPE_PARAM None (Some STRING)]
                (Some two_types_body_spec))])].

Definition typed_upload : Operation.t :=
  Eval vm_compute in
    match @Client.load_spec plain_runtime "files" typed_upload_paths with
    | Ok (c, _) =>
        match Client.__getattr__ c "typed_upload" with
        | Some op => op | None => no_operation end
    | Raise _ => no_operation
    end.

(** Two responses, neither with a success code. *)
Definition listed_responses
  : list (string * OperationResponse.response_spec) :=
  [("404", {| OperationResponse.r_content := None |});
   ("default", {| OperationResponse.r_content := None |})].

(** A body whose schema requires the property [email], and its object
    parameter. *)
Definition strict_body_spec : Client.request_body_spec :=
  {| Client.rb_required := None;
     Client.rb_description := None;
     Client.rb_content :=
       Some [("application/json", media strict_user_schema)] |}.

Definition strict_user : RequestBodyParameter.t :=
  Eval vm_compute in
    match @Client._initalize_request_body plain_runtime
            (Some strict_body_spec) with
    | Ok (Some b) => json_parameter_of b
    | _ => no_parameter
    end.

(** The empty body after [text/plain] has been added with a string
    schema. *)
Definition text_body : RequestBody.t :=
  Eval vm_compute in
    match @RequestBody.add_content plain_runtime no_body "text/plain"
            text_schema
            {| RequestBodyParameter.al_name := None;
               RequestBodyParameter.al_encoding := None |}
    with
    | Ok b => b
    | Raise _ => no_body
    end.

(** An object body named [user] whose argument is sent exploded; its schema
    declares [user] and [note]. *)
Definition exploded_user_schema : dict :=
  [(TYPE, VStr OBJECT);
   (PROPERTIES, VDict [("user", VDict [(TYPE, VStr OBJECT)]);
                       ("note", VDict [(TYPE, VStr STRING)])])].

Definition exploded_al_schema : RequestBodyParameter.al_schema :=
  {| RequestBodyParameter.al_name := Some "user";
     RequestBodyParameter.al_encoding := Some (VDict [(EXPLODE, VBool true)]) |}.

Definition exploded_user : RequestBodyParameter.t :=
  Eval vm_compute in
    match @RequestBodyParameter.init_object plain_runtime "user"
            "application/json" exploded_user_schema exploded_al_schema false
    with
    | Ok p => p
    | Raise _ => no_parameter
    end.

(** * Properties *)

(** ** Dictionaries and loops *)

Section DictFacts.
Context {V : Type}.
Implicit Types (d : list (string * V)) (k : string).

Lemma dict_mem_get_none k d :
  dict_mem k d = false <-> dict_get k d = None.
Proof.
  unfold dict_mem. destruct (dict_get k d); split; congruence.
Qed.

Lemma dict_mem_get_some k d :
  dict_mem k d = true <-> exists v, dict_get k d = Some v.
Proof.
  unfold dict_mem. destruct (dict_get k d) as [v|]; split.
  - intros _. now exists v.
  - reflexivity.
  - discriminate.
  - intros [v Hv]. discriminate.
Qed.

Lemma dict_get_set_same k (v : V) d :
  dict_get k (dict_set k v d) = Some v.
Proof.
  induction d as [|[k' v'] d IH]; simpl.
  - now rewrite String.eqb_refl.
  - destruct (k =? k') eqn:E; simpl; rewrite ?E, ?String.eqb_refl; auto.
Qed.

Lemma dict_get_set_other k k' (v : V) d :
  k <> k' -> dict_get k (dict_set k' v d) = dict_get k d.
Proof.
  intros Hne. induction d as [|[k'' v''] d IH]; simpl.
  - apply String.eqb_neq in Hne. now rewrite Hne.
  - destruct (k' =? k'') eqn:E; simpl.
    + apply String.eqb_eq in E. subst k''.
      apply String.eqb_neq in Hne. now rewrite Hne.
    + destruct (k =? k''); auto.
Qed.

(** A key that is present stays present when another entry is written. *)
Lemma dict_mem_set_mono k k' (v : V) d :
  dict_mem k d = true -> dict_mem k (dict_set k' v d) = true.
Proof.
  intros Hm. destruct (String.eqb_spec k k') as [->|Hne].
  - unfold dict_mem. now rewrite dict_get_set_same.
  - unfold dict_mem in *. now rewrite dict_get_set_other.
Qed.

Lemma dict_mem_set_same k (v : V) d :
  dict_mem k (dict_set k v d) = true.
Proof. unfold dict_mem. now rewrite dict_get_set_same. Qed.

End DictFacts.

Lemma bind_ok_inv {A B : Type} (r : result A) (k : A -> result B) (b : B) :
  bind r k = Ok b -> exists a, r = Ok a /\ k a = Ok b.
Proof.
  destruct r as [a|e]; simpl; intros Hb; [now exists a | discriminate].
Qed.

Lemma foldM_app {A S : Type} (body : S -> A -> result S) (l1 l2 : list A)
  (s : S) :
  foldM body (l1 ++ l2) s = (s' <- foldM body l1 s ;; foldM body l2 s').
Proof.
  revert s. induction l1 as [|a l1 IH]; intros s; simpl.
  - reflexivity.
  - destruct (body s a) as [s'|e]; simpl; auto.
Qed.

(** A loop that meets a raising item after a prefix that went through
    raises that exception. *)
Lemma foldM_raise_at {A S : Type} (body : S -> A -> result S)
  (l1 l2 : list A) (a : A) (s s1 : S) (e : exn) :
  foldM body l1 s = Ok s1 -> body s1 a = Raise e ->
  foldM body (l1 ++ a :: l2) s = Raise e.
Proof.
  intros H1 Ha. rewrite foldM_app, H1. simpl. now rewrite Ha.
Qed.

(** An invariant of the loop body is an invariant of the loop. *)
Lemma foldM_invariant {A S : Type} (P : S -> Prop)
  (body : S -> A -> result S) (l : list A) :
  (forall s a s', In a l -> P s -> body s a = Ok s' -> P s') ->
  forall s s', P s -> foldM body l s = Ok s' -> P s'.
Proof.
  induction l as [|a l IH]; intros Hstep s s' Hs Hrun; simpl in Hrun.
  - now inversion Hrun; subst.
  - apply bind_ok_inv in Hrun as (s1 & H1 & H2).
    apply (IH (fun s0 a0 s0' Hin => Hstep s0 a0 s0' (or_intror Hin)) s1 s');
      auto.
    apply (Hstep s a s1); auto. now left.
Qed.

(** ** Parameters *)

Section Parameters.
Context `{Runtime} `{Session}.

(** C2.  A parameter declared required, in any location, whose name is not
    among the keyword arguments and for which the session holds no default
    makes [serialize] raise a [ValueError] whose text is
    ['<name>' is required], which names the parameter. *)
Theorem missing_required_parameter_raises (p : PathParameter.t)
  (st : CallState) :
  PathParameter._required p = true ->
  dict_mem (PathParameter._name p) (kwargs st) = false ->
  PathParameter.default p = VNone ->
  exists m,
    PathParameter.serialize p st = Raise (ValueError m)
    /\ m = [Text "'"; Text (PathParameter._name p); Text "' is required"]
    /\ In (Text (PathParameter._name p)) m.
Proof.
  intros Hreq Hmiss Hdef.
  eexists. split; [|split; [reflexivity|]].
  - unfold PathParameter.serialize.
    rewrite Hmiss, Hdef, Hreq. reflexivity.
  - simpl. auto.
Qed.

(** [serialize] tests the declared flag, not the [required] property: a
    path parameter declared without the flag, with no argument and no
    default, is skipped although the property holds for it. *)
Lemma path_parameter_without_flag_is_skipped (p : PathParameter.t)
  (st : CallState) :
  PathParameter._in p = PATH ->
  PathParameter._required p = false ->
  dict_mem (PathParameter._name p) (kwargs st) = false ->
  truthy (PathParameter.default p) = false ->
  PathParameter.required p = true
  /\ PathParameter.serialize p st = Ok (VNone, st).
Proof.
  intros Hin Hflag Hmiss Hdef. split.
  - unfold PathParameter.required. rewrite Hin. apply orb_true_r.
  - unfold PathParameter.serialize. now rewrite Hmiss, Hdef, Hflag.
Qed.

(** The items of a list of strings are its strings. *)
Lemma str_items_map_VStr (items : list string) :
  str_items (map VStr items) = Some items.
Proof.
  induction items as [|s items IH]; simpl; [reflexivity|].
  now rewrite IH.
Qed.

Lemma str_join_strings (delimiter : string) (items : list string) :
  str_join delimiter (VList (map VStr items))
  = Ok (String.concat delimiter items).
Proof. simpl. now rewrite str_items_map_VStr. Qed.

(** A list with an item that is not a string cannot be joined. *)
Lemma str_join_not_strings (delimiter : string) (l : list value) :
  str_items l = None -> str_join delimiter (VList l) = Raise TypeError.
Proof. intros Hl. simpl. now rewrite Hl. Qed.

(** The array branch of [serialize_query_parameter], as the code has it.
    For a query parameter of array datatype and one of the three query
    styles: with explode the raw value is passed
    through under the parameter's name; without explode a sequence of
    strings is joined with the delimiter of the style, a comma for form, a
    blank for spaceDelimited and a bar for pipeDelimited, while a sequence
    with an item that is not a string raises [TypeError].  In particular
    ["a","b","c"] gives "a,b,c" in form style and "a|b|c" in pipeDelimited
    style. *)
Theorem array_query_parameter_serialization (style name : string) (v : value)
  (items : list string) :
  In style PathParameter.valid_styles ->
  PathParameter.serialize_query_parameter style true name ARRAY v
  = Ok (VDict [(name, v)])
  /\ PathParameter.serialize_query_parameter style false name ARRAY
       (VList (map VStr items))
     = Ok (VDict [(name, VStr (String.concat (style_delimiter style) items))])
  /\ (forall l, str_items l = None ->
      PathParameter.serialize_query_parameter style false name ARRAY (VList l)
      = Raise TypeError)
  /\ PathParameter.serialize_query_parameter
       PARAMETER_STYLE_FORM false name ARRAY
       (VList [VStr "a"; VStr "b"; VStr "c"])
     = Ok (VDict [(name, VStr "a,b,c")])
  /\ PathParameter.serialize_query_parameter
       PARAMETER_STYLE_PIPE_DELIMITED false name ARRAY
       (VList [VStr "a"; VStr "b"; VStr "c"])
     = Ok (VDict [(name, VStr "a|b|c")]).
Proof.
  intros Hstyle.
  assert (Hcases : style = PARAMETER_STYLE_FORM
                   \/ style = PARAMETER_STYLE_SPACE_DELIMITED
                   \/ style = PARAMETER_STYLE_PIPE_DELIMITED).
  { simpl in Hstyle. intuition. }
  split; [|split; [|split; [|split]]].
  - destruct Hcases as [-> | [-> | ->]]; reflexivity.
  - destruct Hcases as [-> | [-> | ->]];
      unfold PathParameter.serialize_query_parameter; simpl str_in;
      cbn [negb]; simpl andb; cbv iota;
      change (ARRAY =? ARRAY) with true; cbv iota;
      rewrite str_join_strings; reflexivity.
  - intros l Hl.
    destruct Hcases as [-> | [-> | ->]];
      unfold PathParameter.serialize_query_parameter; simpl str_in;
      cbn [negb]; simpl andb; cbv iota;
      change (ARRAY =? ARRAY) with true; cbv iota;
      rewrite (str_join_not_strings _ l Hl); reflexivity.
  - reflexivity.
  - reflexivity.
Qed.

End Parameters.

(** ** Request body *)

Section Body.
Context `{Runtime}.

Lemma getitem_content_declared (b : RequestBody.t) (ct : string)
  (p : RequestBodyParameter.t) :
  dict_get ct (RequestBody._content b) = Some p ->
  RequestBody.getitem_content b (VStr ct) = Ok p.
Proof. intros Hp. simpl. now rewrite Hp. Qed.

Lemma getitem_content_undeclared (b : RequestBody.t) (v : value) :
  declared b v = false ->
  RequestBody.getitem_content b v = Raise (lookup_error v).
Proof.
  unfold declared, lookup_error, RequestBody.getitem_content.
  destruct v; intros Hd; try reflexivity.
  apply dict_mem_get_none in Hd. now rewrite Hd.
Qed.

(** The default content type of a body that declares one content type. *)
Lemma default_content_type_unique (b : RequestBody.t) (ct : string)
  (p : RequestBodyParameter.t) :
  RequestBody._content b = [(ct, p)] ->
  RequestBody.default_content_type b = VStr ct.
Proof. intros Hc. unfold RequestBody.default_content_type. now rewrite Hc. Qed.

(** A body that declares no content type, or several, has no default. *)
Lemma default_content_type_none (b : RequestBody.t) :
  length (RequestBody._content b) <> 1 ->
  RequestBody.default_content_type b = VNone.
Proof.
  unfold RequestBody.default_content_type.
  destruct (RequestBody._content b) as [|[ct p] [|e l]]; simpl; intros Hl;
    try reflexivity.
  now contradiction Hl.
Qed.

(** C1.  The content type that governs [RequestBody.serialize] is chosen in
    this order.  (1) A [content_type] keyword argument: the parameter
    declared for it serializes the remaining arguments and it is written
    into the headers.  (2) Otherwise a Content-Type entry already in the
    headers: the parameter declared for it serializes the arguments.
    (3) Otherwise, when the body declares exactly one content type (a
    non-empty string, as a content type is), that parameter serializes the
    arguments and the content type is written into the headers.
    (4) Otherwise the call raises the "content type required" error. *)
Theorem content_type_negotiation_order (b : RequestBody.t)
  (headers kwargs : dict) :
  (forall content_type,
      dict_get "content_type" kwargs = Some content_type ->
      RequestBody.serialize b headers kwargs
      = (p <- RequestBody.getitem_content b content_type ;;
         kw <- RequestBodyParameter.serialize p
                 (dict_del "content_type" kwargs) ;;
         Ok (dict_set CONTENT_TYPE_PARAM content_type headers, kw)))
  /\ (forall content_type,
      dict_get "content_type" kwargs = None ->
      dict_get CONTENT_TYPE_PARAM headers = Some content_type ->
      RequestBody.serialize b headers kwargs
      = (p <- RequestBody.getitem_content b content_type ;;
         kw <- RequestBodyParameter.serialize p kwargs ;;
         Ok (headers, kw)))
  /\ (forall ct p,
      dict_get "content_type" kwargs = None ->
      dict_get CONTENT_TYPE_PARAM headers = None ->
      RequestBody._content b = [(ct, p)] ->
      ct <> "" ->
      RequestBody.serialize b headers kwargs
      = (kw <- RequestBodyParameter.serialize p kwargs ;;
         Ok (dict_set CONTENT_TYPE_PARAM (VStr ct) headers, kw)))
  /\ (dict_get "content_type" kwargs = None ->
      dict_get CONTENT_TYPE_PARAM headers = None ->
      length (RequestBody._content b) <> 1 ->
      RequestBody.serialize b headers kwargs = Raise content_type_required).
Proof.
  unfold RequestBody.serialize.
  split; [|split; [|split]].
  - intros content_type Harg. rewrite Harg.
    destruct (RequestBody.getitem_content b content_type) as [p|e]; simpl;
      [|reflexivity].
    now destruct (RequestBodyParameter.serialize p _).
  - intros content_type Harg Hhdr. rewrite Harg, Hhdr.
    destruct (RequestBody.getitem_content b content_type) as [p|e]; simpl;
      [|reflexivity].
    now destruct (RequestBodyParameter.serialize p _).
  - intros ct p Harg Hhdr Hone Hct. rewrite Harg, Hhdr.
    rewrite (default_content_type_unique b ct p Hone).
    apply String.eqb_neq in Hct. simpl truthy. rewrite Hct. simpl negb.
    cbv iota.
    rewrite (getitem_content_declared b ct p).
    + simpl. now destruct (RequestBodyParameter.serialize p _).
    + rewrite Hone. simpl. now rewrite String.eqb_refl.
  - intros Harg Hhdr Hlen. rewrite Harg, Hhdr.
    now rewrite (default_content_type_none b Hlen).
Qed.

(** The third tier tests the truth value of the default content type: the
    empty string as the only declared content type counts as no default. *)
Remark empty_content_type_is_no_default (b : RequestBody.t)
  (p : RequestBodyParameter.t) (headers kwargs : dict) :
  dict_get "content_type" kwargs = None ->
  dict_get CONTENT_TYPE_PARAM headers = None ->
  RequestBody._content b = [("", p)] ->
  RequestBody.serialize b headers kwargs = Raise content_type_required.
Proof.
  intros Harg Hhdr Hone. unfold RequestBody.serialize.
  rewrite Harg, Hhdr, (default_content_type_unique b "" p Hone).
  reflexivity.
Qed.

(** C10.  A [content_type] argument, or else a Content-Type header, whose
    value is not a content type the body declares makes [serialize] fail in
    the lookup on the content map, with [KeyError] (or [TypeError] for an
    unhashable value): not with an [AlmdrlibValueError], and in particular
    not with the "content type required" error. *)
Theorem undeclared_content_type_lookup_error (b : RequestBody.t)
  (headers kwargs : dict) (v : value) :
  dict_get "content_type" kwargs = Some v
  \/ (dict_get "content_type" kwargs = None
      /\ dict_get CONTENT_TYPE_PARAM headers = Some v) ->
  declared b v = false ->
  RequestBody.serialize b headers kwargs = Raise (lookup_error v)
  /\ is_AlmdrlibValueError (lookup_error v) = false
  /\ lookup_error v <> content_type_required.
Proof.
  intros Hgiven Hundeclared.
  assert (Hclass : is_AlmdrlibValueError (lookup_error v) = false).
  { unfold lookup_error. now destruct (hashable v). }
  split; [|split].
  - unfold RequestBody.serialize.
    destruct Hgiven as [Harg | [Harg Hhdr]].
    + rewrite Harg. now rewrite getitem_content_undeclared.
    + rewrite Harg, Hhdr. now rewrite getitem_content_undeclared.
  - exact Hclass.
  - intros Heq. rewrite Heq in Hclass. discriminate.
Qed.

(** Nothing is collected exactly when no property is among the arguments,
    and then the arguments are left as they were. *)
Lemma collect_nil (keys : list string) (kwargs : dict) :
  fst (RequestBodyParameter.collect keys kwargs) = [] ->
  forallb (fun k => negb (dict_mem k kwargs)) keys = true
  /\ snd (RequestBodyParameter.collect keys kwargs) = kwargs.
Proof.
  induction keys as [|k keys IH]; simpl; intros Hc.
  - auto.
  - unfold dict_mem. destruct (dict_get k kwargs) as [v|] eqn:Hk.
    + destruct (RequestBodyParameter.collect keys (dict_del k kwargs)).
      discriminate.
    + simpl. now apply IH.
Qed.

Lemma collect_none (keys : list string) (kwargs : dict) :
  forallb (fun k => negb (dict_mem k kwargs)) keys = true ->
  RequestBodyParameter.collect keys kwargs = ([], kwargs).
Proof.
  induction keys as [|k keys IH]; simpl; intros Hk.
  - reflexivity.
  - apply andb_true_iff in Hk as [Hk Hks].
    apply negb_true_iff, dict_mem_get_none in Hk. rewrite Hk. now apply IH.
Qed.

(** C7, as the code has it.  For an object-variant body parameter whose
    required properties are all among the arguments and for which no
    declared property is among them: when the body is required, [serialize]
    raises the "at least one of the properties must be specified" error and
    produces no payload; when the body is optional that error is not raised:
    the empty object is validated and, unless the parameter is exploded,
    encoded as the payload. *)
Theorem empty_object_body (p : RequestBodyParameter.t) (kwargs : dict)
  (explode : bool) (properties : dict) (required_properties : list string) :
  RequestBodyParameter._variant p
  = RequestBodyParameter.RequestBodyObjectParameter
      explode properties required_properties ->
  forallb (fun name => dict_mem name kwargs) required_properties = true ->
  fst (RequestBodyParameter.collect (dict_keys properties) kwargs) = [] ->
  (RequestBodyParameter._required p = true ->
   RequestBodyParameter.serialize p kwargs
   = Raise (AlmdrlibValueError
              [Text "At least one the "; Keys (dict_keys properties);
               Text " parameters must be specified."]))
  /\ (RequestBodyParameter._required p = false ->
      RequestBodyParameter.serialize p kwargs
      = (_ <- RequestBodyParameter.validate p (VDict []) ;;
         if explode
         then Raise (KeyError (VStr (RequestBodyParameter._name p)))
         else (payload <- json_dumps (VDict []) ;;
               Ok (dict_set "data" (VStr payload) kwargs)))).
Proof.
  intros Hvariant Hrequired Hempty.
  apply collect_nil in Hempty as [Hnone _].
  unfold RequestBodyParameter.serialize.
  rewrite Hvariant, Hrequired. simpl negb. cbv iota.
  rewrite (collect_none _ _ Hnone).
  split; intros Hreq; rewrite Hreq; simpl.
  - reflexivity.
  - destruct (RequestBodyParameter.validate p (VDict [])); simpl;
      [|reflexivity].
    now destruct explode.
Qed.

End Body.

(** ** Operations: signature and call *)

Section Operations.
Context `{Runtime} `{Session}.

(** The [content_type] parameter of the signature, as the code has it.
    [_make_signature] adds the [content_type] parameter whenever the operation has a body and no declared parameter is
    named [content_type], whatever the number of content types the body
    declares; the parameter's default is the body's only content type when
    there is exactly one, and it has none otherwise.  No such parameter is
    added when a declared parameter has that name or when the operation has
    no body.  The body's parameters stand between the required and the
    optional declared parameters of the signature. *)
Theorem content_type_parameter_injection (op : Operation.t) :
  (forall body,
      Operation._body op = Some body ->
      str_in CONTENT_TYPE_PYTHON_PARAM
        (map PathParameter._name (Operation._params op)) = false ->
      Operation.body_params op
      = injected_content_type body
        :: map body_parameter (dict_keys (RequestBody._parameters body)))
  /\ (forall body,
      Operation._body op = Some body ->
      str_in CONTENT_TYPE_PYTHON_PARAM
        (map PathParameter._name (Operation._params op)) = true ->
      Operation.body_params op
      = map body_parameter (dict_keys (RequestBody._parameters body)))
  /\ (Operation._body op = None -> Operation.body_params op = [])
  /\ (forall body ct p,
      RequestBody._content body = [(ct, p)] -> ct <> "" ->
      ip_default (injected_content_type body) = Some (VStr ct))
  /\ (forall body,
      length (RequestBody._content body) <> 1 ->
      ip_default (injected_content_type body) = None)
  /\ (forall signature,
      Operation._make_signature op = Ok signature ->
      exists sorted_params,
        py_sorted _ PathParameter.__lt__ (Operation._params op) = Ok sorted_params
        /\ signature
           = map PathParameter.to_inspect_parameter
               (filter PathParameter.required sorted_params)
             ++ Operation.body_params op
             ++ map PathParameter.to_inspect_parameter
                  (filter (fun p => negb (PathParameter.required p))
                          sorted_params)).
Proof.
  split; [|split; [|split; [|split; [|split]]]].
  - intros body Hbody Hfree.
    unfold Operation.body_params, Operation.content_type_parameter.
    rewrite Hbody, Hfree. reflexivity.
  - intros body Hbody Htaken.
    unfold Operation.body_params, Operation.content_type_parameter.
    rewrite Hbody, Htaken. reflexivity.
  - intros Hbody. unfold Operation.body_params. now rewrite Hbody.
  - intros body ct p Hone Hct. simpl.
    rewrite (default_content_type_unique body ct p Hone).
    unfold or_empty. simpl. apply String.eqb_neq in Hct. now rewrite Hct.
  - intros body Hlen. simpl.
    now rewrite (default_content_type_none body Hlen).
  - intros signature Hsig. unfold Operation._make_signature in Hsig.
    apply bind_ok_inv in Hsig as (sorted_params & Hsorted & Hsig).
    exists sorted_params. split; [exact Hsorted|].
    now inversion Hsig.
Qed.

(** An [AlmdrlibValueError] raised inside the call leaves [__call__] with
    the operation's identity in front of its text: the client's name, the
    operation id, the method and the path. *)
Lemma call_wraps_AlmdrlibValueError (op : Operation.t) (kw : dict)
  (m : message) :
  Operation._gen_call op kw = Raise (AlmdrlibValueError m) ->
  Operation.__call__ op kw
  = Raise (AlmdrlibValueError (Operation.__repr__ op ++ [Text " failed "] ++ m))
  /\ In (Text (Operation._operation_id op)) (Operation.__repr__ op)
  /\ In (Upper (Operation._method op)) (Operation.__repr__ op)
  /\ In (Text (Operation._path op)) (Operation.__repr__ op).
Proof.
  intros Hraise. unfold Operation.__call__. rewrite Hraise.
  split; [reflexivity|]. unfold Operation.__repr__. simpl. intuition.
Qed.

(** Any other exception leaves [__call__] as it was raised. *)
Lemma call_passes_other_exceptions (op : Operation.t) (kw : dict) (e : exn) :
  is_AlmdrlibValueError e = false ->
  Operation._gen_call op kw = Raise e ->
  Operation.__call__ op kw = Raise e.
Proof.
  intros Hclass Hraise. unfold Operation.__call__. rewrite Hraise.
  destruct e; try reflexivity. discriminate.
Qed.

(** The first parameter that raises ends the call with its exception. *)
Lemma gen_call_parameter_raises (op : Operation.t) (kw : dict)
  (before after : list PathParameter.t) (p : PathParameter.t)
  (st : CallState) (e : exn) :
  Operation._params op = before ++ p :: after ->
  Operation.serialize_params before (initial_state kw) = Ok st ->
  PathParameter.serialize p st = Raise e ->
  Operation._gen_call op kw = Raise e.
Proof.
  intros Hparams Hbefore Hp. unfold Operation._gen_call.
  rewrite Hparams. unfold Operation.serialize_params in *.
  rewrite (foldM_raise_at _ before after p (initial_state kw) st e);
    [reflexivity|exact Hbefore|].
  now rewrite Hp.
Qed.

(** *** The documented order of the parameters *)

Lemma key_compare_antisym (a b : Z * Z * Z * string) :
  key_compare b a = CompOpp (key_compare a b).
Proof.
  destruct a as [[[a1 a2] a3] a4], b as [[[b1 b2] b3] b4]. simpl.
  rewrite (Z.compare_antisym a1 b1), (Z.compare_antisym a2 b2),
    (Z.compare_antisym a3 b3), (String.compare_antisym b4 a4).
  destruct (a1 ?= b1)%Z, (a2 ?= b2)%Z, (a3 ?= b3)%Z, (String.compare a4 b4);
    reflexivity.
Qed.

(** The documented order never puts two parameters before each other. *)
Lemma documented_lt_asymmetric (a b : PathParameter.t) :
  documented_lt a b = true -> documented_lt b a = false.
Proof.
  unfold documented_lt.
  destruct (sort_key a) as [ka|], (sort_key b) as [kb|]; try discriminate.
  rewrite (key_compare_antisym ka kb).
  destruct (key_compare ka kb); simpl; congruence.
Qed.

(** [__lt__] answers [True] wherever the documented order does; the
    examples below show that it also does where the documented order does
    not. *)
Lemma documented_lt_implies_lt (a b : PathParameter.t) :
  documented_lt a b = true -> PathParameter.__lt__ a b = Ok true.
Proof.
  unfold documented_lt, sort_key, PathParameter.__lt__.
  destruct (dict_get (PathParameter._in a) PathParameter.location_ranks)
    as [ra|]; [|discriminate].
  destruct (dict_get (PathParameter._in b) PathParameter.location_ranks)
    as [rb|]; [|discriminate].
  unfold key_compare, String.ltb, Z.ltb.
  destruct (PathParameter.required a), (PathParameter.required b),
    (is_none (PathParameter.default a)), (is_none (PathParameter.default b));
    simpl; try discriminate; try reflexivity;
    destruct (ra ?= rb)%Z; simpl; try discriminate; try reflexivity;
    destruct (String.compare (PathParameter._name a) (PathParameter._name b));
    simpl; try discriminate; reflexivity.
Qed.

(** A path parameter counts as required for the signature and for the
    documentation whatever its declared flag. *)
Lemma path_parameter_required (p : PathParameter.t) :
  PathParameter._in p = PATH -> PathParameter.required p = true.
Proof.
  intros Hin. unfold PathParameter.required. rewrite Hin.
  apply orb_true_r.
Qed.

End Operations.

(** ** Loading the operations of a client *)

Section Loading.
Context `{Runtime}.
Variable client_name : string.


(** The two nested loops visit the triples of the document in order. *)
Lemma _initialize_operations_entries (paths : Client.paths_spec) :
  Client._initialize_operations client_name paths
  = foldM (register client_name) (entries paths) ([], []).
Proof.
  unfold Client._initialize_operations.
  generalize (@nil (string * Operation.t), @nil Client.warning) as st.
  induction paths as [|[path path_spec] paths IH]; intros st; simpl.
  - reflexivity.
  - rewrite foldM_app.
    assert (Hinner :
      foldM (fun st0 method_entry =>
               Client.initialize_operation client_name path
                 (fst method_entry) (snd method_entry) st0) path_spec st
      = foldM (register client_name)
          (map (fun method_entry =>
                  (path, fst method_entry, snd method_entry)) path_spec) st).
    { clear IH. revert st.
      induction path_spec as [|[method op_spec] path_spec IHp]; intros st;
        simpl; [reflexivity|].
      unfold register at 1. simpl.
      destruct (Client.initialize_operation client_name path method op_spec st);
        simpl; auto. }
    rewrite Hinner.
    destruct (foldM (register client_name) _ st); simpl; auto.
Qed.

(** An operation without [operationId] changes nothing but the log. *)
Lemma register_without_operation_id (st : load_state)
  (path method : string) (op_spec : Client.operation_spec) :
  Client.no_operation_id (Client.operationId op_spec) = true ->
  register client_name st (path, method, op_spec)
  = Ok (fst st, snd st ++ [Client.operationId_not_found method path]).
Proof.
  intros Hno. unfold register, Client.initialize_operation. simpl.
  destruct st as [operations log]. now rewrite Hno.
Qed.

(** An operation whose [operationId] is registered already raises. *)
Lemma register_duplicate (st : load_state) (path method id : string)
  (op_spec : Client.operation_spec) :
  Client.operationId op_spec = Some id -> id <> "" ->
  dict_mem id (fst st) = true ->
  register client_name st (path, method, op_spec)
  = Raise (duplication id client_name).
Proof.
  intros Hid Hne Hmem. unfold register, Client.initialize_operation. simpl.
  destruct st as [operations log]. rewrite Hid. simpl.
  apply String.eqb_neq in Hne. rewrite Hne. simpl in Hmem. now rewrite Hmem.
Qed.

(** What one step that returns does to the registered operations: nothing
    is removed, and an operation with an [operationId] is registered. *)
Lemma register_ok (st st' : load_state)
  (e : string * string * Client.operation_spec) :
  register client_name st e = Ok st' ->
  (forall k, dict_mem k (fst st) = true -> dict_mem k (fst st') = true)
  /\ (forall id, Client.operationId (snd e) = Some id -> id <> "" ->
      dict_mem id (fst st') = true).
Proof.
  destruct e as [[path method] op_spec]. destruct st as [operations log].
  unfold register, Client.initialize_operation. simpl.
  destruct (Client.no_operation_id (Client.operationId op_spec)) eqn:Hno.
  - intros Hok. inversion Hok; subst; simpl. split; [auto|].
    intros id Hid Hne. rewrite Hid in Hno. simpl in Hno.
    apply String.eqb_eq in Hno. contradiction.
  - destruct (dict_mem _ operations) eqn:Hmem; [discriminate|].
    intros Hok.
    apply bind_ok_inv in Hok as (body & _ & Hok).
    apply bind_ok_inv in Hok as (response & _ & Hok).
    inversion Hok; subst; simpl. split.
    + intros k Hk. now apply dict_mem_set_mono.
    + intros id Hid _. rewrite Hid. simpl. apply dict_mem_set_same.
Qed.

Lemma register_all_ok (l : list (string * string * Client.operation_spec))
  (st st' : load_state) :
  foldM (register client_name) l st = Ok st' ->
  forall k, dict_mem k (fst st) = true -> dict_mem k (fst st') = true.
Proof.
  intros Hrun k Hk.
  apply (foldM_invariant (fun s : load_state => dict_mem k (fst s) = true)
           (register client_name) l) with (s := st); auto.
  intros s a s' _ Hs Hstep. now apply (proj1 (register_ok s s' a Hstep)).
Qed.

(** C9.  While the operations of a document are loaded: (1) an operation
    without an [operationId] is logged and skipped, and the load goes on with
    the operations registered so far; (2) a document in which two operations
    share an [operationId] never loads: [_initialize_operations] raises, so
    [load_spec] returns no client and none of its operations can be reached;
    (3) when everything before the second of the two loads, the exception is
    the [AlmdrlibValueError] that reports the duplication. *)
Theorem operation_ids_at_load (paths : Client.paths_spec) :
  (forall before after path method op_spec,
      entries paths = before ++ (path, method, op_spec) :: after ->
      Client.no_operation_id (Client.operationId op_spec) = true ->
      Client._initialize_operations client_name paths
      = (st <- foldM (register client_name) before ([], []) ;;
         foldM (register client_name) after
           (fst st, snd st ++ [Client.operationId_not_found method path])))
  /\ (forall l1 l2 l3 x y id,
      entries paths = l1 ++ x :: l2 ++ y :: l3 ->
      Client.operationId (snd x) = Some id ->
      Client.operationId (snd y) = Some id ->
      id <> "" ->
      (exists e,
          Client._initialize_operations client_name paths = Raise e
          /\ Client.load_spec client_name paths = Raise e)
      /\ (forall st,
          foldM (register client_name) (l1 ++ x :: l2) ([], []) = Ok st ->
          Client._initialize_operations client_name paths
          = Raise (duplication id client_name))).
Proof.
  split.
  - intros before after path method op_spec Hentries Hno.
    rewrite _initialize_operations_entries, Hentries, foldM_app.
    destruct (foldM (register client_name) before ([], [])) as [st|e]; simpl;
      [|reflexivity].
    now rewrite (register_without_operation_id st path method op_spec Hno).
  - intros l1 l2 l3 x y id Hentries Hx Hy Hne.
    assert (Hdup : forall st,
      foldM (register client_name) (l1 ++ x :: l2) ([], []) = Ok st ->
      Client._initialize_operations client_name paths
      = Raise (duplication id client_name)).
    { intros st Hrun.
      rewrite _initialize_operations_entries, Hentries.
      replace (l1 ++ x :: l2 ++ y :: l3) with ((l1 ++ x :: l2) ++ y :: l3)
        by (rewrite <- app_assoc; reflexivity).
      apply (foldM_raise_at _ _ _ _ _ st); [exact Hrun|].
      destruct y as [[path method] op_spec]. simpl in Hy.
      apply register_duplicate; auto.
      rewrite foldM_app in Hrun.
      apply bind_ok_inv in Hrun as (s1 & _ & Hrun). simpl in Hrun.
      apply bind_ok_inv in Hrun as (s2 & Hstep & Hrest).
      apply (register_all_ok l2 s2 st Hrest).
      exact (proj2 (register_ok s1 s2 x Hstep) id Hx Hne). }
    split; [|exact Hdup].
    assert (Hraise : exists e,
      Client._initialize_operations client_name paths = Raise e).
    { destruct (foldM (register client_name) (l1 ++ x :: l2) ([], []))
        as [st|e] eqn:Hrun.
      - exists (duplication id client_name). now apply (Hdup st).
      - exists e. rewrite _initialize_operations_entries, Hentries.
        replace (l1 ++ x :: l2 ++ y :: l3) with ((l1 ++ x :: l2) ++ y :: l3)
          by (rewrite <- app_assoc; reflexivity).
        now rewrite foldM_app, Hrun. }
    destruct Hraise as [e He]. exists e. split; [exact He|].
    unfold Client.load_spec. now rewrite He.
Qed.

End Loading.


(** * Further properties of the module *)

(** ** More on dictionaries *)

Section MoreDictFacts.
Context {V : Type}.
Implicit Types (d : list (string * V)) (k : string).

Lemma dict_mem_in_keys k d :
  dict_mem k d = true <-> In k (dict_keys d).
Proof.
  unfold dict_mem. induction d as [|[k' v'] d IH]; simpl.
  - split; [discriminate | tauto].
  - destruct (String.eqb_spec k k') as [->|Hne].
    + split; auto.
    + rewrite IH. split; [auto | intros [Heq|Hin]; congruence].
Qed.

Lemma dict_get_del_other k k' d :
  k <> k' -> dict_get k (dict_del k' d) = dict_get k d.
Proof.
  intros Hne. induction d as [|[k'' v''] d IH]; simpl; [reflexivity|].
  destruct (String.eqb_spec k' k'') as [->|Hne'].
  - apply String.eqb_neq in Hne. now rewrite Hne.
  - simpl. now rewrite IH.
Qed.

Lemma dict_keys_del_subset k k' d :
  In k (dict_keys (dict_del k' d)) -> In k (dict_keys d).
Proof.
  induction d as [|[k'' v''] d IH]; simpl; [tauto|].
  destruct (k' =? k''); simpl; intuition.
Qed.

Lemma dict_del_NoDup k d :
  NoDup (dict_keys d) -> NoDup (dict_keys (dict_del k d)).
Proof.
  induction d as [|[k' v'] d IH]; simpl; intros Hnd; [constructor|].
  inversion Hnd as [|? ? Hnotin Hnd']; subst.
  destruct (k =? k'); simpl; [assumption|].
  constructor; [|auto].
  intros Hin. apply Hnotin. now apply dict_keys_del_subset in Hin.
Qed.

(** In a dictionary, where a key occurs once, a deleted key is gone. *)
Lemma dict_get_del_same k d :
  NoDup (dict_keys d) -> dict_get k (dict_del k d) = None.
Proof.
  induction d as [|[k' v'] d IH]; simpl; intros Hnd; [reflexivity|].
  inversion Hnd as [|? ? Hnotin Hnd']; subst.
  destruct (String.eqb_spec k k') as [->|Hne]; simpl.
  - apply dict_mem_get_none. destruct (dict_mem k' d) eqn:Hm; [|reflexivity].
    apply dict_mem_in_keys in Hm. contradiction.
  - apply String.eqb_neq in Hne. rewrite Hne. auto.
Qed.

Lemma dict_del_absent k d :
  dict_mem k d = false -> dict_del k d = d.
Proof.
  unfold dict_mem. induction d as [|[k' v'] d IH]; simpl; [reflexivity|].
  destruct (k =? k'); [discriminate|]. intros Hm. now rewrite IH.
Qed.

Lemma dict_del_set_absent k (v : V) d :
  dict_mem k d = false -> dict_del k (dict_set k v d) = d.
Proof.
  unfold dict_mem. induction d as [|[k' v'] d IH]; simpl.
  - now rewrite String.eqb_refl.
  - destruct (k =? k') eqn:E; [discriminate|]. intros Hm. simpl.
    rewrite E. now rewrite IH.
Qed.

Lemma dict_keys_set_absent k (v : V) d :
  dict_mem k d = false -> dict_keys (dict_set k v d) = dict_keys d ++ [k].
Proof.
  unfold dict_mem, dict_keys. induction d as [|[k' v'] d IH]; simpl.
  - reflexivity.
  - destruct (k =? k'); [discriminate|]. intros Hm. simpl. now rewrite IH.
Qed.

Lemma dict_get_in k (v : V) d :
  dict_get k d = Some v -> In (k, v) d.
Proof.
  induction d as [|[k' v'] d IH]; simpl; [discriminate|].
  destruct (String.eqb_spec k k') as [->|Hne].
  - intros Heq. inversion Heq. now left.
  - auto.
Qed.

Lemma dict_in_get k (v : V) d :
  NoDup (dict_keys d) -> In (k, v) d -> dict_get k d = Some v.
Proof.
  induction d as [|[k' v'] d IH]; simpl; intros Hnd Hin; [contradiction|].
  inversion Hnd as [|? ? Hnotin Hnd']; subst.
  destruct Hin as [Heq|Hin].
  - inversion Heq; subst. now rewrite String.eqb_refl.
  - destruct (String.eqb_spec k k') as [->|Hne]; [|auto].
    exfalso. apply Hnotin. apply (in_map fst) in Hin. exact Hin.
Qed.

End MoreDictFacts.

(** ** [update_dict_no_replace] and [get_dict_value] *)

Lemma update_keys_lookup (source : dict) (keys : list string) (target : dict)
  (k : string) :
  dict_get k
    (fold_left
       (fun target key =>
          if dict_mem key target then target
          else
            match dict_get key source with
            | Some v => dict_set key v target
            | None => target
            end)
       keys target)
  = match dict_get k target with
    | Some v => Some v
    | None => if str_in k keys then dict_get k source else None
    end.
Proof.
  revert target. induction keys as [|key keys IH]; intros target; simpl.
  - now destruct (dict_get k target).
  - rewrite IH. clear IH.
    destruct (dict_mem key target) eqn:Hmem.
    + destruct (dict_get k target) eqn:Hk; [reflexivity|].
      destruct (String.eqb_spec k key) as [->|Hne]; [|reflexivity].
      apply dict_mem_get_some in Hmem as [v Hv]. congruence.
    + destruct (dict_get key source) as [v|] eqn:Hsrc.
      * destruct (String.eqb_spec k key) as [->|Hne].
        -- rewrite dict_get_set_same.
           apply dict_mem_get_none in Hmem. now rewrite Hmem, Hsrc.
        -- now rewrite dict_get_set_other.
      * destruct (dict_get k target) eqn:Hk; [reflexivity|].
        destruct (String.eqb_spec k key) as [->|Hne]; [|reflexivity].
        simpl. rewrite Hsrc. now destruct (str_in key keys).
Qed.

Lemma str_in_keys_get (k : string) (d : dict) :
  str_in k (dict_keys d) = false -> dict_get k d = None.
Proof.
  unfold str_in, dict_keys. induction d as [|[k' v'] d IH]; simpl;
    [reflexivity|].
  destruct (k =? k'); simpl; [discriminate | auto].
Qed.

(** After [update_dict_no_replace(target, source)] every key of the target
    has the value it had, and a key of the source that the target lacked
    has the source's value: nothing is replaced and nothing else is
    added. *)
Theorem update_dict_no_replace_lookup (target source : dict) (k : string) :
  dict_get k (update_dict_no_replace target source)
  = match dict_get k target with
    | Some v => Some v
    | None => dict_get k source
    end.
Proof.
  unfold update_dict_no_replace. rewrite update_keys_lookup.
  destruct (dict_get k target); [reflexivity|].
  destruct (str_in k (dict_keys source)) eqn:Hin; [reflexivity|].
  symmetry. now apply str_in_keys_get.
Qed.

Lemma get_dict_value_loop_descend (keys : list string) :
  forall (n depth : nat) (d : value) (key : string) (default : value),
    (depth + List.length keys = n)%nat ->
    get_dict_value_loop (S n) depth d (keys ++ [key]) default
    = match descend d keys with
      | Some d' =>
          match getitem_or_caught d' key with
          | Some v => v
          | None => default
          end
      | None => default
      end.
Proof.
  induction keys as [|k keys IH]; intros n depth d key default Hlen; simpl.
  - simpl in Hlen. rewrite Nat.add_0_r in Hlen. subst depth.
    rewrite Nat.sub_0_r, Nat.eqb_refl. reflexivity.
  - simpl in Hlen.
    assert (Hlt : (depth =? n - 0)%nat = false).
    { apply Nat.eqb_neq. lia. }
    rewrite Hlt.
    destruct (getitem_or_caught d k) as [d'|]; [|reflexivity].
    apply IH. lia.
Qed.

(** [get_dict_value] never raises.  It returns the default for an empty list
    of keys; for a list of keys it returns the value found under the last
    key in the mapping reached through the keys before it, whatever that
    value is ([None] included), and the default as soon as a key is missing
    or an object on the way is not a mapping. *)
Theorem get_dict_value_path (d : value) (keys : list string) (key : string)
  (default : value) :
  get_dict_value d [] default = default
  /\ get_dict_value d (keys ++ [key]) default
     = match descend d keys with
       | Some (VDict m) =>
           match dict_get key m with
           | Some v => v
           | None => default
           end
       | _ => default
       end.
Proof.
  split; [reflexivity|].
  unfold get_dict_value. rewrite length_app. simpl.
  rewrite Nat.add_1_r.
  rewrite (get_dict_value_loop_descend keys (List.length keys) 0 d key default)
    by reflexivity.
  destruct (descend d keys) as [[ | | | | | |m]|]; reflexivity.
Qed.

(** ** More on [PathParameter] *)

Lemma replace_char_absent (a b : ascii) (s : string) :
  a <> b ->
  forallb (fun c => negb (Ascii.eqb c a))
          (list_ascii_of_string (replace_char a b s)) = true.
Proof.
  intros Hab. induction s as [|c s IH]; simpl; [reflexivity|].
  rewrite IH, andb_true_r.
  destruct (Ascii.eqb_spec c a) as [->|Hne].
  - apply negb_true_iff, Ascii.eqb_neq. congruence.
  - apply negb_true_iff, Ascii.eqb_neq. exact Hne.
Qed.

Section MoreParameters.
Context `{Runtime} `{Session}.

(** What a [serialize] that returns has done: either nothing, or it has
    consumed the argument of its name and written one request part. *)
Lemma serialize_ok_inv (p : PathParameter.t) (st st' : CallState)
  (r : value) :
  PathParameter.serialize p st = Ok (r, st') ->
  (r = VNone /\ st' = st)
  \/ (r = VBool true
      /\ kwargs st' = dict_del (PathParameter._name p) (kwargs st)
      /\ (PathParameter._in p <> PATH -> path_params st' = path_params st)
      /\ (PathParameter._in p <> QUERY -> params st' = params st)
      /\ (PathParameter._in p <> HEADER -> headers st' = headers st)
      /\ (PathParameter._in p <> COOKIE -> cookies st' = cookies st)).
Proof.
  unfold PathParameter.serialize.
  destruct (negb (dict_mem _ _) && negb (truthy _)).
  - destruct (PathParameter._required p); [discriminate|].
    intros Hok. inversion Hok; subst. now left.
  - destruct (String.eqb_spec (PathParameter._in p) PATH) as [Hpath|Hpath].
    { intros Hok. inversion Hok; subst. right. simpl.
      repeat split; try reflexivity. intros Hne. contradiction. }
    destruct (String.eqb_spec (PathParameter._in p) QUERY) as [Hquery|Hquery].
    { intros Hok.
      apply bind_ok_inv in Hok as (new_query_params & _ & Hok).
      apply bind_ok_inv in Hok as (query_params & _ & Hok).
      inversion Hok; subst. right. simpl.
      repeat split; try reflexivity. intros Hne. contradiction. }
    destruct (String.eqb_spec (PathParameter._in p) HEADER)
      as [Hheader|Hheader].
    { intros Hok. inversion Hok; subst. right. simpl.
      repeat split; try reflexivity. intros Hne. contradiction. }
    destruct (String.eqb_spec (PathParameter._in p) COOKIE)
      as [Hcookie|Hcookie].
    { intros Hok. inversion Hok; subst. right. simpl.
      repeat split; try reflexivity. intros Hne. contradiction. }
    intros Hok. inversion Hok; subst. right. simpl.
    repeat split; reflexivity.
Qed.

(** A parameter never writes a request part other than the one of its
    location and never consumes an argument other than the one of its own
    name: a [serialize] that returns [None] leaves the state as it was, and
    one that returns [True] has removed its name from the keyword arguments
    and left the three other request parts unchanged. *)
Theorem serialize_touches_own_part_only (p : PathParameter.t)
  (st st' : CallState) (r : value) :
  PathParameter.serialize p st = Ok (r, st') ->
  (r = VNone /\ st' = st)
  \/ (r = VBool true
      /\ kwargs st' = dict_del (PathParameter._name p) (kwargs st)
      /\ (PathParameter._in p <> PATH -> path_params st' = path_params st)
      /\ (PathParameter._in p <> QUERY -> params st' = params st)
      /\ (PathParameter._in p <> HEADER -> headers st' = headers st)
      /\ (PathParameter._in p <> COOKIE -> cookies st' = cookies st)).
Proof. exact (serialize_ok_inv p st st' r). Qed.

(** A path, header or cookie parameter is looked up among the keyword
    arguments under its Python name, the declared name with every dash
    turned into an underscore (so it contains no dash), and is written to
    its request part under the declared name.  The value written is the
    argument itself for the string datatype and, for the boolean datatype,
    "true" or "false" after the argument's truth value, so that every
    non-empty string, "false" included, is written as "true". *)
Theorem parameter_placed_under_declared_name (s : PathParameter.spec)
  (st : CallState) (v : value) :
  dict_get (PathParameter._name (PathParameter.__init__ s)) (kwargs st)
  = Some v ->
  PathParameter._name (PathParameter.__init__ s)
  = replace_char "-" "_" (PathParameter.s_name s)
  /\ forallb (fun c => negb (Ascii.eqb c "-"))
       (list_ascii_of_string
          (PathParameter._name (PathParameter.__init__ s))) = true
  /\ (forall st' r,
      PathParameter.serialize (PathParameter.__init__ s) st = Ok (r, st') ->
      (PathParameter.s_in s = PATH ->
       dict_get (PathParameter.s_name s) (path_params st')
       = Some (serialize_value
                 (PathParameter._datatype (PathParameter.__init__ s)) v))
      /\ (PathParameter.s_in s = HEADER ->
          dict_get (PathParameter.s_name s) (headers st')
          = Some (serialize_value
                    (PathParameter._datatype (PathParameter.__init__ s)) v))
      /\ (PathParameter.s_in s = COOKIE ->
          dict_get (PathParameter.s_name s) (cookies st')
          = Some (serialize_value
                    (PathParameter._datatype (PathParameter.__init__ s)) v)))
  /\ (PathParameter.s_in s = PATH \/ PathParameter.s_in s = HEADER
      \/ PathParameter.s_in s = COOKIE ->
      exists st',
        PathParameter.serialize (PathParameter.__init__ s) st
        = Ok (VBool true, st'))
  /\ serialize_value STRING v = v
  /\ serialize_value BOOLEAN v = VStr (if truthy v then "true" else "false")
  /\ (forall text, text <> "" ->
      serialize_value BOOLEAN (VStr text) = VStr "true").
Proof.
  intros Harg.
  assert (Hmem : dict_mem (PathParameter._name (PathParameter.__init__ s))
                   (kwargs st) = true).
  { unfold dict_mem. now rewrite Harg. }
  assert (Hraw : dict_get_default
                   (PathParameter._name (PathParameter.__init__ s))
                   (PathParameter.default (PathParameter.__init__ s))
                   (kwargs st) = v).
  { unfold dict_get_default. now rewrite Harg. }
  split; [reflexivity|].
  split; [apply replace_char_absent; discriminate|].
  split; [|split; [|split; [|split]]].
  - intros st' r. unfold PathParameter.serialize.
    rewrite Hmem, Hraw. simpl negb. simpl andb. cbv iota.
    change (PathParameter._in (PathParameter.__init__ s))
      with (PathParameter.s_in s).
    change (PathParameter._schema_name (PathParameter.__init__ s))
      with (PathParameter.s_name s).
    intros Hok. split; [|split]; intros Hin; rewrite Hin in Hok;
      simpl in Hok; inversion Hok; subst; simpl;
      apply dict_get_set_same.
  - intros Hin. unfold PathParameter.serialize.
    rewrite Hmem. simpl negb. simpl andb. cbv iota.
    change (PathParameter._in (PathParameter.__init__ s))
      with (PathParameter.s_in s).
    destruct Hin as [-> | [-> | ->]]; simpl; eexists; reflexivity.
  - reflexivity.
  - unfold serialize_value. simpl. now destruct (truthy v).
  - intros text Htext. unfold serialize_value. simpl.
    apply String.eqb_neq in Htext. now rewrite Htext.
Qed.

(** The session default of a parameter.  (1) A default with a true truth
    value acts exactly as if the caller had passed it as the argument.
    (2) A default with a false truth value ([None], but also 0, [False] or
    the empty string) is no default: without an argument the parameter is
    skipped when it is optional and raises "is required" when its required
    flag is set. *)
Theorem session_default_semantics (p : PathParameter.t) (st : CallState) :
  dict_mem (PathParameter._name p) (kwargs st) = false ->
  (truthy (PathParameter.default p) = true ->
   PathParameter.serialize p st
   = PathParameter.serialize p
       (set_kwargs st
          (dict_set (PathParameter._name p) (PathParameter.default p)
             (kwargs st))))
  /\ (truthy (PathParameter.default p) = false ->
      PathParameter.serialize p st
      = if PathParameter._required p
        then Raise (ValueError [Text "'"; Text (PathParameter._name p);
                                Text "' is required"])
        else Ok (VNone, st)).
Proof.
  intros Habsent. split; intros Hdefault.
  - unfold PathParameter.serialize. simpl kwargs.
    rewrite Habsent, Hdefault, dict_mem_set_same. simpl.
    unfold dict_get_default.
    rewrite dict_get_set_same, dict_del_set_absent by exact Habsent.
    apply dict_mem_get_none in Habsent as Hget. rewrite Hget.
    rewrite dict_del_absent by exact Habsent.
    unfold set_kwargs, set_path_params, set_params, set_headers, set_cookies.
    simpl. reflexivity.
  - unfold PathParameter.serialize. now rewrite Habsent, Hdefault.
Qed.

(** The style of a query parameter is checked when the parameter is
    serialized, not when it is built: with a style outside form,
    spaceDelimited and pipeDelimited the call raises the "invalid style"
    [ValueError] as soon as a value is at hand (an argument or a default),
    whatever the datatype and the explode flag, while an optional parameter
    without a value is skipped without any error. *)
Theorem query_style_checked_when_serialized (p : PathParameter.t)
  (st : CallState) :
  PathParameter._in p = QUERY ->
  str_in (PathParameter._style p) PathParameter.valid_styles = false ->
  (dict_mem (PathParameter._name p) (kwargs st) = true
   \/ truthy (PathParameter.default p) = true ->
   PathParameter.serialize p st
   = Raise (ValueError [Text (PathParameter._name p);
                        Text " query parameter has invalid style: ";
                        Text (PathParameter._style p)]))
  /\ (dict_mem (PathParameter._name p) (kwargs st) = false ->
      truthy (PathParameter.default p) = false ->
      PathParameter._required p = false ->
      PathParameter.serialize p st = Ok (VNone, st)).
Proof.
  intros Hin Hstyle. split.
  - intros Hvalue. unfold PathParameter.serialize.
    assert (Hcond : negb (dict_mem (PathParameter._name p) (kwargs st))
                    && negb (truthy (PathParameter.default p)) = false).
    { destruct Hvalue as [-> | ->]; simpl; [reflexivity|].
      apply andb_false_r. }
    rewrite Hcond, Hin. simpl.
    unfold PathParameter.serialize_query_parameter. now rewrite Hstyle.
  - intros Habsent Hdefault Hflag. unfold PathParameter.serialize.
    now rewrite Habsent, Hdefault, Hflag.
Qed.

(** An object passed for a query parameter of object datatype in form
    style: with explode every key of the object becomes a query parameter of
    its own and the parameter's name does not appear; without explode the
    entries are written under the parameter's name as one string of
    "key,value" pairs joined by commas. *)
Theorem object_query_parameter (p : PathParameter.t) (st : CallState)
  (d : dict) :
  PathParameter._in p = QUERY ->
  PathParameter._datatype p = OBJECT ->
  PathParameter._style p = PARAMETER_STYLE_FORM ->
  dict_get (PathParameter._name p) (kwargs st) = Some (VDict d) ->
  (PathParameter._explode p = true ->
   PathParameter.serialize p st
   = Ok (VBool true,
         set_params
           (set_kwargs st (dict_del (PathParameter._name p) (kwargs st)))
           (dict_update (params st) d)))
  /\ (PathParameter._explode p = false ->
      PathParameter.serialize p st
      = Ok (VBool true,
            set_params
              (set_kwargs st (dict_del (PathParameter._name p) (kwargs st)))
              (dict_set (PathParameter._name p)
                 (VStr (String.concat ","
                          (map (fun ab =>
                                  (fst ab ++ "," ++ py_str (snd ab))%string)
                               d)))
                 (params st)))).
Proof.
  intros Hin Htype Hstyle Harg.
  assert (Hmem : dict_mem (PathParameter._name p) (kwargs st) = true).
  { unfold dict_mem. now rewrite Harg. }
  split; intros Hexplode; unfold PathParameter.serialize;
    rewrite Hmem, Hin; simpl;
    unfold dict_get_default; rewrite Harg;
    unfold PathParameter.serialize_query_parameter;
    rewrite Hstyle, Htype, Hexplode; reflexivity.
Qed.

(** A query parameter of array datatype declared without [style] and
    without [explode] gets the form style and explode: its value is passed
    on as it is under the parameter's name, never joined. *)
Theorem query_array_defaults_to_explode (name : string)
  (required : option bool) (description : option string) (st : CallState)
  (v : value) :
  dict_get (replace_char "-" "_" name) (kwargs st) = Some v ->
  PathParameter.serialize
    (PathParameter.__init__
       {| PathParameter.s_in := QUERY;
          PathParameter.s_name := name;
          PathParameter.s_required := required;
          PathParameter.s_description := description;
          PathParameter.s_type := Some ARRAY;
          PathParameter.s_style := None;
          PathParameter.s_explode := None |})
    st
  = Ok (VBool true,
        set_params
          (set_kwargs st (dict_del (replace_char "-" "_" name) (kwargs st)))
          (dict_set (replace_char "-" "_" name) v (params st))).
Proof.
  intros Harg. unfold PathParameter.serialize. simpl.
  unfold dict_mem, dict_get_default. rewrite Harg. reflexivity.
Qed.

(** Two parameters with the same Python name share one argument: the first
    to be serialized consumes it, and the second, when it is required and
    has no default, raises "is required" although the caller passed the
    argument. *)
Theorem shared_python_name_starves_second (p1 p2 : PathParameter.t)
  (st : CallState) (v : value) :
  PathParameter._name p1 = PathParameter._name p2 ->
  PathParameter._in p1 <> QUERY ->
  NoDup (dict_keys (kwargs st)) ->
  dict_get (PathParameter._name p1) (kwargs st) = Some v ->
  PathParameter._required p2 = true ->
  truthy (PathParameter.default p2) = false ->
  exists st1,
    PathParameter.serialize p1 st = Ok (VBool true, st1)
    /\ PathParameter.serialize p2 st1
       = Raise (ValueError [Text "'"; Text (PathParameter._name p2);
                            Text "' is required"]).
Proof.
  intros Hname Hquery Hnodup Harg Hflag Hdefault.
  assert (Hmem : dict_mem (PathParameter._name p1) (kwargs st) = true).
  { unfold dict_mem. now rewrite Harg. }
  assert (Hfirst : exists st1,
             PathParameter.serialize p1 st = Ok (VBool true, st1)).
  { unfold PathParameter.serialize. rewrite Hmem. simpl.
    destruct (PathParameter._in p1 =? PATH); [eexists; reflexivity|].
    destruct (String.eqb_spec (PathParameter._in p1) QUERY);
      [contradiction|].
    destruct (PathParameter._in p1 =? HEADER); [eexists; reflexivity|].
    destruct (PathParameter._in p1 =? COOKIE); eexists; reflexivity. }
  destruct Hfirst as [st1 Hfirst]. exists st1. split; [exact Hfirst|].
  destruct (serialize_ok_inv p1 st st1 (VBool true) Hfirst)
    as [[Hnone _] | (_ & Hkwargs & _)]; [discriminate|].
  unfold PathParameter.serialize.
  rewrite Hkwargs, <- Hname.
  assert (Hgone : dict_mem (PathParameter._name p1)
                    (dict_del (PathParameter._name p1) (kwargs st)) = false).
  { apply dict_mem_get_none. now apply dict_get_del_same. }
  rewrite Hgone, Hdefault, Hflag. reflexivity.
Qed.

End MoreParameters.

(** ** More on the request body *)

Lemma collect_fst_get (keys : list string) :
  forall (kwargs : dict) (k : string),
    dict_get k (fst (RequestBodyParameter.collect keys kwargs))
    = if str_in k keys then dict_get k kwargs else None.
Proof.
  induction keys as [|key keys IH]; intros kwargs k; simpl; [reflexivity|].
  destruct (dict_get key kwargs) as [v|] eqn:Hkey.
  - specialize (IH (dict_del key kwargs) k).
    destruct (RequestBodyParameter.collect keys (dict_del key kwargs))
      as [result rest]. simpl in *.
    destruct (String.eqb_spec k key) as [->|Hne]; simpl.
    + now rewrite Hkey.
    + rewrite IH. now rewrite dict_get_del_other.
  - rewrite IH.
    destruct (String.eqb_spec k key) as [->|Hne]; simpl; [|reflexivity].
    rewrite Hkey. now destruct (str_in key keys).
Qed.

Lemma collect_snd_get (keys : list string) :
  forall (kwargs : dict) (k : string),
    NoDup (dict_keys kwargs) ->
    dict_get k (snd (RequestBodyParameter.collect keys kwargs))
    = if str_in k keys then None else dict_get k kwargs.
Proof.
  induction keys as [|key keys IH]; intros kwargs k Hnodup; simpl;
    [reflexivity|].
  destruct (dict_get key kwargs) as [v|] eqn:Hkey.
  - specialize (IH (dict_del key kwargs) k (dict_del_NoDup key kwargs Hnodup)).
    destruct (RequestBodyParameter.collect keys (dict_del key kwargs))
      as [result rest]. simpl in *.
    rewrite IH.
    destruct (String.eqb_spec k key) as [->|Hne]; simpl.
    + rewrite dict_get_del_same by exact Hnodup.
      now destruct (str_in key keys).
    + now rewrite dict_get_del_other.
  - rewrite IH by exact Hnodup.
    destruct (String.eqb_spec k key) as [->|Hne]; simpl; [|reflexivity].
    rewrite Hkey. now destruct (str_in key keys).
Qed.

Lemma forallb_false_in {A : Type} (f : A -> bool) (l : list A) (a : A) :
  In a l -> f a = false -> forallb f l = false.
Proof.
  intros Hin Hfa. induction l as [|x l IH]; simpl; [contradiction|].
  destruct Hin as [->|Hin].
  - now rewrite Hfa.
  - rewrite IH by exact Hin. apply andb_false_r.
Qed.

Section MoreBody.
Context `{Runtime}.

(** The scalar body.  With the binary format a payload that is produced is
    always [bytes]: a string is encoded, [bytes] are passed on, a missing
    argument gives the empty [bytes], and any other object makes the call
    raise [AttributeError].  With any other format the argument, or the
    empty string when it is missing, is the payload as it is.  No other
    keyword argument is touched. *)
Theorem simple_body_payload (p : RequestBodyParameter.t) (kwargs : dict)
  (format : option value) :
  RequestBodyParameter._variant p
  = RequestBodyParameter.RequestBodySimpleParameter format ->
  (RequestBodyParameter.is_binary format = true ->
   (forall kwargs',
       RequestBodyParameter.serialize p kwargs = Ok kwargs' ->
       exists s, dict_get "data" kwargs' = Some (VBytes s))
   /\ (forall s,
       dict_get (RequestBodyParameter._name p) kwargs = Some (VStr s) ->
       RequestBodyParameter.serialize p kwargs
       = Ok (dict_set "data" (VBytes s)
               (dict_del (RequestBodyParameter._name p) kwargs)))
   /\ (dict_get (RequestBodyParameter._name p) kwargs = None ->
       RequestBodyParameter.serialize p kwargs
       = Ok (dict_set "data" (VBytes "") kwargs))
   /\ (forall data,
       dict_get (RequestBodyParameter._name p) kwargs = Some data ->
       (forall s, data <> VStr s) -> (forall s, data <> VBytes s) ->
       RequestBodyParameter.serialize p kwargs = Raise AttributeError))
  /\ (RequestBodyParameter.is_binary format = false ->
      RequestBodyParameter.serialize p kwargs
      = Ok (dict_set "data"
              (dict_get_default (RequestBodyParameter._name p) (VStr "")
                 kwargs)
              (dict_del (RequestBodyParameter._name p) kwargs)))
  /\ (forall kwargs' k,
      RequestBodyParameter.serialize p kwargs = Ok kwargs' ->
      k <> "data" -> k <> RequestBodyParameter._name p ->
      dict_get k kwargs' = dict_get k kwargs).
Proof.
  intros Hvariant. unfold RequestBodyParameter.serialize. rewrite Hvariant.
  split; [|split].
  - intros Hbinary. rewrite Hbinary. simpl andb.
    split; [|split; [|split]].
    + intros kwargs'. unfold dict_get_default.
      destruct (dict_get (RequestBodyParameter._name p) kwargs)
        as [[ | | | | | | ]|]; simpl; intros Hok; try discriminate;
        inversion Hok; subst; eexists; apply dict_get_set_same.
    + intros s Harg. unfold dict_get_default. now rewrite Harg.
    + intros Harg. unfold dict_get_default. rewrite Harg. simpl.
      rewrite dict_del_absent; [reflexivity|].
      now apply dict_mem_get_none.
    + intros data Harg Hstr Hbytes. unfold dict_get_default. rewrite Harg.
      destruct data; simpl; try reflexivity.
      * now contradiction (Hstr s).
      * now contradiction (Hbytes s).
  - intros Hbinary. now rewrite Hbinary.
  - intros kwargs' k Hok Hdata Hname.
    assert (Hshape : exists payload,
               kwargs' = dict_set "data" payload
                           (dict_del (RequestBodyParameter._name p) kwargs)).
    { destruct (RequestBodyParameter.is_binary format
                && negb (RequestBodyParameter.is_bytes _)).
      - destruct (dict_get_default _ _ _); try discriminate.
        inversion Hok. eexists; reflexivity.
      - inversion Hok. eexists; reflexivity. }
    destruct Hshape as [payload ->].
    rewrite dict_get_set_other by exact Hdata.
    now apply dict_get_del_other.
Qed.

(** No payload is produced from data the validator refuses: when
    [serialize] returns, the object variant has had its collected object
    accepted by the validator of its schema, and so has the schema variant
    of a JSON content type for its argument. *)
Theorem payload_was_validated (p : RequestBodyParameter.t)
  (kwargs kwargs' : dict) :
  RequestBodyParameter.serialize p kwargs = Ok kwargs' ->
  match RequestBodyParameter._variant p with
  | RequestBodyParameter.RequestBodyObjectParameter _ properties _ =>
      jsonschema_validate (RequestBodyParameter._schema p)
        (VDict (fst (RequestBodyParameter.collect (dict_keys properties)
                       kwargs)))
      = None
  | RequestBodyParameter.RequestBodySchemaParameter =>
      str_in (RequestBodyParameter._content_type p)
        RequestBodyParameter.json_content_types = true ->
      jsonschema_validate (RequestBodyParameter._schema p)
        (dict_get_default (RequestBodyParameter._name p) (VDict []) kwargs)
      = None
  | RequestBodyParameter.RequestBodySimpleParameter _ => True
  end.
Proof.
  unfold RequestBodyParameter.serialize, RequestBodyParameter.validate.
  destruct (RequestBodyParameter._variant p)
    as [|format|explode properties required_properties].
  - intros Hok Hjson. rewrite Hjson in Hok.
    destruct (jsonschema_validate _ _); [discriminate|reflexivity].
  - trivial.
  - destruct (negb (forallb _ required_properties)); [discriminate|].
    destruct (RequestBodyParameter.collect (dict_keys properties) kwargs)
      as [result rest]. cbv beta iota. cbn [fst].
    destruct (RequestBodyParameter._required p && negb (truthy (VDict result)));
      [discriminate|].
    destruct (jsonschema_validate _ _); [discriminate|reflexivity].
Qed.

(** An object body whose schema requires a property that is not among the
    arguments raises the "parameters are required" error, which shows all
    the required properties and the arguments received: for a required and
    for an optional body alike, and before anything is validated. *)
Theorem missing_required_property_raises (p : RequestBodyParameter.t)
  (kwargs : dict) (explode : bool) (properties : dict)
  (required_properties : list string) (name : string) :
  RequestBodyParameter._variant p
  = RequestBodyParameter.RequestBodyObjectParameter
      explode properties required_properties ->
  In name required_properties ->
  dict_mem name kwargs = false ->
  RequestBodyParameter.serialize p kwargs
  = Raise (AlmdrlibValueError
             [Text "'"; Repr (VList (map VStr required_properties));
              Text "' parameters are required. '"; Repr (VDict kwargs);
              Text "' were provided."]).
Proof.
  intros Hvariant Hin Hmissing.
  unfold RequestBodyParameter.serialize. rewrite Hvariant.
  rewrite (forallb_false_in _ required_properties name Hin Hmissing).
  reflexivity.
Qed.

(** What an object body that is not exploded does to the keyword arguments
    when it returns: the payload under ["data"] is the JSON text of the
    collected object, which holds exactly the arguments named by a property
    of the schema; those arguments are consumed, and every other argument is
    left as it was. *)
Theorem object_body_consumes_its_properties (p : RequestBodyParameter.t)
  (kwargs kwargs' : dict) (properties : dict)
  (required_properties : list string) :
  RequestBodyParameter._variant p
  = RequestBodyParameter.RequestBodyObjectParameter
      false properties required_properties ->
  NoDup (dict_keys kwargs) ->
  RequestBodyParameter.serialize p kwargs = Ok kwargs' ->
  exists collected payload,
    json_dumps (VDict collected) = Ok payload
    /\ dict_get "data" kwargs' = Some (VStr payload)
    /\ (forall k,
        dict_get k collected
        = if str_in k (dict_keys properties) then dict_get k kwargs
          else None)
    /\ (forall k, k <> "data" ->
        dict_get k kwargs'
        = if str_in k (dict_keys properties) then None
          else dict_get k kwargs).
Proof.
  intros Hvariant Hnodup.
  unfold RequestBodyParameter.serialize. rewrite Hvariant.
  destruct (negb (forallb _ required_properties)); [discriminate|].
  pose proof (collect_fst_get (dict_keys properties) kwargs) as Hfst.
  pose proof (fun k => collect_snd_get (dict_keys properties) kwargs k Hnodup)
    as Hsnd.
  destruct (RequestBodyParameter.collect (dict_keys properties) kwargs)
    as [result rest]. cbn [fst snd] in Hfst, Hsnd. cbv beta iota.
  destruct (RequestBodyParameter._required p && negb (truthy (VDict result)));
    [discriminate|].
  intros Hok.
  apply bind_ok_inv in Hok as (u & _ & Hok).
  apply bind_ok_inv in Hok as (payload & Hpayload & Hok).
  inversion Hok; subst.
  exists result, payload. split; [exact Hpayload|].
  split; [apply dict_get_set_same|].
  split; [exact Hfst|].
  intros k Hk. rewrite dict_get_set_other by exact Hk. apply Hsnd.
Qed.

Lemma init_object_ok_inv (name content_type : string) (sd : dict)
  (al : RequestBodyParameter.al_schema) (required : bool)
  (p : RequestBodyParameter.t) :
  RequestBodyParameter.init_object name content_type sd al required = Ok p ->
  RequestBodyParameter._name p = name
  /\ RequestBodyParameter._content_type p = content_type
  /\ RequestBodyParameter._required p = required
  /\ exists explode properties required_properties,
      RequestBodyParameter._variant p
      = RequestBodyParameter.RequestBodyObjectParameter
          explode properties required_properties.
Proof.
  unfold RequestBodyParameter.init_object. intros Hok.
  apply bind_ok_inv in Hok as (u & _ & Hok).
  apply bind_ok_inv in Hok as (explode & _ & Hok).
  apply bind_ok_inv in Hok as (properties & _ & Hok).
  apply bind_ok_inv in Hok as (required_properties & _ & Hok).
  apply bind_ok_inv in Hok as (marked & _ & Hok).
  inversion Hok; subst; simpl. repeat split; eauto.
Qed.

Lemma init_simple_ok_inv (name content_type : string) (sd : dict)
  (required : bool) (p : RequestBodyParameter.t) :
  RequestBodyParameter.init_simple name content_type sd required = Ok p ->
  RequestBodyParameter._name p = name
  /\ RequestBodyParameter._content_type p = content_type
  /\ RequestBodyParameter._required p = required
  /\ RequestBodyParameter._variant p
     = RequestBodyParameter.RequestBodySimpleParameter (dict_get FORMAT sd).
Proof.
  unfold RequestBodyParameter.init_simple. intros Hok.
  apply bind_ok_inv in Hok as (u & _ & Hok).
  inversion Hok; subst; simpl. repeat split.
Qed.

Lemma init_schema_ok_inv (name content_type : string) (sd : dict)
  (required : bool) (p : RequestBodyParameter.t) :
  RequestBodyParameter.init_schema name content_type sd required = Ok p ->
  RequestBodyParameter._name p = name
  /\ RequestBodyParameter._content_type p = content_type
  /\ RequestBodyParameter._required p = required
  /\ RequestBodyParameter._variant p
     = RequestBodyParameter.RequestBodySchemaParameter.
Proof.
  unfold RequestBodyParameter.init_schema. intros Hok.
  apply bind_ok_inv in Hok as (u & _ & Hok).
  inversion Hok; subst; simpl. repeat split.
Qed.

(** What an [add_content] that returns has done. *)
Lemma add_content_ok_inv (b b' : RequestBody.t) (content_type : string)
  (schema : value) (al : RequestBodyParameter.al_schema) :
  RequestBody.add_content b content_type schema al = Ok b' ->
  (truthy schema = false /\ b' = b)
  \/ (truthy schema = true
      /\ exists sd p,
          schema = VDict sd
          /\ RequestBody._content b'
             = dict_set content_type p (RequestBody._content b)
          /\ RequestBody._required b' = RequestBody._required b
          /\ RequestBodyParameter._content_type p = content_type
          /\ RequestBodyParameter._required p = RequestBody._required b
          /\ RequestBodyParameter._name p
             = PathParameter.or_default (RequestBodyParameter.al_name al) DATA
          /\ match RequestBodyParameter._variant p with
             | RequestBodyParameter.RequestBodyObjectParameter _ _ _ =>
                 RequestBody.type_is (dict_get TYPE sd) OBJECT = true
             | RequestBodyParameter.RequestBodySimpleParameter format =>
                 RequestBody.type_is (dict_get TYPE sd) OBJECT = false
                 /\ existsb (RequestBody.type_is (dict_get TYPE sd))
                      SIMPLE_DATA_TYPES = true
                 /\ format = dict_get FORMAT sd
             | RequestBodyParameter.RequestBodySchemaParameter =>
                 RequestBody.type_is (dict_get TYPE sd) OBJECT = false
                 /\ existsb (RequestBody.type_is (dict_get TYPE sd))
                      SIMPLE_DATA_TYPES = false
             end).
Proof.
  unfold RequestBody.add_content.
  destruct (truthy schema) eqn:Htruthy; cbn [negb]; cbv iota.
  2:{ intros Hok. inversion Hok. now left. }
  destruct schema as [ | | | | | |sd]; try discriminate.
  intros Hok. right. split; [reflexivity|].
  apply bind_ok_inv in Hok as (p & Hinit & Hok).
  exists sd, p.
  assert (Hb' : RequestBody._content b'
                = dict_set content_type p (RequestBody._content b)
                /\ RequestBody._required b' = RequestBody._required b).
  { inversion Hok. split; reflexivity. }
  clear Hok. destruct Hb' as [Hcontent Hrequired].
  split; [reflexivity|]. split; [exact Hcontent|].
  split; [exact Hrequired|].
  destruct (RequestBody.type_is (dict_get TYPE sd) OBJECT) eqn:Hobject.
  - apply init_object_ok_inv in Hinit
      as (Hname & Hct & Hreq & explode & properties & required & Hvar).
    rewrite Hvar. auto.
  - destruct (existsb (RequestBody.type_is (dict_get TYPE sd))
                SIMPLE_DATA_TYPES) eqn:Hsimple.
    + apply init_simple_ok_inv in Hinit as (Hname & Hct & Hreq & Hvar).
      rewrite Hvar. repeat split; assumption.
    + apply init_schema_ok_inv in Hinit as (Hname & Hct & Hreq & Hvar).
      rewrite Hvar. repeat split; assumption.
Qed.

(** [add_content] ignores a schema with a false truth value (missing, or
    empty).  For any other schema that it accepts, the content type is
    declared from then on: the lookup on the content map finds a parameter
    for it that carries the content type and the body's required flag and
    whose variant follows the schema's [type], the object variant for
    "object", the scalar variant for a scalar type and the schema variant
    otherwise.  The parameters of the other content types stay as they
    were. *)
Theorem add_content_declares (b b' : RequestBody.t) (content_type : string)
  (schema : value) (al : RequestBodyParameter.al_schema) :
  RequestBody.add_content b content_type schema al = Ok b' ->
  (truthy schema = false -> b' = b)
  /\ (truthy schema = true ->
      exists sd p,
        schema = VDict sd
        /\ RequestBody.getitem_content b' (VStr content_type) = Ok p
        /\ RequestBodyParameter._content_type p = content_type
        /\ RequestBodyParameter._required p = RequestBody._required b
        /\ match RequestBodyParameter._variant p with
           | RequestBodyParameter.RequestBodyObjectParameter _ _ _ =>
               RequestBody.type_is (dict_get TYPE sd) OBJECT = true
           | RequestBodyParameter.RequestBodySimpleParameter format =>
               RequestBody.type_is (dict_get TYPE sd) OBJECT = false
               /\ existsb (RequestBody.type_is (dict_get TYPE sd))
                    SIMPLE_DATA_TYPES = true
               /\ format = dict_get FORMAT sd
           | RequestBodyParameter.RequestBodySchemaParameter =>
               RequestBody.type_is (dict_get TYPE sd) OBJECT = false
               /\ existsb (RequestBody.type_is (dict_get TYPE sd))
                    SIMPLE_DATA_TYPES = false
           end)
  /\ (forall other,
      other <> content_type ->
      dict_get other (RequestBody._content b')
      = dict_get other (RequestBody._content b)).
Proof.
  intros Hok.
  destruct (add_content_ok_inv b b' content_type schema al Hok)
    as [[Hfalsy ->] | (Htruthy & sd & p & Hschema & Hcontent & Hreq & Hct
                       & Hpreq & Hname & Hvariant)].
  - split; [reflexivity|]. split; [congruence|]. reflexivity.
  - split; [congruence|]. split.
    + intros _. exists sd, p. split; [exact Hschema|].
      split; [|auto].
      apply getitem_content_declared. rewrite Hcontent.
      apply dict_get_set_same.
    + intros other Hother. rewrite Hcontent.
      now apply dict_get_set_other.
Qed.

(** The step of the loop of [_initalize_request_body]. *)
Lemma request_body_loop_inv
  (content : list (string * Client.media_type_spec)) :
  forall b b' : RequestBody.t,
    foldM
      (fun body entry =>
         match Client.mt_schema (snd entry) with
         | None => Raise (KeyError (VStr SCHEMA))
         | Some schema =>
             RequestBody.add_content body (fst entry) schema
               (PathParameter.or_default (Client.mt_al_schema (snd entry))
                  Client.no_al_schema)
         end)
      content b = Ok b' ->
    RequestBody._required b' = RequestBody._required b
    /\ (forall ct,
        dict_mem ct (RequestBody._content b') = true
        <-> dict_mem ct (RequestBody._content b) = true
            \/ exists m s,
                In (ct, m) content /\ Client.mt_schema m = Some s
                /\ truthy s = true)
    /\ ((forall ct p,
            dict_get ct (RequestBody._content b) = Some p ->
            RequestBodyParameter._content_type p = ct
            /\ RequestBodyParameter._required p = RequestBody._required b) ->
        forall ct p,
          dict_get ct (RequestBody._content b') = Some p ->
          RequestBodyParameter._content_type p = ct
          /\ RequestBodyParameter._required p = RequestBody._required b').
Proof.
  induction content as [|[ct0 m0] content IH]; intros b b' Hrun;
    simpl in Hrun.
  - inversion Hrun; subst. split; [reflexivity|]. split; [|auto].
    intros ct. split; [auto|]. intros [Hm | (m & s & [] & _)]. exact Hm.
  - apply bind_ok_inv in Hrun as (b1 & Hstep & Hrest).
    destruct (Client.mt_schema m0) as [schema|] eqn:Hschema; [|discriminate].
    destruct (IH b1 b' Hrest) as (Hreq & Hmem & Hinv). clear IH.
    destruct (add_content_ok_inv b b1 ct0 schema _ Hstep)
      as [[Hfalsy ->] | (Htruthy & sd & p & Hsd & Hcontent & Hreq1 & Hct
                         & Hpreq & _)].
    + split; [exact Hreq|]. split; [|exact Hinv].
      intros ct. rewrite Hmem. split.
      * intros [Hm | (m & s & Hin & Hs & Ht)]; [now left|].
        right. exists m, s. split; [now right|auto].
      * intros [Hm | (m & s & [Heq|Hin] & Hs & Ht)]; [now left| |].
        -- inversion Heq; subst. congruence.
        -- right. exists m, s. auto.
    + split; [congruence|]. split.
      * intros ct. rewrite Hmem, Hcontent. split.
        -- intros [Hm | (m & s & Hin & Hs & Ht)].
           ++ destruct (String.eqb_spec ct ct0) as [->|Hne].
              ** right. exists m0, schema. split; [now left|auto].
              ** left. unfold dict_mem in *.
                 now rewrite dict_get_set_other in Hm.
           ++ right. exists m, s. split; [now right|auto].
        -- intros [Hm | (m & s & [Heq|Hin] & Hs & Ht)].
           ++ left. now apply dict_mem_set_mono.
           ++ inversion Heq; subst. left. apply dict_mem_set_same.
           ++ right. exists m, s. auto.
      * intros Hb. apply Hinv. intros ct p0. rewrite Hcontent.
        destruct (String.eqb_spec ct ct0) as [->|Hne].
        -- rewrite dict_get_set_same. intros Heq. inversion Heq as [Hp].
           rewrite <- Hp. split; [exact Hct|congruence].
        -- rewrite dict_get_set_other by exact Hne. intros Hp0.
           destruct (Hb ct p0 Hp0). split; congruence.
Qed.

(** The body loaded from a [requestBody] object.  Its required flag is the
    declared one, false when none is declared.  The content types it
    declares are exactly those of the document whose schema has a true
    truth value.  Every parameter of its content map is stored under its
    own content type and carries the body's required flag.  A missing or
    empty [requestBody] gives no body. *)
Theorem loaded_body_content (spec : Client.request_body_spec)
  (body : RequestBody.t) :
  Client._initalize_request_body (Some spec) = Ok (Some body) ->
  RequestBody._required body
  = PathParameter.or_default (Client.rb_required spec) false
  /\ (forall ct,
      dict_mem ct (RequestBody._content body) = true
      <-> exists m s,
            In (ct, m) (PathParameter.or_default (Client.rb_content spec) [])
            /\ Client.mt_schema m = Some s /\ truthy s = true)
  /\ (forall ct p,
      dict_get ct (RequestBody._content body) = Some p ->
      RequestBodyParameter._content_type p = ct
      /\ RequestBodyParameter._required p = RequestBody._required body)
  /\ Client._initalize_request_body None = Ok None.
Proof.
  unfold Client._initalize_request_body. intros Hok.
  apply bind_ok_inv in Hok as (b & Hrun & Hok). inversion Hok; subst.
  destruct (request_body_loop_inv _ _ _ Hrun) as (Hreq & Hmem & Hinv).
  split; [exact Hreq|]. split; [|split; [|reflexivity]].
  - intros ct. rewrite Hmem. simpl. split.
    + intros [Hm | Hex]; [discriminate | exact Hex].
    + intros Hex. now right.
  - apply Hinv. simpl. discriminate.
Qed.

(** A media-type object without a [schema] key aborts the loading of the
    body with [KeyError('schema')] once the content types before it have
    been added. *)
Theorem media_type_without_schema_aborts (spec : Client.request_body_spec)
  (before after : list (string * Client.media_type_spec))
  (content_type : string) (m : Client.media_type_spec) (b : RequestBody.t) :
  Client.rb_content spec = Some (before ++ (content_type, m) :: after) ->
  Client.mt_schema m = None ->
  Client._initalize_request_body
    (Some {| Client.rb_required := Client.rb_required spec;
             Client.rb_description := Client.rb_description spec;
             Client.rb_content := Some before |})
  = Ok (Some b) ->
  Client._initalize_request_body (Some spec)
  = Raise (KeyError (VStr SCHEMA)).
Proof.
  unfold Client._initalize_request_body. simpl.
  intros Hcontent Hschema Hbefore. rewrite Hcontent. simpl.
  apply bind_ok_inv in Hbefore as (b0 & Hrun & _).
  rewrite (foldM_raise_at _ before after (content_type, m) _ b0
             (KeyError (VStr SCHEMA)) Hrun); [reflexivity|].
  simpl. now rewrite Hschema.
Qed.

Lemma dict_keys_set_present {V : Type} (k : string) (v : V)
  (d : list (string * V)) :
  dict_mem k d = true -> dict_keys (dict_set k v d) = dict_keys d.
Proof.
  unfold dict_mem, dict_keys. induction d as [|[k' v'] d IH]; simpl;
    [discriminate|].
  destruct (String.eqb_spec k k') as [->|Hne]; simpl; [reflexivity|].
  intros Hm. now rewrite IH.
Qed.

Lemma mark_required_marks (names : list string) :
  forall properties properties' : dict,
    RequestBodyParameter.mark_required names properties = Ok properties' ->
    dict_keys properties' = dict_keys properties
    /\ (forall name, marked_required properties name ->
                     marked_required properties' name)
    /\ (forall name, In name names -> marked_required properties' name).
Proof.
  induction names as [|name names IH]; intros properties properties' Hrun;
    simpl in Hrun.
  - inversion Hrun; subst. split; [reflexivity|]. split; [auto|].
    intros name [].
  - destruct (dict_get name properties) as [v|] eqn:Hget; [|discriminate].
    destruct v as [| | | | | |sub]; try discriminate.
    destruct (IH _ _ Hrun) as (Hkeys & Hkeep & Hnew).
    assert (Hhere : marked_required
                      (dict_set name
                         (VDict (dict_set "x-alertlogic-required"
                                   (VBool true) sub))
                         properties)
                      name).
    { eexists. split; [apply dict_get_set_same|]. apply dict_get_set_same. }
    split; [|split].
    + rewrite Hkeys. apply dict_keys_set_present.
      unfold dict_mem. now rewrite Hget.
    + intros other (sub' & Hother & Hflag). apply Hkeep.
      destruct (String.eqb_spec other name) as [->|Hne]; [exact Hhere|].
      exists sub'. split; [|exact Hflag].
      now rewrite dict_get_set_other.
    + intros other [<-|Hin]; [apply Hkeep, Hhere | now apply Hnew].
Qed.

(** What an object parameter that has been built holds.  It has at least
    one property; every required property of its schema is one of its
    properties and carries the mark [x-alertlogic-required]; the properties
    it collects from are those the validator's schema holds, marks
    included.  A schema without properties is wrapped: the parameter's own
    name is the only property, and it is required exactly when the body
    is. *)
Theorem object_parameter_invariant (name content_type : string)
  (schema : dict) (al : RequestBodyParameter.al_schema) (required : bool)
  (p : RequestBodyParameter.t) :
  RequestBodyParameter.init_object name content_type schema al required
  = Ok p ->
  exists explode properties required_properties schema',
    RequestBodyParameter._variant p
    = RequestBodyParameter.RequestBodyObjectParameter
        explode properties required_properties
    /\ properties <> []
    /\ (forall r, In r required_properties -> marked_required properties r)
    /\ RequestBodyParameter._schema p = VDict schema'
    /\ dict_get PROPERTIES schema' = Some (VDict properties)
    /\ (truthy (dict_get_default PROPERTIES VNone schema) = false ->
        dict_keys properties = [name]
        /\ required_properties = if required then [name] else []).
Proof.
  unfold RequestBodyParameter.init_object. intros Hok.
  apply bind_ok_inv in Hok as (u & _ & Hok).
  apply bind_ok_inv in Hok as (explode & _ & Hok).
  apply bind_ok_inv in Hok as (properties & Hproperties & Hok).
  apply bind_ok_inv in Hok as (required_properties & Hrequired & Hok).
  apply bind_ok_inv in Hok as (marked & Hmarked & Hok).
  inversion Hok; subst; cbn [RequestBodyParameter._variant
                              RequestBodyParameter._schema]. clear Hok.
  exists explode, marked, required_properties,
    (dict_set PROPERTIES (VDict marked)
       (RequestBodyParameter._normalize_schema name schema required)).
  assert (Hnonempty : properties <> []).
  { unfold RequestBodyParameter.schema_properties,
      RequestBodyParameter._normalize_schema in Hproperties.
    unfold dict_get_default in *.
    destruct (dict_get PROPERTIES schema) as [v|] eqn:Hget.
    - destruct (truthy v) eqn:Htruthy.
      + rewrite Hget in Hproperties.
        destruct v; try discriminate. inversion Hproperties; subst.
        destruct properties; [discriminate|]. discriminate.
      + simpl in Hproperties. inversion Hproperties. discriminate.
    - simpl in Hproperties. inversion Hproperties. discriminate. }
  assert (Htruthy : truthy (VDict properties) = true).
  { destruct properties; [contradiction|reflexivity]. }
  rewrite Htruthy in Hmarked.
  destruct (mark_required_marks _ _ _ Hmarked) as (Hkeys & _ & Hnew).
  split; [reflexivity|]. split; [|split; [exact Hnew|]].
  - intros Hempty. rewrite Hempty in Hkeys.
    destruct properties; [contradiction|discriminate].
  - split; [reflexivity|]. split; [apply dict_get_set_same|].
    intros Hnone. rewrite Hkeys.
    unfold RequestBodyParameter.schema_properties,
      RequestBodyParameter.schema_required,
      RequestBodyParameter._normalize_schema in Hproperties, Hrequired.
    unfold dict_get_default in Hnone.
    destruct (dict_get PROPERTIES schema) as [v|] eqn:Hget.
    + rewrite Hnone in Hproperties, Hrequired.
      simpl in Hproperties. inversion Hproperties; subst.
      split; [reflexivity|].
      destruct required; simpl in Hrequired; now inversion Hrequired.
    + simpl in Hproperties. inversion Hproperties; subst.
      split; [reflexivity|].
      destruct required; simpl in Hrequired; now inversion Hrequired.
Qed.

(** The exploded object body.  When its serialization returns, the
    payload is the JSON text of the one argument passed under the body's
    own name, which is a property of the schema; the other arguments named
    by a property are consumed as well, but are not part of the payload, and
    every other argument is left as it was. *)
Theorem exploded_object_body (p : RequestBodyParameter.t)
  (kwargs kwargs' : dict) (properties : dict)
  (required_properties : list string) :
  RequestBodyParameter._variant p
  = RequestBodyParameter.RequestBodyObjectParameter
      true properties required_properties ->
  NoDup (dict_keys kwargs) ->
  RequestBodyParameter.serialize p kwargs = Ok kwargs' ->
  exists sub payload,
    dict_get (RequestBodyParameter._name p) kwargs = Some sub
    /\ str_in (RequestBodyParameter._name p) (dict_keys properties) = true
    /\ json_dumps sub = Ok payload
    /\ dict_get "data" kwargs' = Some (VStr payload)
    /\ (forall k, k <> "data" ->
        dict_get k kwargs'
        = if str_in k (dict_keys properties) then None
          else dict_get k kwargs).
Proof.
  intros Hvariant Hnodup.
  unfold RequestBodyParameter.serialize. rewrite Hvariant.
  destruct (negb (forallb _ required_properties)); [discriminate|].
  pose proof (collect_fst_get (dict_keys properties) kwargs
                (RequestBodyParameter._name p)) as Hfst.
  pose proof (fun k => collect_snd_get (dict_keys properties) kwargs k Hnodup)
    as Hsnd.
  destruct (RequestBodyParameter.collect (dict_keys properties) kwargs)
    as [result rest]. cbn [fst snd] in Hfst, Hsnd. cbv beta iota.
  destruct (RequestBodyParameter._required p && negb (truthy (VDict result)));
    [discriminate|].
  intros Hok.
  apply bind_ok_inv in Hok as (u & _ & Hok).
  destruct (dict_get (RequestBodyParameter._name p) result) as [sub|] eqn:Hsub;
    [|discriminate].
  apply bind_ok_inv in Hok as (payload & Hpayload & Hok).
  inversion Hok; subst.
  destruct (str_in (RequestBodyParameter._name p) (dict_keys properties));
    [|discriminate].
  exists sub, payload. split; [now symmetry|]. split; [reflexivity|].
  split; [exact Hpayload|]. split; [apply dict_get_set_same|].
  intros k Hk. rewrite dict_get_set_other by exact Hk. apply Hsnd.
Qed.

End MoreBody.

(** ** More on the negotiation *)

Section MoreNegotiation.
Context `{Runtime}.

(** A body parameter adds no keyword argument but ["data"], and always sets
    that one. *)
Lemma collect_snd_keys (keys : list string) :
  forall (kwargs : dict) (k : string),
    In k (dict_keys (snd (RequestBodyParameter.collect keys kwargs))) ->
    In k (dict_keys kwargs).
Proof.
  induction keys as [|key keys IH]; intros kwargs k; simpl; [auto|].
  destruct (dict_get key kwargs) as [v|].
  - specialize (IH (dict_del key kwargs) k).
    destruct (RequestBodyParameter.collect keys (dict_del key kwargs))
      as [result rest]. simpl in *.
    intros Hin. apply IH in Hin. now apply dict_keys_del_subset in Hin.
  - apply IH.
Qed.

Lemma dict_keys_set_subset {V : Type} (k k' : string) (v : V)
  (d : list (string * V)) :
  In k (dict_keys (dict_set k' v d)) -> k = k' \/ In k (dict_keys d).
Proof.
  induction d as [|[k'' v''] d IH]; simpl.
  - intros [Heq|[]]. now left.
  - destruct (k' =? k''); simpl; intuition.
Qed.

Lemma body_parameter_keys (p : RequestBodyParameter.t)
  (kwargs kwargs' : dict) :
  RequestBodyParameter.serialize p kwargs = Ok kwargs' ->
  dict_mem "data" kwargs' = true
  /\ (forall k, In k (dict_keys kwargs') ->
      k = "data" \/ In k (dict_keys kwargs)).
Proof.
  unfold RequestBodyParameter.serialize.
  assert (Hset : forall (payload : value) (d : dict),
             (forall k, In k (dict_keys d) -> In k (dict_keys kwargs)) ->
             dict_mem "data" (dict_set "data" payload d) = true
             /\ (forall k, In k (dict_keys (dict_set "data" payload d)) ->
                 k = "data" \/ In k (dict_keys kwargs))).
  { intros payload d Hd. split; [apply dict_mem_set_same|].
    intros k Hin. apply dict_keys_set_subset in Hin as [Heq|Hin]; auto. }
  destruct (RequestBodyParameter._variant p)
    as [|format|explode properties required_properties].
  - destruct (str_in _ _).
    + intros Hok. apply bind_ok_inv in Hok as (u & _ & Hok).
      apply bind_ok_inv in Hok as (payload & _ & Hok).
      inversion Hok. apply Hset. intros k. apply dict_keys_del_subset.
    + intros Hok. inversion Hok. apply Hset. intros k.
      apply dict_keys_del_subset.
  - destruct (RequestBodyParameter.is_binary format && negb _).
    + destruct (dict_get_default _ _ _); try discriminate.
      intros Hok. inversion Hok. apply Hset. intros k.
      apply dict_keys_del_subset.
    + intros Hok. inversion Hok. apply Hset. intros k.
      apply dict_keys_del_subset.
  - destruct (negb (forallb _ required_properties)); [discriminate|].
    pose proof (collect_snd_keys (dict_keys properties) kwargs) as Hrest.
    destruct (RequestBodyParameter.collect (dict_keys properties) kwargs)
      as [result rest]. cbn [snd] in Hrest. cbv beta iota.
    destruct (RequestBodyParameter._required p && negb (truthy (VDict result)));
      [discriminate|].
    intros Hok. apply bind_ok_inv in Hok as (u & _ & Hok).
    destruct explode.
    + destruct (dict_get (RequestBodyParameter._name p) result);
        [|discriminate].
      apply bind_ok_inv in Hok as (payload & _ & Hok).
      inversion Hok. apply Hset. exact Hrest.
    + apply bind_ok_inv in Hok as (payload & _ & Hok).
      inversion Hok. apply Hset. exact Hrest.
Qed.

Lemma getitem_content_ok_declared (b : RequestBody.t) (v : value)
  (p : RequestBodyParameter.t) :
  RequestBody.getitem_content b v = Ok p -> declared b v = true.
Proof.
  unfold RequestBody.getitem_content, declared, dict_mem.
  destruct v; try (destruct (hashable _); discriminate).
  destruct (dict_get s (RequestBody._content b)); [reflexivity|discriminate].
Qed.

(** When the serialization of a body returns: the headers carry a
    Content-Type that the body declares and are otherwise as they were, the
    payload is among the keyword arguments under ["data"], and
    [content_type] is no longer among them, so that it is never handed on
    to the transport. *)
Theorem body_serialize_postcondition (b : RequestBody.t)
  (headers kwargs headers' kwargs' : dict) :
  NoDup (dict_keys kwargs) ->
  RequestBody.serialize b headers kwargs = Ok (headers', kwargs') ->
  (exists content_type,
      dict_get CONTENT_TYPE_PARAM headers' = Some content_type
      /\ declared b content_type = true)
  /\ (forall k, k <> CONTENT_TYPE_PARAM ->
      dict_get k headers' = dict_get k headers)
  /\ dict_mem "data" kwargs' = true
  /\ dict_mem "content_type" kwargs' = false.
Proof.
  intros Hnodup. unfold RequestBody.serialize.
  destruct (dict_get "content_type" kwargs) as [content_type|] eqn:Harg.
  - intros Hok.
    apply bind_ok_inv in Hok as (p & Hp & Hok).
    apply bind_ok_inv in Hok as (kw & Hkw & Hok).
    inversion Hok; subst. clear Hok.
    destruct (body_parameter_keys p _ _ Hkw) as [Hdata Hkeys].
    split; [|split; [|split]].
    + exists content_type. split; [apply dict_get_set_same|].
      now apply getitem_content_ok_declared in Hp.
    + intros k Hk. now apply dict_get_set_other.
    + exact Hdata.
    + destruct (dict_mem "content_type" kwargs') eqn:Hmem; [|reflexivity].
      apply dict_mem_in_keys, Hkeys in Hmem as [Heq|Hin]; [discriminate|].
      apply dict_mem_in_keys in Hin.
      apply dict_mem_get_some in Hin as [v Hv].
      rewrite dict_get_del_same in Hv by exact Hnodup. discriminate.
  - assert (Habsent : forall p kw,
               RequestBodyParameter.serialize p kwargs = Ok kw ->
               dict_mem "data" kw = true
               /\ dict_mem "content_type" kw = false).
    { intros p kw Hkw.
      destruct (body_parameter_keys p _ _ Hkw) as [Hdata Hkeys].
      split; [exact Hdata|].
      destruct (dict_mem "content_type" kw) eqn:Hmem; [|reflexivity].
      apply dict_mem_in_keys, Hkeys in Hmem as [Heq|Hin]; [discriminate|].
      apply dict_mem_in_keys, dict_mem_get_some in Hin as [v Hv].
      congruence. }
    destruct (dict_get CONTENT_TYPE_PARAM headers) as [content_type|]
      eqn:Hheader.
    + intros Hok.
      apply bind_ok_inv in Hok as (p & Hp & Hok).
      apply bind_ok_inv in Hok as (kw & Hkw & Hok).
      inversion Hok; subst. clear Hok.
      destruct (Habsent p _ Hkw) as [Hdata Hgone].
      split; [|split; [|split]]; auto.
      exists content_type. split; [exact Hheader|].
      now apply getitem_content_ok_declared in Hp.
    + destruct (truthy (RequestBody.default_content_type b));
        [|discriminate].
      intros Hok.
      apply bind_ok_inv in Hok as (p & Hp & Hok).
      apply bind_ok_inv in Hok as (kw & Hkw & Hok).
      inversion Hok; subst. clear Hok.
      destruct (Habsent p _ Hkw) as [Hdata Hgone].
      split; [|split; [|split]]; auto.
      * exists (RequestBody.default_content_type b).
        split; [apply dict_get_set_same|].
        now apply getitem_content_ok_declared in Hp.
      * intros k Hk. now apply dict_get_set_other.
Qed.

End MoreNegotiation.

(** ** More on operations *)

Section MoreOperations.
Context `{Runtime} `{Session}.

(** What leaves [__call__].  A result and any exception that is not an
    [AlmdrlibValueError] are those of the closure, unchanged.  An
    [AlmdrlibValueError] never leaves it bare: its text is the operation's
    representation (client name, operation id, upper-cased method, path),
    then " failed ", then the text of the [AlmdrlibValueError] the closure
    raised. *)
Theorem call_outcomes (op : Operation.t) (kw : dict) :
  (forall st,
      Operation.__call__ op kw = Ok st <-> Operation._gen_call op kw = Ok st)
  /\ (forall e,
      is_AlmdrlibValueError e = false ->
      (Operation.__call__ op kw = Raise e
       <-> Operation._gen_call op kw = Raise e))
  /\ (forall m,
      Operation.__call__ op kw = Raise (AlmdrlibValueError m) ->
      exists inner,
        Operation._gen_call op kw = Raise (AlmdrlibValueError inner)
        /\ m = [Text "<"; Text (Operation._client_name op); Text ".";
                Text (Operation._operation_id op); Text ": ";
                Upper (Operation._method op); Text " ";
                Text (Operation._path op); Text ">"; Text " failed "]
               ++ inner).
Proof.
  unfold Operation.__call__.
  destruct (Operation._gen_call op kw) as [st0|e0].
  - split; [|split].
    + intros st. reflexivity.
    + intros e _. reflexivity.
    + intros m Hm. discriminate.
  - split; [|split].
    + intros st. destruct e0; split; discriminate.
    + intros e He. destruct e0; try reflexivity.
      split; intros Heq; inversion Heq; subst; discriminate.
    + intros m Hm. destruct e0; try discriminate.
      inversion Hm. eexists. split; reflexivity.
Qed.

Lemma serialize_headers_source (p : PathParameter.t) (st st' : CallState)
  (r : value) (k : string) :
  PathParameter.serialize p st = Ok (r, st') ->
  dict_mem k (headers st') = true ->
  dict_mem k (headers st) = true
  \/ (PathParameter._in p = HEADER /\ PathParameter._schema_name p = k).
Proof.
  unfold PathParameter.serialize.
  destruct (negb (dict_mem _ _) && negb (truthy _)).
  - destruct (PathParameter._required p); [discriminate|].
    intros Hok. inversion Hok; subst. auto.
  - destruct (PathParameter._in p =? PATH).
    { intros Hok. inversion Hok; subst. simpl. auto. }
    destruct (PathParameter._in p =? QUERY).
    { intros Hok.
      apply bind_ok_inv in Hok as (new_query_params & _ & Hok).
      apply bind_ok_inv in Hok as (query_params & _ & Hok).
      inversion Hok; subst. simpl. auto. }
    destruct (String.eqb_spec (PathParameter._in p) HEADER) as [Hheader|_].
    { intros Hok. inversion Hok; subst. simpl. intros Hmem.
      destruct (String.eqb_spec k (PathParameter._schema_name p))
        as [->|Hne]; [now right|].
      left. unfold dict_mem in *. now rewrite dict_get_set_other in Hmem. }
    destruct (PathParameter._in p =? COOKIE);
      intros Hok; inversion Hok; subst; simpl; auto.
Qed.

(** The headers against which the body negotiates its content type hold
    only what the header parameters of the operation have written: unless
    the operation declares a header parameter under the Content-Type name,
    the headers carry no Content-Type when the parameters have been
    serialized, and the second tier of the negotiation is never taken. *)
Theorem content_type_header_needs_header_parameter (op : Operation.t)
  (kw : dict) (st : CallState) :
  (forall p, In p (Operation._params op) ->
             PathParameter._in p = HEADER ->
             PathParameter._schema_name p <> CONTENT_TYPE_PARAM) ->
  Operation.serialize_params (Operation._params op) (initial_state kw)
  = Ok st ->
  dict_get CONTENT_TYPE_PARAM (headers st) = None.
Proof.
  intros Hnone Hrun. apply dict_mem_get_none.
  unfold Operation.serialize_params in Hrun.
  refine (foldM_invariant
            (fun s => dict_mem CONTENT_TYPE_PARAM (headers s) = false)
            _ _ _ _ _ _ Hrun); [|reflexivity].
  intros s p s' Hin Hs Hstep.
  apply bind_ok_inv in Hstep as ([r s1] & Hser & Hret).
  simpl in Hret. injection Hret as <-.
  destruct (dict_mem CONTENT_TYPE_PARAM (headers s1)) eqn:Hmem;
    [|reflexivity].
  destruct (serialize_headers_source p s s1 r _ Hser Hmem)
    as [Hold | [Hheader Hname]]; [congruence|].
  now contradiction (Hnone p Hin Hheader).
Qed.

(** A header parameter declared under the Content-Type name chooses the
    content type of the body: when the caller passes it, and no
    [content_type] argument, the body is serialized by the parameter
    declared for the value passed, and the header holds that value. *)
Theorem content_type_header_parameter_selects (op : Operation.t)
  (p : PathParameter.t) (b : RequestBody.t) (kw : dict) (v : value) :
  Operation._params op = [p] ->
  Operation._body op = Some b ->
  PathParameter._in p = HEADER ->
  PathParameter._schema_name p = CONTENT_TYPE_PARAM ->
  PathParameter._datatype p = STRING ->
  PathParameter._name p <> "content_type" ->
  dict_get (PathParameter._name p) kw = Some v ->
  dict_get "content_type" kw = None ->
  Operation._gen_call op kw
  = (q <- RequestBody.getitem_content b v ;;
     kw' <- RequestBodyParameter.serialize q
              (dict_del (PathParameter._name p) kw) ;;
     Ok {| path_params := []; params := [];
           headers := [(CONTENT_TYPE_PARAM, v)]; cookies := [];
           kwargs := kw' |}).
Proof.
  intros Hparams Hbody Hin Hname Htype Hpyname Harg Hnoarg.
  unfold Operation._gen_call, Operation.serialize_params.
  rewrite Hparams, Hbody. simpl foldM.
  unfold PathParameter.serialize. simpl kwargs.
  unfold dict_mem, dict_get_default. rewrite Harg, Hin, Hname, Htype.
  unfold serialize_value. simpl.
  unfold RequestBody.serialize.
  rewrite dict_get_del_other by (intros Heq; now apply Hpyname).
  rewrite Hnoarg. simpl.
  destruct (RequestBody.getitem_content b v) as [q|e]; simpl; [|reflexivity].
  now destruct (RequestBodyParameter.serialize q _).
Qed.

(** Every name [__doc__] lists under "Required parameters:" is the name of
    a parameter of the signature that has no default. *)
Theorem documented_required_parameters_in_signature (op : Operation.t)
  (names : list string) (signature : list inspect_Parameter) :
  Operation.required_param_names op = Ok names ->
  Operation._make_signature op = Ok signature ->
  forall name,
    In name names ->
    exists parameter,
      In parameter signature
      /\ ip_name parameter = name
      /\ ip_default parameter = None.
Proof.
  unfold Operation.required_param_names, Operation._make_signature.
  intros Hnames Hsig name Hin.
  apply bind_ok_inv in Hnames as (sorted_params & Hsorted & Hnames).
  rewrite Hsorted in Hsig. simpl in Hsig.
  inversion Hnames; subst. inversion Hsig; subst. clear Hnames Hsig.
  apply in_map_iff in Hin as (p & Hname & Hp).
  apply filter_In in Hp as [Hp Htest].
  apply andb_true_iff in Htest as [Hrequired Hnone].
  exists (PathParameter.to_inspect_parameter p).
  split; [|split].
  - apply in_or_app. left. apply in_map. apply filter_In. auto.
  - exact Hname.
  - simpl. destruct (PathParameter.default p); try discriminate.
    reflexivity.
Qed.

(** [__lt__] between two parameters of known locations never raises.  It
    is irreflexive, and any two parameters with different names are
    related at least one way round. *)
Theorem lt_connex_and_irreflexive (a b : PathParameter.t) (ra rb : Z) :
  dict_get (PathParameter._in a) PathParameter.location_ranks = Some ra ->
  dict_get (PathParameter._in b) PathParameter.location_ranks = Some rb ->
  (exists answer, PathParameter.__lt__ a b = Ok answer)
  /\ PathParameter.__lt__ a a = Ok false
  /\ (PathParameter._name a <> PathParameter._name b ->
      PathParameter.__lt__ a b = Ok true
      \/ PathParameter.__lt__ b a = Ok true).
Proof.
  intros Ha Hb. unfold PathParameter.__lt__. rewrite Ha, Hb.
  split; [|split].
  - destruct (_ && _); [eauto|]. destruct (_ && _); [eauto|].
    destruct (ra <? rb)%Z; eauto.
  - rewrite andb_negb_r, andb_negb_r, Z.ltb_irrefl.
    unfold String.ltb.
    assert (Hrefl : String.compare (PathParameter._name a)
                      (PathParameter._name a) = Eq).
    { pose proof (String.compare_antisym (PathParameter._name a)
                    (PathParameter._name a)) as Hanti.
      destruct (String.compare _ _); simpl in Hanti;
        [reflexivity | discriminate | discriminate]. }
    now rewrite Hrefl.
  - intros Hnames.
    destruct (PathParameter.required a && negb (PathParameter.required b));
      [now left|].
    destruct (PathParameter.required b && negb (PathParameter.required a));
      [now right|].
    destruct (is_none (PathParameter.default a)
              && negb (is_none (PathParameter.default b))); [now left|].
    destruct (is_none (PathParameter.default b)
              && negb (is_none (PathParameter.default a))); [now right|].
    destruct (ra <? rb)%Z; [now left|].
    destruct (rb <? ra)%Z; [now right|].
    unfold String.ltb.
    pose proof (String.compare_antisym (PathParameter._name a)
                  (PathParameter._name b)) as Hanti.
    destruct (String.compare (PathParameter._name a) (PathParameter._name b))
      eqn:Hab.
    + apply String.compare_eq_iff in Hab. contradiction.
    + now left.
    + right.
      destruct (String.compare (PathParameter._name b)
                  (PathParameter._name a)); simpl in Hanti;
        [discriminate | reflexivity | discriminate].
Qed.

End MoreOperations.

(** ** More on loading *)

Section MoreLoading.
Context `{Runtime}.
Variable client_name : string.

Lemma register_keys_and_log (st st' : load_state)
  (e : string * string * Client.operation_spec) :
  register client_name st e = Ok st' ->
  dict_keys (fst st') = dict_keys (fst st) ++ operation_ids [e]
  /\ snd st' = snd st ++ missing_operation_ids [e]
  /\ (NoDup (dict_keys (fst st)) -> NoDup (dict_keys (fst st'))).
Proof.
  destruct e as [[path method] op_spec]. destruct st as [operations log].
  unfold register, Client.initialize_operation. simpl.
  destruct (Client.no_operation_id (Client.operationId op_spec)) eqn:Hno.
  - intros Hok. inversion Hok; subst; simpl.
    rewrite app_nil_r. auto.
  - destruct (dict_mem _ operations) eqn:Hmem; [discriminate|].
    intros Hok.
    apply bind_ok_inv in Hok as (body & _ & Hok).
    apply bind_ok_inv in Hok as (response & _ & Hok).
    inversion Hok; subst; simpl.
    rewrite (dict_keys_set_absent _ _ _ Hmem), app_nil_r.
    split; [reflexivity|]. split; [reflexivity|].
    intros Hnodup. apply NoDup_app; [exact Hnodup | | ].
    + constructor; [intros [] | constructor].
    + intros k Hk [Heq|[]]. subst k.
      apply dict_mem_in_keys in Hk. congruence.
Qed.

Lemma operation_ids_app (l1 l2 : list (string * string * Client.operation_spec)) :
  operation_ids (l1 ++ l2) = operation_ids l1 ++ operation_ids l2.
Proof.
  induction l1 as [|e l1 IH]; simpl; [reflexivity|].
  destruct (Client.no_operation_id _); simpl; now rewrite IH.
Qed.

Lemma missing_operation_ids_app
  (l1 l2 : list (string * string * Client.operation_spec)) :
  missing_operation_ids (l1 ++ l2)
  = missing_operation_ids l1 ++ missing_operation_ids l2.
Proof.
  induction l1 as [|e l1 IH]; simpl; [reflexivity|].
  destruct (Client.no_operation_id _); simpl; now rewrite IH.
Qed.

Lemma register_all_keys_and_log
  (l : list (string * string * Client.operation_spec)) :
  forall st st' : load_state,
    foldM (register client_name) l st = Ok st' ->
    dict_keys (fst st') = dict_keys (fst st) ++ operation_ids l
    /\ snd st' = snd st ++ missing_operation_ids l
    /\ (NoDup (dict_keys (fst st)) -> NoDup (dict_keys (fst st'))).
Proof.
  induction l as [|e l IH]; intros st st' Hrun; simpl in Hrun.
  - inversion Hrun; subst. simpl. rewrite !app_nil_r. auto.
  - apply bind_ok_inv in Hrun as (s1 & Hstep & Hrest).
    destruct (register_keys_and_log st s1 e Hstep) as (Hk1 & Hl1 & Hn1).
    destruct (IH s1 st' Hrest) as (Hk & Hl & Hn).
    change (e :: l) with ([e] ++ l).
    rewrite operation_ids_app, missing_operation_ids_app.
    split; [now rewrite Hk, Hk1, <- app_assoc|].
    split; [now rewrite Hl, Hl1, <- app_assoc|].
    intros Hnodup. apply Hn, Hn1, Hnodup.
Qed.

(** What a load that returns has registered: the operations are stored, in
    document order, under the [operationId]s of the sub-documents that have
    one; the warnings are those of the sub-documents that have none, in
    document order; no [operationId] occurs twice in the document. *)
Theorem loaded_operation_ids (paths : Client.paths_spec)
  (operations : list (string * Operation.t)) (log : list Client.warning) :
  Client._initialize_operations client_name paths = Ok (operations, log) ->
  dict_keys operations = operation_ids (entries paths)
  /\ log = missing_operation_ids (entries paths)
  /\ NoDup (operation_ids (entries paths))
  /\ List.length operations = List.length (operation_ids (entries paths)).
Proof.
  rewrite _initialize_operations_entries. intros Hrun.
  destruct (register_all_keys_and_log _ _ _ Hrun) as (Hkeys & Hlog & Hnodup).
  simpl in Hkeys, Hlog, Hnodup.
  split; [exact Hkeys|]. split; [exact Hlog|]. split.
  - rewrite <- Hkeys. apply Hnodup. constructor.
  - rewrite <- Hkeys. unfold dict_keys. now rewrite length_map.
Qed.

Lemma register_lookup (st st' : load_state)
  (e : string * string * Client.operation_spec) :
  register client_name st e = Ok st' ->
  (forall k op, dict_get k (fst st) = Some op ->
                dict_get k (fst st') = Some op)
  /\ (forall id,
      Client.operationId (snd e) = Some id -> id <> "" ->
      exists op,
        dict_get id (fst st') = Some op
        /\ Operation._operation_id op = id
        /\ Operation._path op = fst (fst e)
        /\ Operation._method op = snd (fst e)
        /\ Operation._client_name op = client_name
        /\ Operation._params op
           = map PathParameter.__init__
               (PathParameter.or_default (Client.parameters (snd e)) [])
        /\ Client._initalize_request_body (Client.requestBody (snd e))
           = Ok (Operation._body op)).
Proof.
  destruct e as [[path method] op_spec]. destruct st as [operations log].
  unfold register, Client.initialize_operation. simpl.
  destruct (Client.no_operation_id (Client.operationId op_spec)) eqn:Hno.
  - intros Hok. inversion Hok; subst; simpl. split; [auto|].
    intros id Hid Hne. rewrite Hid in Hno. simpl in Hno.
    apply String.eqb_eq in Hno. contradiction.
  - destruct (dict_mem _ operations) eqn:Hmem; [discriminate|].
    intros Hok.
    apply bind_ok_inv in Hok as (body & Hbody & Hok).
    apply bind_ok_inv in Hok as (response & _ & Hok).
    inversion Hok; subst; simpl. split.
    + intros k op Hk. rewrite dict_get_set_other; [exact Hk|].
      intros Heq. subst k. apply dict_mem_get_none in Hmem. congruence.
    + intros id Hid _. rewrite Hid. simpl.
      eexists. split; [apply dict_get_set_same|]. simpl.
      repeat split. exact Hbody.
Qed.

Lemma register_all_lookup
  (l : list (string * string * Client.operation_spec)) :
  forall st st' : load_state,
    foldM (register client_name) l st = Ok st' ->
    (forall k op, dict_get k (fst st) = Some op ->
                  dict_get k (fst st') = Some op)
    /\ (forall e id,
        In e l -> Client.operationId (snd e) = Some id -> id <> "" ->
        exists op,
          dict_get id (fst st') = Some op
          /\ Operation._operation_id op = id
          /\ Operation._path op = fst (fst e)
          /\ Operation._method op = snd (fst e)
          /\ Operation._client_name op = client_name
          /\ Operation._params op
             = map PathParameter.__init__
                 (PathParameter.or_default (Client.parameters (snd e)) [])
          /\ Client._initalize_request_body (Client.requestBody (snd e))
             = Ok (Operation._body op)).
Proof.
  induction l as [|a l IH]; intros st st' Hrun; simpl in Hrun.
  - inversion Hrun; subst. split; [auto|]. intros e id [].
  - apply bind_ok_inv in Hrun as (s1 & Hstep & Hrest).
    destruct (register_lookup st s1 a Hstep) as [Hkeep1 Hnew1].
    destruct (IH s1 st' Hrest) as [Hkeep Hnew].
    split; [auto|].
    intros e id [->|Hin] Hid Hne.
    + destruct (Hnew1 id Hid Hne) as (op & Hget & Hfields).
      exists op. split; [now apply Hkeep | exact Hfields].
    + now apply (Hnew e id).
Qed.

(** Every operation of a document that has loaded can be reached by its
    name: for a sub-document with an [operationId], [__getattr__] on the
    client returns an operation with that id, the path and the method of the
    sub-document, the client's name, the parameters built from the declared
    ones in their declared order and the body loaded from its [requestBody].
    A name that is no [operationId] of the document reaches nothing. *)
Theorem loaded_operations_reachable (paths : Client.paths_spec)
  (c : Client.t) (log : list Client.warning) :
  Client.load_spec client_name paths = Ok (c, log) ->
  (forall path method op_spec id,
      In (path, method, op_spec) (entries paths) ->
      Client.operationId op_spec = Some id -> id <> "" ->
      exists op,
        Client.__getattr__ c id = Some op
        /\ Operation._operation_id op = id
        /\ Operation._path op = path
        /\ Operation._method op = method
        /\ Operation._client_name op = client_name
        /\ Operation._params op
           = map PathParameter.__init__
               (PathParameter.or_default (Client.parameters op_spec) [])
        /\ Client._initalize_request_body (Client.requestBody op_spec)
           = Ok (Operation._body op))
  /\ (forall name,
      ~ In name (operation_ids (entries paths)) ->
      Client.__getattr__ c name = None).
Proof.
  unfold Client.load_spec. intros Hload.
  apply bind_ok_inv in Hload as ([operations log0] & Hrun & Hret).
  inversion Hret; subst. clear Hret. unfold Client.__getattr__. simpl.
  rewrite _initialize_operations_entries in Hrun.
  split.
  - intros path method op_spec id Hin Hid Hne.
    destruct (register_all_lookup _ _ _ Hrun) as [_ Hnew].
    exact (Hnew (path, method, op_spec) id Hin Hid Hne).
  - intros name Hname.
    destruct (register_all_keys_and_log _ _ _ Hrun) as (Hkeys & _).
    simpl in Hkeys. apply dict_mem_get_none.
    destruct (dict_mem name operations) eqn:Hmem; [|reflexivity].
    apply dict_mem_in_keys in Hmem. rewrite Hkeys in Hmem. contradiction.
Qed.

End MoreLoading.

(** ** [OperationResponse] *)

Lemma responses_loop_without_success
  (responses : list (string * OperationResponse.response_spec))
  (resp : OperationResponse.t) :
  forallb (fun code_schema => not_success_code (fst code_schema)) responses
  = true ->
  foldM
    (fun resp code_schema =>
       match fst code_schema with
       | EmptyString => Raise IndexError
       | String c _ =>
           if Ascii.eqb c "2"
           then OperationResponse._add_response resp
                  (OperationResponse.r_content (snd code_schema))
           else Ok resp
       end)
    responses resp
  = Ok resp.
Proof.
  induction responses as [|[code r] responses IH]; simpl; [reflexivity|].
  intros Hall. apply andb_true_iff in Hall as [Hcode Hrest].
  destruct code as [|c code]; simpl in Hcode; [discriminate|].
  apply negb_true_iff in Hcode. rewrite Hcode. simpl. now apply IH.
Qed.

(** The response schema of an operation.  A response whose code is not
    empty and does not start with "2" is ignored wherever it stands, and
    when all are such the schema is the empty mapping of the class.  An
    empty response code raises [IndexError] when the responses before it
    were read.  A last response with a "2xx" code whose first content type
    has a non-empty media-type object decides the schema, which is the
    [schema] of that object ([None] when it has none), whatever the
    responses before it and the content types after the first. *)
Theorem response_schema_selection
  (before after : list (string * OperationResponse.response_spec))
  (resp : OperationResponse.t) :
  OperationResponse.__init__ (Some before) = Ok resp ->
  (forall code r,
      not_success_code code = true ->
      OperationResponse.__init__ (Some (before ++ (code, r) :: after))
      = OperationResponse.__init__ (Some (before ++ after)))
  /\ (forall r,
      OperationResponse.__init__ (Some (before ++ ("", r) :: after))
      = Raise IndexError)
  /\ (forallb (fun code_schema => not_success_code (fst code_schema))
        before = true ->
      resp = {| OperationResponse._response_schema := VDict [] |})
  /\ (forall code content_type media more,
      media <> [] ->
      OperationResponse.__init__
        (Some (before
               ++ [(String "2" code,
                    {| OperationResponse.r_content :=
                         Some ((content_type, VDict media) :: more) |})]))
      = Ok {| OperationResponse._response_schema :=
                dict_get_default SCHEMA VNone media |}).
Proof.
  unfold OperationResponse.__init__. intros Hbefore.
  split; [|split; [|split]].
  - intros code r Hcode. rewrite !foldM_app, Hbefore. simpl.
    destruct code as [|c code]; simpl in Hcode; [discriminate|].
    apply negb_true_iff in Hcode. now rewrite Hcode.
  - intros r. now apply (foldM_raise_at _ before after _ _ resp).
  - intros Hcodes.
    rewrite (responses_loop_without_success before _ Hcodes) in Hbefore.
    now inversion Hbefore.
  - intros code content_type media more Hmedia.
    rewrite foldM_app, Hbefore. simpl.
    destruct media; [contradiction|reflexivity].
Qed.
(** * Worked examples *)

#[local] Existing Instance plain_runtime.
#[local] Existing Instance no_defaults.

(** The example service loads; the sub-document without an [operationId]
    is reported and left out. *)
Lemma users_client_loaded :
  Client.load_spec "users" users_paths
  = Ok (users_client, [Client.operationId_not_found "head" "/users"]).
Proof. vm_compute. reflexivity. Qed.

(** The four tiers of the negotiation on the example bodies: an explicit
    [content_type] on a body with two content types, a Content-Type header,
    the only content type of a body, and the error when nothing decides. *)
Lemma content_type_negotiation_examples :
  RequestBody.serialize upload_body []
    [("content_type", VStr "text/plain"); ("data", VStr "hello")]
  = Ok ([(CONTENT_TYPE_PARAM, VStr "text/plain")], [("data", VStr "hello")])
  /\ RequestBody.serialize upload_body
       [(CONTENT_TYPE_PARAM, VStr "text/plain")] [("data", VStr "hello")]
     = Ok ([(CONTENT_TYPE_PARAM, VStr "text/plain")],
           [("data", VStr "hello")])
  /\ RequestBody.serialize create_user_body [] [("name", VStr "Ann")]
     = Ok ([(CONTENT_TYPE_PARAM, VStr "application/json")],
           [("data", VStr (json_text (VDict [("name", VStr "Ann")])))])
  /\ RequestBody.serialize upload_body [] [] = Raise content_type_required.
Proof.
  split; [|split; [|split]].
  - destruct (content_type_negotiation_order upload_body []
                [("content_type", VStr "text/plain"); ("data", VStr "hello")])
      as [tier1 _].
    rewrite (tier1 (VStr "text/plain") eq_refl). reflexivity.
  - destruct (content_type_negotiation_order upload_body
                [(CONTENT_TYPE_PARAM, VStr "text/plain")]
                [("data", VStr "hello")])
      as (_ & tier2 & _).
    rewrite (tier2 (VStr "text/plain") eq_refl eq_refl). reflexivity.
  - destruct (content_type_negotiation_order create_user_body []
                [("name", VStr "Ann")])
      as (_ & _ & tier3 & _).
    rewrite (tier3 "application/json" optional_user eq_refl eq_refl eq_refl).
    + reflexivity.
    + discriminate.
  - destruct (content_type_negotiation_order upload_body [] [])
      as (_ & _ & _ & tier4).
    apply tier4.
    + reflexivity.
    + reflexivity.
    + simpl. lia.
Defined.

(** Witness of C2: the required query parameter [id] of [list_users], with
    no argument and no default. *)
Lemma missing_required_parameter_example :
  exists m,
    PathParameter.serialize user_id (initial_state []) = Raise (ValueError m)
    /\ m = [Text "'"; Text "id"; Text "' is required"]
    /\ In (Text "id") m.
Proof.
  apply (missing_required_parameter_raises user_id (initial_state []));
    reflexivity.
Defined.

(** C3 at a failing input.  [account_id] is a path parameter declared
    without a [required] flag: the [required] property holds, yet with no
    argument and no default [serialize] returns [None] without raising, and
    the parameters of [get_account] are serialized with nothing placed in
    the path parameters. *)
Lemma path_parameter_skipped_silently :
  PathParameter.required account_id = true
  /\ PathParameter.serialize account_id (initial_state [])
     = Ok (VNone, initial_state [])
  /\ Operation._params get_account = [account_id]
  /\ Operation.serialize_params (Operation._params get_account)
       (initial_state [])
     = Ok (initial_state []).
Proof. repeat split. Qed.

(** C4 at a failing input.  For the required path parameter [P] and the
    required header [H], neither of which has a default, [__lt__] answers
    [True] both ways: [P < H] by the location rank and [H < P] by the name,
    which is compared although the ranks already differ.  The documented
    order has [P] before [H] only. *)
Lemma lt_both_ways :
  @PathParameter.__lt__ default_for_Q param_P param_H = Ok true
  /\ @PathParameter.__lt__ default_for_Q param_H param_P = Ok true
  /\ @documented_lt default_for_Q param_P param_H = true
  /\ @documented_lt default_for_Q param_H param_P = false.
Proof. repeat split. Qed.

(** The remaining comparisons of the ordering example: the required [H]
    precedes the optional [Q], and [Q], in the query, precedes [H], in the
    headers, as well. *)
Lemma lt_ordering_example :
  @PathParameter.__lt__ default_for_Q param_P param_Q = Ok true
  /\ @PathParameter.__lt__ default_for_Q param_Q param_P = Ok false
  /\ @PathParameter.__lt__ default_for_Q param_H param_Q = Ok true
  /\ @PathParameter.__lt__ default_for_Q param_Q param_H = Ok true.
Proof. repeat split. Qed.

(** C5 at a failing input.  The array [[1, 2, 3]] passed for a query
    parameter in form style without explode is not joined into "1,2,3":
    the join raises [TypeError], in [serialize_query_parameter] and so in
    the [serialize] of the parameter [ids].  The same elements given as
    strings are joined, and the integers are turned into text everywhere
    else: by the sibling branch for an object in form style and by
    [serialize_value]. *)
Lemma array_of_integers_not_joined :
  PathParameter.serialize_query_parameter PARAMETER_STYLE_FORM false "ids"
    ARRAY (VList [VInt 1; VInt 2; VInt 3])
  = Raise TypeError
  /\ PathParameter.serialize packed_ids
       (initial_state [("ids", VList [VInt 1; VInt 2; VInt 3])])
     = Raise TypeError
  /\ PathParameter.serialize_query_parameter PARAMETER_STYLE_FORM false "ids"
       ARRAY (VList [VStr "1"; VStr "2"; VStr "3"])
     = Ok (VDict [("ids", VStr "1,2,3")])
  /\ PathParameter.serialize_query_parameter PARAMETER_STYLE_FORM false
       "filter" OBJECT (VDict [("a", VInt 1); ("b", VInt 2)])
     = Ok (VDict [("filter", VStr "a,1,b,2")])
  /\ serialize_value INTEGER (VInt 1) = VStr "1".
Proof. repeat split. Qed.

(** The array branch on the blank-delimited style. *)
Lemma array_query_parameter_example :
  PathParameter.serialize_query_parameter
    PARAMETER_STYLE_SPACE_DELIMITED true "tags" ARRAY
    (VList [VStr "a"; VInt 2])
  = Ok (VDict [("tags", VList [VStr "a"; VInt 2])])
  /\ PathParameter.serialize_query_parameter
       PARAMETER_STYLE_SPACE_DELIMITED false "tags" ARRAY
       (VList [VStr "a"; VStr "b"])
     = Ok (VDict [("tags", VStr "a b")]).
Proof.
  destruct (array_query_parameter_serialization
              PARAMETER_STYLE_SPACE_DELIMITED "tags"
              (VList [VStr "a"; VInt 2]) ["a"; "b"])
    as (explode & joined & _).
  - simpl. auto.
  - split; [exact explode | exact joined].
Defined.

(** C6 at a failing input.  The body of [create_user] declares the one
    content type [application/json] and the operation declares no
    parameter, yet its signature has the [content_type] parameter, with
    that content type as default: the parameter is not kept for bodies
    with more than one content type, as the comment of [_make_signature]
    has it.  For [upload], with two content types, the parameter is there
    without default. *)
Lemma content_type_injected_for_one_content_type :
  dict_keys (RequestBody._content create_user_body) = ["application/json"]
  /\ Operation._body create_user = Some create_user_body
  /\ Operation._params create_user = []
  /\ Operation._make_signature create_user
     = Ok [{| ip_name := "content_type"; ip_kind := KEYWORD_ONLY;
              ip_default := Some (VStr "application/json");
              ip_annotation := Some Tstr |};
           body_parameter "data"]
  /\ dict_keys (RequestBody._content upload_body)
     = ["application/json"; "text/plain"]
  /\ Operation._make_signature upload
     = Ok [{| ip_name := "content_type"; ip_kind := KEYWORD_ONLY;
              ip_default := None;
              ip_annotation := Some Tstr |};
           body_parameter "data"].
Proof. repeat split. Qed.

(** The body parameters of [create_user] and [upload]. *)
Lemma content_type_parameter_examples :
  Operation.body_params create_user
  = [injected_content_type create_user_body; body_parameter "data"]
  /\ ip_default (injected_content_type create_user_body)
     = Some (VStr "application/json")
  /\ ip_default (injected_content_type upload_body) = None
  /\ Operation.body_params get_account = [].
Proof.
  destruct (content_type_parameter_injection create_user)
    as (injected & _ & _ & unique & several & _).
  destruct (content_type_parameter_injection get_account)
    as (_ & _ & nobody & _).
  split; [|split; [|split]].
  - apply (injected create_user_body); reflexivity.
  - apply (unique create_user_body "application/json" optional_user).
    + reflexivity.
    + discriminate.
  - apply (several upload_body). simpl. lia.
  - apply nobody. reflexivity.
Defined.

(** Counterexample to C7 as stated: the body of [create_user] is optional
    and its serialization without any property does not fail; the empty
    object is the payload. *)
Lemma optional_empty_object_is_sent :
  RequestBody.serialize create_user_body [] []
  = Ok ([(CONTENT_TYPE_PARAM, VStr "application/json")],
        [("data", VStr "{}")]).
Proof. reflexivity. Qed.

(** Witness of C7: the required body of [replace_user] and the optional
    body of [create_user], without any property. *)
Lemma empty_object_body_examples :
  RequestBodyParameter.serialize required_user []
  = Raise (AlmdrlibValueError
             [Text "At least one the "; Keys ["name"];
              Text " parameters must be specified."])
  /\ RequestBodyParameter.serialize optional_user []
     = Ok [("data", VStr "{}")].
Proof.
  split.
  - apply (empty_object_body required_user [] false
             [("name", VDict [(TYPE, VStr STRING)])] []); reflexivity.
  - destruct (empty_object_body optional_user [] false
                [("name", VDict [(TYPE, VStr STRING)])] []
                eq_refl eq_refl eq_refl)
      as [_ optional].
    rewrite (optional eq_refl). reflexivity.
Defined.

(** C8 at a failing input.  [list_users] called without its required
    parameter raises the bare [ValueError] of the parameter, and [upload]
    called with a content type it does not declare raises a bare
    [KeyError]: neither carries the operation's identity.  The negotiation
    error of [upload] does. *)
Lemma bare_exceptions_leave_call :
  Operation.__call__ list_users []
  = Raise (ValueError [Text "'"; Text "id"; Text "' is required"])
  /\ Operation.__call__ upload [("content_type", VStr "image/png")]
     = Raise (KeyError (VStr "image/png"))
  /\ Operation.__call__ upload []
     = Raise (AlmdrlibValueError
                ([Text "<"; Text "users"; Text "."; Text "upload"; Text ": ";
                  Upper "post"; Text " "; Text "/files"; Text ">"]
                 ++ [Text " failed "]
                 ++ [Text "'"; Text "content_type"; Text "'";
                     Text "parameter is required."])).
Proof. repeat split. Qed.

(** Witness of C9: [users_paths] has a sub-document without [operationId]
    and loads; [duplicated_paths] names [list_users] twice and does not. *)
Lemma operation_ids_examples :
  Client._initialize_operations "users" users_paths
  = Ok (Client._operations users_client,
        [Client.operationId_not_found "head" "/users"])
  /\ Client._initialize_operations "users" duplicated_paths
     = Raise (duplication "list_users" "users")
  /\ exists e, Client.load_spec "users" duplicated_paths = Raise e.
Proof.
  split; [|split].
  - destruct (operation_ids_at_load "users" users_paths) as [skipped _].
    rewrite (skipped
               (firstn 4 (entries users_paths)) (skipn 5 (entries users_paths))
               "/users" "head" (operation None [] None) eq_refl eq_refl).
    reflexivity.
  - destruct (operation_ids_at_load "users" duplicated_paths)
      as [_ duplicated].
    destruct (duplicated
                (firstn 1 (entries duplicated_paths))
                (firstn 4 (skipn 2 (entries duplicated_paths))) []
                ("/users", "get",
                 operation (Some "list_users")
                   [parameter_spec QUERY "id" (Some true) None] None)
                ("/people", "get", operation (Some "list_users") [] None)
                "list_users" eq_refl eq_refl eq_refl)
      as [_ exact_error].
    + discriminate.
    + eapply exact_error. reflexivity.
  - destruct (operation_ids_at_load "users" duplicated_paths)
      as [_ duplicated].
    destruct (duplicated
                (firstn 1 (entries duplicated_paths))
                (firstn 4 (skipn 2 (entries duplicated_paths))) []
                ("/users", "get",
                 operation (Some "list_users")
                   [parameter_spec QUERY "id" (Some true) None] None)
                ("/people", "get", operation (Some "list_users") [] None)
                "list_users" eq_refl eq_refl eq_refl)
      as [[e [_ not_loaded]] _].
    + discriminate.
    + exists e. exact not_loaded.
Defined.

(** Witness of C10: [upload] declares [application/json] and [text/plain];
    [image/png] as argument or as header ends in the lookup. *)
Lemma undeclared_content_type_examples :
  RequestBody.serialize upload_body [] [("content_type", VStr "image/png")]
  = Raise (KeyError (VStr "image/png"))
  /\ RequestBody.serialize upload_body
       [(CONTENT_TYPE_PARAM, VStr "image/png")] []
     = Raise (KeyError (VStr "image/png")).
Proof.
  split.
  - apply (undeclared_content_type_lookup_error upload_body []
             [("content_type", VStr "image/png")] (VStr "image/png")).
    + left. reflexivity.
    + reflexivity.
  - apply (undeclared_content_type_lookup_error upload_body
             [(CONTENT_TYPE_PARAM, VStr "image/png")] []
             (VStr "image/png")).
    + right. split; reflexivity.
    + reflexivity.
Defined.

(** * Further worked examples *)

(** The required query parameter [id] consumes its own argument, writes the
    query parameters only and leaves the argument [page] alone. *)
Lemma serialize_touches_own_part_only_example :
  exists st',
    PathParameter.serialize user_id
      (initial_state [("id", VStr "7"); ("page", VStr "2")])
    = Ok (VBool true, st')
    /\ kwargs st' = [("page", VStr "2")]
    /\ path_params st' = [] /\ headers st' = [] /\ cookies st' = [].
Proof.
  eexists. split; [reflexivity|].
  destruct (serialize_touches_own_part_only user_id
              (initial_state [("id", VStr "7"); ("page", VStr "2")])
              _ _ eq_refl)
    as [[Hnone _] | (_ & Hkwargs & Hpath & _ & Hheaders & Hcookies)];
    [discriminate|].
  split; [exact Hkwargs|]. split; [now apply Hpath|].
  split; [now apply Hheaders | now apply Hcookies].
Defined.

(** The header [x-request-id] is passed as [x_request_id] and sent under
    its declared name; the boolean header [dry-run] passed the string
    "false" is sent as "true". *)
Lemma parameter_placed_under_declared_name_example :
  PathParameter._name (PathParameter.__init__ request_id_spec)
  = "x_request_id"
  /\ (exists st',
      PathParameter.serialize (PathParameter.__init__ request_id_spec)
        (initial_state [("x_request_id", VStr "r-1")])
      = Ok (VBool true, st')
      /\ dict_get "x-request-id" (headers st') = Some (VStr "r-1"))
  /\ (exists st',
      PathParameter.serialize (PathParameter.__init__ dry_run_spec)
        (initial_state [("dry_run", VStr "false")])
      = Ok (VBool true, st')
      /\ dict_get "dry-run" (headers st') = Some (VStr "true")).
Proof.
  split; [|split].
  - exact (proj1 (parameter_placed_under_declared_name request_id_spec
                    (initial_state [("x_request_id", VStr "r-1")])
                    (VStr "r-1") eq_refl)).
  - destruct (parameter_placed_under_declared_name request_id_spec
                (initial_state [("x_request_id", VStr "r-1")])
                (VStr "r-1") eq_refl)
      as (_ & _ & Hplaced & Hruns & _).
    destruct (Hruns (or_intror (or_introl eq_refl))) as [st' Hser].
    exists st'. split; [exact Hser|].
    exact (proj1 (proj2 (Hplaced st' _ Hser)) eq_refl).
  - destruct (parameter_placed_under_declared_name dry_run_spec
                (initial_state [("dry_run", VStr "false")])
                (VStr "false") eq_refl)
      as (_ & _ & Hplaced & Hruns & _).
    destruct (Hruns (or_intror (or_introl eq_refl))) as [st' Hser].
    exists st'. split; [exact Hser|].
    exact (proj1 (proj2 (Hplaced st' _ Hser)) eq_refl).
Defined.

(** With a session that holds the default 10 for [Q], a call without the
    argument serializes [Q] as a call that passes 10; with a session that
    holds none, the optional [Q] is skipped. *)
Lemma session_default_semantics_example :
  @PathParameter.serialize plain_runtime default_for_Q param_Q
    (initial_state [])
  = @PathParameter.serialize plain_runtime default_for_Q param_Q
      (initial_state [("Q", VInt 10)])
  /\ PathParameter.serialize param_Q (initial_state [])
     = Ok (VNone, initial_state []).
Proof.
  split.
  - exact (proj1 (@session_default_semantics plain_runtime default_for_Q
                    param_Q (initial_state []) eq_refl) eq_refl).
  - exact (proj2 (session_default_semantics param_Q (initial_state [])
                    eq_refl) eq_refl).
Defined.

(** The array parameter [ids] declared with the matrix style is built
    without complaint; a call that passes it raises, one that does not goes
    on. *)
Lemma query_style_checked_when_serialized_example :
  PathParameter.serialize matrix_param
    (initial_state [("ids", VList [VStr "a"])])
  = Raise (ValueError [Text "ids";
                       Text " query parameter has invalid style: ";
                       Text "matrix"])
  /\ PathParameter.serialize matrix_param (initial_state [])
     = Ok (VNone, initial_state []).
Proof.
  split.
  - exact (proj1 (query_style_checked_when_serialized matrix_param
                    (initial_state [("ids", VList [VStr "a"])])
                    eq_refl eq_refl)
             (or_introl eq_refl)).
  - exact (proj2 (query_style_checked_when_serialized matrix_param
                    (initial_state []) eq_refl eq_refl)
             eq_refl eq_refl eq_refl).
Defined.

(** The object [filter] in form style: exploded by default, packed into
    one string when [explode] is declared false. *)
Lemma object_query_parameter_example :
  PathParameter.serialize filter_param
    (initial_state [("filter", VDict [("a", VStr "1"); ("b", VStr "2")])])
  = Ok (VBool true,
        set_params (initial_state []) [("a", VStr "1"); ("b", VStr "2")])
  /\ PathParameter.serialize packed_filter_param
       (initial_state [("filter", VDict [("a", VStr "1"); ("b", VStr "2")])])
     = Ok (VBool true,
           set_params (initial_state []) [("filter", VStr "a,1,b,2")]).
Proof.
  split.
  - exact (proj1 (object_query_parameter filter_param
                    (initial_state
                       [("filter", VDict [("a", VStr "1"); ("b", VStr "2")])])
                    [("a", VStr "1"); ("b", VStr "2")]
                    eq_refl eq_refl eq_refl eq_refl)
             eq_refl).
  - exact (proj2 (object_query_parameter packed_filter_param
                    (initial_state
                       [("filter", VDict [("a", VStr "1"); ("b", VStr "2")])])
                    [("a", VStr "1"); ("b", VStr "2")]
                    eq_refl eq_refl eq_refl eq_refl)
             eq_refl).
Defined.

(** An array of integers passed for [ids], declared without style and
    explode, is handed on as the list it is. *)
Lemma query_array_defaults_to_explode_example :
  PathParameter.serialize
    (PathParameter.__init__ (parameter_spec QUERY "ids" None (Some ARRAY)))
    (initial_state [("ids", VList [VInt 1; VInt 2])])
  = Ok (VBool true,
        set_params (initial_state []) [("ids", VList [VInt 1; VInt 2])]).
Proof.
  exact (query_array_defaults_to_explode "ids" None None
           (initial_state [("ids", VList [VInt 1; VInt 2])])
           (VList [VInt 1; VInt 2]) eq_refl).
Defined.

(** The path parameter [user-id] and the required query parameter
    [user_id] are both passed as [user_id]: the path parameter takes the
    argument and the query parameter raises. *)
Lemma shared_python_name_starves_second_example :
  exists st1,
    PathParameter.serialize user_id_in_path
      (initial_state [("user_id", VStr "u1")])
    = Ok (VBool true, st1)
    /\ PathParameter.serialize user_id_in_query st1
       = Raise (ValueError [Text "'"; Text "user_id"; Text "' is required"]).
Proof.
  apply (shared_python_name_starves_second user_id_in_path user_id_in_query
           (initial_state [("user_id", VStr "u1")]) (VStr "u1")).
  - reflexivity.
  - discriminate.
  - constructor; [intros [] | constructor].
  - reflexivity.
  - reflexivity.
  - reflexivity.
Defined.

(** The scalar [text/plain] body of [upload] has no binary format: the
    string passed as [data] is the payload, and [page] is left alone. *)
Lemma simple_body_payload_example :
  RequestBodyParameter.serialize upload_text
    [("data", VStr "hello"); ("page", VInt 2)]
  = Ok [("page", VInt 2); ("data", VStr "hello")]
  /\ RequestBodyParameter.serialize upload_text [("page", VInt 2)]
     = Ok [("page", VInt 2); ("data", VStr "")].
Proof.
  split.
  - exact (proj1 (proj2 (simple_body_payload upload_text
                           [("data", VStr "hello"); ("page", VInt 2)]
                           None eq_refl))
             eq_refl).
  - exact (proj1 (proj2 (simple_body_payload upload_text
                           [("page", VInt 2)] None eq_refl))
             eq_refl).
Defined.

(** The object collected for [create_user] from the argument [name] has
    passed the validator. *)
Lemma payload_was_validated_example :
  exists kwargs',
    RequestBodyParameter.serialize optional_user [("name", VStr "Ann")]
    = Ok kwargs'
    /\ jsonschema_validate (RequestBodyParameter._schema optional_user)
         (VDict [("name", VStr "Ann")])
       = None.
Proof.
  eexists. split; [reflexivity|].
  exact (payload_was_validated optional_user [("name", VStr "Ann")] _
           eq_refl).
Defined.

(** The schema of [strict_user] requires [email]: a call that passes only
    [name] raises, and the error shows the required property and the
    arguments. *)
Lemma missing_required_property_raises_example :
  RequestBodyParameter.serialize strict_user [("name", VStr "Ann")]
  = Raise (AlmdrlibValueError
             [Text "'"; Repr (VList [VStr "email"]);
              Text "' parameters are required. '";
              Repr (VDict [("name", VStr "Ann")]);
              Text "' were provided."]).
Proof.
  refine (missing_required_property_raises strict_user
            [("name", VStr "Ann")] _ _ ["email"] "email" eq_refl _ eq_refl).
  now left.
Defined.

(** [create_user] called with [name] and [page]: the payload is the JSON
    text of the object with [name], [name] is consumed and [page] is left
    alone. *)
Lemma object_body_consumes_its_properties_example :
  exists kwargs' collected payload,
    RequestBodyParameter.serialize optional_user
      [("name", VStr "Ann"); ("page", VInt 2)]
    = Ok kwargs'
    /\ json_dumps (VDict collected) = Ok payload
    /\ dict_get "data" kwargs' = Some (VStr payload)
    /\ dict_get "name" collected = Some (VStr "Ann")
    /\ dict_get "page" collected = None
    /\ dict_get "name" kwargs' = None
    /\ dict_get "page" kwargs' = Some (VInt 2).
Proof.
  destruct (object_body_consumes_its_properties optional_user
              [("name", VStr "Ann"); ("page", VInt 2)]
              [("page", VInt 2);
               ("data", VStr (json_text (VDict [("name", VStr "Ann")])))]
              [("name", VDict [(TYPE, VStr STRING)])] [] eq_refl)
    as (collected & payload & Hdumps & Hdata & Hcollected & Hrest).
  - constructor; [intros [Heq|[]]; discriminate|].
    constructor; [intros []|constructor].
  - reflexivity.
  - eexists. exists collected, payload.
    split; [reflexivity|]. split; [exact Hdumps|]. split; [exact Hdata|].
    split; [exact (Hcollected "name")|]. split; [exact (Hcollected "page")|].
    split; [apply (Hrest "name") | apply (Hrest "page")]; discriminate.
Defined.

(** Adding [text/plain] with a string schema to an empty body declares it
    with a parameter that carries the content type and the body's flag. *)
Lemma add_content_declares_example :
  exists b' p,
    RequestBody.add_content no_body "text/plain" text_schema
      {| RequestBodyParameter.al_name := None;
         RequestBodyParameter.al_encoding := None |}
    = Ok b'
    /\ RequestBody.getitem_content b' (VStr "text/plain") = Ok p
    /\ RequestBodyParameter._content_type p = "text/plain"
    /\ RequestBodyParameter._required p = false.
Proof.
  destruct (@add_content_declares plain_runtime no_body text_body
              "text/plain" text_schema
              {| RequestBodyParameter.al_name := None;
                 RequestBodyParameter.al_encoding := None |}
              eq_refl)
    as (_ & Hdeclared & _).
  destruct (Hdeclared eq_refl)
    as (sd & p & _ & Hget & Hct & Hrequired & _).
  exists text_body, p. split; [reflexivity|]. split; [exact Hget|].
  split; [exact Hct | exact Hrequired].
Defined.

(** The body of [upload] is optional and declares [text/plain]; its
    parameter for [text/plain] carries that content type. *)
Lemma loaded_body_content_example :
  Client._initalize_request_body (Some two_types_body_spec)
  = Ok (Some upload_body)
  /\ RequestBody._required upload_body = false
  /\ dict_mem "text/plain" (RequestBody._content upload_body) = true
  /\ RequestBodyParameter._content_type upload_text = "text/plain".
Proof.
  destruct (@loaded_body_content plain_runtime two_types_body_spec upload_body eq_refl)
    as (Hrequired & Hdeclared & Hstored & _).
  split; [reflexivity|]. split; [exact Hrequired|]. split.
  - apply Hdeclared. exists (media text_schema), text_schema.
    split; [right; left; reflexivity|]. split; reflexivity.
  - exact (proj1 (Hstored "text/plain" upload_text eq_refl)).
Defined.

(** The second media-type object of [broken_body_spec] has no schema: the
    body does not load. *)
Lemma media_type_without_schema_aborts_example :
  Client._initalize_request_body (Some broken_body_spec)
  = Raise (KeyError (VStr SCHEMA)).
Proof.
  exact (@media_type_without_schema_aborts plain_runtime broken_body_spec
           [("application/json", media user_schema)] [] "text/plain"
           {| Client.mt_schema := None; Client.mt_al_schema := None |}
           create_user_body eq_refl eq_refl eq_refl).
Defined.

(** [upload] called with [content_type] and [data]: the header is set, the
    trace header stays, the payload is there and [content_type] is gone. *)
Lemma body_serialize_postcondition_example :
  exists headers' kwargs',
    RequestBody.serialize upload_body [("x-trace", VStr "t")]
      [("content_type", VStr "text/plain"); ("data", VStr "hello")]
    = Ok (headers', kwargs')
    /\ (exists content_type,
        dict_get CONTENT_TYPE_PARAM headers' = Some content_type
        /\ declared upload_body content_type = true)
    /\ dict_get "x-trace" headers' = Some (VStr "t")
    /\ dict_mem "data" kwargs' = true
    /\ dict_mem "content_type" kwargs' = false.
Proof.
  exists [("x-trace", VStr "t"); (CONTENT_TYPE_PARAM, VStr "text/plain")],
    [("data", VStr "hello")].
  destruct (@body_serialize_postcondition plain_runtime upload_body
              [("x-trace", VStr "t")]
              [("content_type", VStr "text/plain"); ("data", VStr "hello")]
              [("x-trace", VStr "t"); (CONTENT_TYPE_PARAM, VStr "text/plain")]
              [("data", VStr "hello")])
    as (Hheader & Hother & Hdata & Hgone).
  - constructor; [intros [Heq|[]]; discriminate|].
    constructor; [intros []|constructor].
  - reflexivity.
  - split; [reflexivity|]. split; [exact Hheader|].
    split; [apply (Hother "x-trace"); discriminate|].
    split; [exact Hdata | exact Hgone].
Defined.

(** [list_users] declares no header parameter: after its parameters the
    headers hold no Content-Type. *)
Lemma content_type_header_needs_header_parameter_example :
  exists st,
    Operation.serialize_params (Operation._params list_users)
      (initial_state [("id", VStr "7")])
    = Ok st
    /\ dict_get CONTENT_TYPE_PARAM (headers st) = None.
Proof.
  eexists. split; [reflexivity|].
  apply (@content_type_header_needs_header_parameter plain_runtime
           no_defaults list_users
           [("id", VStr "7")]).
  - intros p [<-|[]] Hin. discriminate.
  - reflexivity.
Defined.

(** [typed_upload] declares the Content-Type header, passed as
    [Content_Type]: the value passed selects the scalar parameter of
    [text/plain]. *)
Lemma content_type_header_parameter_selects_example :
  Operation._gen_call typed_upload
    [("Content_Type", VStr "text/plain"); ("data", VStr "hello")]
  = Ok {| path_params := []; params := [];
          headers := [(CONTENT_TYPE_PARAM, VStr "text/plain")];
          cookies := [];
          kwargs := [("data", VStr "hello")] |}.
Proof.
  rewrite (@content_type_header_parameter_selects plain_runtime no_defaults
             typed_upload
             (PathParameter.__init__
                (parameter_spec HEADER CONTENT_TYPE_PARAM None (Some STRING)))
             upload_body
             [("Content_Type", VStr "text/plain"); ("data", VStr "hello")]
             (VStr "text/plain") eq_refl eq_refl eq_refl eq_refl eq_refl);
    [reflexivity | discriminate | reflexivity | reflexivity].
Defined.

(** The required parameter [id] of [list_users] is documented as required
    and is a parameter without default of the signature. *)
Lemma documented_required_parameters_in_signature_example :
  exists names signature parameter,
    Operation.required_param_names list_users = Ok names
    /\ Operation._make_signature list_users = Ok signature
    /\ In parameter signature
    /\ ip_name parameter = "id"
    /\ ip_default parameter = None.
Proof.
  destruct (@documented_required_parameters_in_signature plain_runtime
              no_defaults list_users ["id"]
              (match @Operation._make_signature plain_runtime no_defaults
                       list_users
               with Ok signature => signature | Raise _ => [] end)
              eq_refl eq_refl "id" (or_introl eq_refl))
    as (parameter & Hin & Hname & Hdefault).
  eexists. eexists. exists parameter.
  split; [reflexivity|]. split; [reflexivity|].
  split; [exact Hin|]. split; [exact Hname | exact Hdefault].
Defined.

(** The parameters [P] and [H] of the ordering example. *)
Lemma lt_connex_and_irreflexive_example :
  PathParameter.__lt__ param_P param_P = Ok false
  /\ (PathParameter.__lt__ param_P param_H = Ok true
      \/ PathParameter.__lt__ param_H param_P = Ok true).
Proof.
  destruct (@lt_connex_and_irreflexive no_defaults param_P param_H _ _
              eq_refl eq_refl)
    as (_ & Hirreflexive & Hconnex).
  split; [exact Hirreflexive|]. apply Hconnex. discriminate.
Defined.

(** The five operations of the example service, in document order, and the
    warning for the sub-document without an [operationId]. *)
Lemma loaded_operation_ids_example :
  dict_keys (Client._operations users_client)
  = ["get_account"; "list_users"; "create_user"; "replace_user"; "upload"]
  /\ NoDup (operation_ids (entries users_paths))
  /\ List.length (Client._operations users_client) = 5%nat.
Proof.
  destruct (@loaded_operation_ids plain_runtime "users" users_paths
              (Client._operations users_client)
              [Client.operationId_not_found "head" "/users"] eq_refl)
    as (Hkeys & _ & Hnodup & Hlength).
  split; [exact Hkeys|]. split; [exact Hnodup | exact Hlength].
Defined.

(** [upload] is reached by its name and is the POST on [/files]; the name
    [delete_user] reaches nothing. *)
Lemma loaded_operations_reachable_example :
  (exists op,
      Client.__getattr__ users_client "upload" = Some op
      /\ Operation._path op = "/files"
      /\ Operation._method op = "post"
      /\ Operation._client_name op = "users")
  /\ Client.__getattr__ users_client "delete_user" = None.
Proof.
  destruct (@loaded_operations_reachable plain_runtime "users" users_paths users_client
              [Client.operationId_not_found "head" "/users"] eq_refl)
    as [Hreach Hnone].
  split.
  - destruct (Hreach "/files" "post"
                (operation (Some "upload") [] (Some two_types_body_spec))
                "upload")
      as (op & Hget & _ & Hpath & Hmethod & Hclient & _).
    + cbv. do 5 right. left. reflexivity.
    + reflexivity.
    + discriminate.
    + exists op. split; [exact Hget|]. split; [exact Hpath|].
      split; [exact Hmethod | exact Hclient].
  - apply Hnone. cbv. intros Hin.
    repeat (destruct Hin as [Hin|Hin]; [discriminate|]). exact Hin.
Defined.

(** After an error response and a default response: an empty code raises,
    and a following 200 with a JSON schema decides the schema. *)
Lemma response_schema_selection_example :
  OperationResponse.__init__ (Some listed_responses) = Ok no_response
  /\ OperationResponse.__init__
       (Some (listed_responses
              ++ [("", {| OperationResponse.r_content := None |})]))
     = Raise IndexError
  /\ OperationResponse.__init__
       (Some (listed_responses
              ++ [("200",
                   {| OperationResponse.r_content :=
                        Some [("application/json",
                               VDict [(SCHEMA, user_schema)])] |})]))
     = Ok {| OperationResponse._response_schema := user_schema |}.
Proof.
  destruct (response_schema_selection listed_responses []
              no_response eq_refl)
    as (_ & Hempty & _ & Hlast).
  split; [reflexivity|]. split; [apply Hempty|].
  apply (Hlast "00" "application/json" [(SCHEMA, user_schema)] []).
  discriminate.
Defined.

(** The parameter built from [strict_user_schema]: [email] is required, is
    a property and is marked. *)
Lemma object_parameter_invariant_example :
  exists explode properties,
    RequestBodyParameter._variant strict_user
    = RequestBodyParameter.RequestBodyObjectParameter
        explode properties ["email"]
    /\ dict_keys properties = ["name"; "email"]
    /\ marked_required properties "email".
Proof.
  destruct (@object_parameter_invariant plain_runtime "data"
              "application/json"
              [(TYPE, VStr OBJECT);
               (PROPERTIES, VDict [("name", VDict [(TYPE, VStr STRING)]);
                                   ("email", VDict [(TYPE, VStr STRING)])]);
               (REQUIRED, VList [VStr "email"])]
              {| RequestBodyParameter.al_name := None;
                 RequestBodyParameter.al_encoding := None |}
              false strict_user eq_refl)
    as (explode & properties & required_properties & schema' & Hvariant
        & _ & Hmarked & _).
  injection Hvariant as <- <- <-.
  eexists. eexists. split; [reflexivity|]. split; [reflexivity|].
  apply Hmarked. now left.
Defined.

(** [exploded_user] called with [user], [note] and [page]: the payload is
    the JSON text of [user] alone, [note] is consumed and [page] is left. *)
Lemma exploded_object_body_example :
  exists kwargs' payload,
    RequestBodyParameter.serialize exploded_user
      [("user", VDict [("name", VStr "Ann")]); ("note", VStr "n");
       ("page", VInt 2)]
    = Ok kwargs'
    /\ json_dumps (VDict [("name", VStr "Ann")]) = Ok payload
    /\ dict_get "data" kwargs' = Some (VStr payload)
    /\ dict_get "note" kwargs' = None
    /\ dict_get "page" kwargs' = Some (VInt 2).
Proof.
  destruct (@exploded_object_body plain_runtime exploded_user
              [("user", VDict [("name", VStr "Ann")]); ("note", VStr "n");
               ("page", VInt 2)]
              [("page", VInt 2);
               ("data", VStr (json_text (VDict [("name", VStr "Ann")])))]
              [("user", VDict [(TYPE, VStr OBJECT)]);
               ("note", VDict [(TYPE, VStr STRING)])]
              [] eq_refl)
    as (sub & payload & Hsub & _ & Hdumps & Hdata & Hrest).
  - constructor; [intros [Heq|[Heq|[]]]; discriminate|].
    constructor; [intros [Heq|[]]; discriminate|].
    constructor; [intros []|constructor].
  - reflexivity.
  - injection Hsub as <-.
    eexists. exists payload. split; [reflexivity|]. split; [exact Hdumps|].
    split; [exact Hdata|].
    split; [apply (Hrest "note") | apply (Hrest "page")]; discriminate.
Defined.

(** [P] comes before [Q] in the documented order, and [__lt__] agrees. *)
Lemma documented_lt_implies_lt_example :
  documented_lt param_P param_Q = true
  /\ PathParameter.__lt__ param_P param_Q = Ok true.
Proof.
  split; [reflexivity|].
  exact (@documented_lt_implies_lt no_defaults param_P param_Q eq_refl).
Defined.

(** An operation whose two parameters share [user_id]: the parameters are
    serialized first, so the call ends in the second parameter's error
    whatever the body would have done. *)
Lemma gen_call_parameter_raises_example :
  Operation._gen_call
    {| Operation._path := "/users/{user-id}";
       Operation._params := [user_id_in_path; user_id_in_query];
       Operation._summary := "";
       Operation._description := "";
       Operation._method := "put";
       Operation._body := Some upload_body;
       Operation._response := no_response;
       Operation._operation_id := "move_user";
       Operation._client_name := "users" |}
    [("user_id", VStr "u1")]
  = Raise (ValueError [Text "'"; Text "user_id"; Text "' is required"]).
Proof.
  apply (@gen_call_parameter_raises plain_runtime no_defaults _
           [("user_id", VStr "u1")] [user_id_in_path] [] user_id_in_query
           (set_path_params (initial_state []) [("user-id", VStr "u1")]));
    reflexivity.
Defined.
